(** * Home purchase calculator: the financial calculation engine of
    [static/js/app.js], embedded in Rocq.

    JavaScript numbers are modelled as exact rationals ([Q]); the one
    [Infinity] of the source, the ceiling of the last land-transfer-tax
    bracket, is modelled by the two-constructor type [ext].  [Math.pow] is a
    library function of the host and is taken as a parameter.  Where a
    statement turns on the rounding of the host, the formulas are taken again
    on binary64 numbers, in the module [Double]. *)

From Stdlib Require Import QArith Qminmax Qround Qabs Lqa Lia.
From Stdlib Require Import PrimFloat FloatOps SpecFloat.
From stdpp Require Import base list strings pretty.

#[local] Set Warnings "-inexact-float".

Open Scope Q_scope.

(** ** Numbers *)

Definition Qlt_bool (x y : Q) : bool := negb (Qle_bool y x).

Notation "x <=? y" := (Qle_bool x y) (at level 70, no associativity) : Q_scope.
Notation "x <? y" := (Qlt_bool x y) (at level 70, no associativity) : Q_scope.
Notation "x >? y" := (Qlt_bool y x) (at level 70, no associativity) : Q_scope.

Fixpoint Qsum (l : list Q) : Q :=
  match l with
  | [] => 0
  | x :: l' => x + Qsum l'
  end.

(** [Math.round]: the nearest integer, halves rounded up. *)
Definition Math_round (x : Q) : Q := inject_Z (Qfloor (x + (1 # 2))).

(** A number that may be [Infinity] (only bracket thresholds are). *)
Inductive ext : Type :=
| Fin (q : Q)
| Inf.

(** ** Divisions that can be observed

    A computation in [Traced] returns its value together with the divisors
    it used, in the order of the divisions. *)

Record Traced (A : Type) : Type := traced { value : A; divisors : list Q }.
Arguments traced {A} _ _.
Arguments value {A} _.
Arguments divisors {A} _.

Definition ret {A} (a : A) : Traced A := traced a [].

Definition bind {A B} (m : Traced A) (k : A -> Traced B) : Traced B :=
  let r := k (value m) in traced (value r) (divisors m ++ divisors r).

Definition div (x y : Q) : Traced Q := traced (x / y) [y].

Notation "'let*' x ':=' m 'in' k" := (bind m (fun x => k))
  (at level 10, x name, m at level 100, k at level 200).

(** No division of the computation has a zero divisor. *)
Definition no_zero_divisor {A} (m : Traced A) : Prop :=
  Forall (fun d => ~ d == 0) (divisors m).

(** ** Constants *)

Module Cmhc.
Record bracket : Type := { maxLtv : Q; rate : Q }.
End Cmhc.

Definition CMHC_RATES : list Cmhc.bracket :=
  [ {| Cmhc.maxLtv := 0.65; Cmhc.rate := 0.0060 |};
    {| Cmhc.maxLtv := 0.75; Cmhc.rate := 0.0170 |};
    {| Cmhc.maxLtv := 0.80; Cmhc.rate := 0.0240 |};
    {| Cmhc.maxLtv := 0.85; Cmhc.rate := 0.0280 |};
    {| Cmhc.maxLtv := 0.90; Cmhc.rate := 0.0310 |};
    {| Cmhc.maxLtv := 0.95; Cmhc.rate := 0.0400 |} ].

Definition CMHC_30_YEAR_SURCHARGE : Q := 0.0020.
Definition QUEBEC_TVQ_RATE : Q := 0.09975.

Module Welcome.
Record bracket : Type := { threshold : ext; rate : Q }.

(** One entry of the breakdown of [calculateWelcomeTax]. *)
Record entry : Type :=
  { from : ext; to : Q; entry_rate : Q; amount : Q; tax : Q }.

Record result : Type := { breakdown : list entry; totalTax : Q }.
End Welcome.

Definition QUEBEC_WELCOME_TAX_BRACKETS : list Welcome.bracket :=
  [ {| Welcome.threshold := Fin 55200; Welcome.rate := 0.005 |};
    {| Welcome.threshold := Fin 276200; Welcome.rate := 0.010 |};
    {| Welcome.threshold := Fin 500000; Welcome.rate := 0.015 |};
    {| Welcome.threshold := Fin 1000000; Welcome.rate := 0.020 |};
    {| Welcome.threshold := Inf; Welcome.rate := 0.025 |} ].

(** ** Financing source types *)

Module TypeConfig.
(** A field the object literal does not give is [undefined]: [false] for
    the flag [isAutoCalculated], [None] for the numeric ceilings. *)
Record t : Type :=
  { label : string;
    requiresRepayment : bool;
    repaymentYears : option Q;
    isLoan : bool;
    countsTowardDownPayment : bool;
    isAutoCalculated : bool;
    maxContribution : option Q;
    maxWithdrawal : option Q }.
End TypeConfig.

Module Types.
Record t : Type :=
  { mortgage : TypeConfig.t;
    celiapp : TypeConfig.t;
    rrsp : TypeConfig.t;
    tfsa : TypeConfig.t;
    joint_account : TypeConfig.t;
    parents_loan : TypeConfig.t;
    other_loan : TypeConfig.t;
    other_savings : TypeConfig.t }.

(** [types[key]]; [None] is [undefined]. *)
Definition get (types : t) (key : string) : option TypeConfig.t :=
  if (key =? "mortgage")%string then Some (mortgage types)
  else if (key =? "celiapp")%string then Some (celiapp types)
  else if (key =? "rrsp")%string then Some (rrsp types)
  else if (key =? "tfsa")%string then Some (tfsa types)
  else if (key =? "joint_account")%string then Some (joint_account types)
  else if (key =? "parents_loan")%string then Some (parents_loan types)
  else if (key =? "other_loan")%string then Some (other_loan types)
  else if (key =? "other_savings")%string then Some (other_savings types)
  else None.
End Types.

Definition FINANCING_TYPES : Types.t :=
  {| Types.mortgage :=
       {| TypeConfig.label := "Bank Mortgage";
          TypeConfig.requiresRepayment := true;
          TypeConfig.repaymentYears := None;
          TypeConfig.isLoan := true;
          TypeConfig.countsTowardDownPayment := false;
          TypeConfig.isAutoCalculated := false;
          TypeConfig.maxContribution := None;
          TypeConfig.maxWithdrawal := None |};
     Types.celiapp :=
       {| TypeConfig.label := "CELIAPP";
          TypeConfig.requiresRepayment := false;
          TypeConfig.repaymentYears := None;
          TypeConfig.isLoan := false;
          TypeConfig.countsTowardDownPayment := true;
          TypeConfig.isAutoCalculated := false;
          TypeConfig.maxContribution := Some 40000;
          TypeConfig.maxWithdrawal := None |};
     Types.rrsp :=
       {| TypeConfig.label := "RRSP (Home Buyers' Plan)";
          TypeConfig.requiresRepayment := true;
          TypeConfig.repaymentYears := Some 15;
          TypeConfig.isLoan := false;
          TypeConfig.countsTowardDownPayment := true;
          TypeConfig.isAutoCalculated := false;
          TypeConfig.maxContribution := None;
          TypeConfig.maxWithdrawal := Some 60000 |};
     Types.tfsa :=
       {| TypeConfig.label := "TFSA";
          TypeConfig.requiresRepayment := false;
          TypeConfig.repaymentYears := None;
          TypeConfig.isLoan := false;
          TypeConfig.countsTowardDownPayment := true;
          TypeConfig.isAutoCalculated := false;
          TypeConfig.maxContribution := None;
          TypeConfig.maxWithdrawal := None |};
     Types.joint_account :=
       {| TypeConfig.label := "Joint Account";
          TypeConfig.requiresRepayment := false;
          TypeConfig.repaymentYears := None;
          TypeConfig.isLoan := false;
          TypeConfig.countsTowardDownPayment := false;
          TypeConfig.isAutoCalculated := false;
          TypeConfig.maxContribution := None;
          TypeConfig.maxWithdrawal := None |};
     Types.parents_loan :=
       {| TypeConfig.label := "Parent's Loan";
          TypeConfig.requiresRepayment := true;
          TypeConfig.repaymentYears := None;
          TypeConfig.isLoan := true;
          TypeConfig.countsTowardDownPayment := true;
          TypeConfig.isAutoCalculated := true;
          TypeConfig.maxContribution := None;
          TypeConfig.maxWithdrawal := None |};
     Types.other_loan :=
       {| TypeConfig.label := "Other Loan";
          TypeConfig.requiresRepayment := true;
          TypeConfig.repaymentYears := None;
          TypeConfig.isLoan := true;
          TypeConfig.countsTowardDownPayment := false;
          TypeConfig.isAutoCalculated := false;
          TypeConfig.maxContribution := None;
          TypeConfig.maxWithdrawal := None |};
     Types.other_savings :=
       {| TypeConfig.label := "Other Savings";
          TypeConfig.requiresRepayment := false;
          TypeConfig.repaymentYears := None;
          TypeConfig.isLoan := false;
          TypeConfig.countsTowardDownPayment := true;
          TypeConfig.isAutoCalculated := false;
          TypeConfig.maxContribution := None;
          TypeConfig.maxWithdrawal := None |} |}.

(** ** Calculation functions *)

Definition calculateLtv (purchasePrice downPayment : Q) : Q :=
  if purchasePrice <=? 0 then 0
  else (purchasePrice - downPayment) / purchasePrice.

(** The [for ... of] loop of [getCmhcRate]: [rate] keeps its value when no
    bracket matches, and the first match ends the loop. *)
Fixpoint cmhc_scan (brackets : list Cmhc.bracket) (ltv rate : Q) : Q :=
  match brackets with
  | [] => rate
  | bracket :: rest =>
      if ltv <=? Cmhc.maxLtv bracket then Cmhc.rate bracket
      else cmhc_scan rest ltv rate
  end.

Definition getCmhcRate (ltv : Q) (is30Year : bool) : Q :=
  let rate := cmhc_scan CMHC_RATES ltv 0 in
  if is30Year then rate + CMHC_30_YEAR_SURCHARGE else rate.

Module CmhcResult.
Record t : Type :=
  { mortgageAmount : Q;
    ltv : Q;
    ltvPercent : Q;
    downPaymentPercent : Q;
    cmhcRequired : bool;
    premiumRate : Q;
    premiumRatePercent : Q;
    cmhcPremium : Q;
    quebecTax : Q;
    totalCmhcCost : Q;
    totalMortgage : Q }.
End CmhcResult.

Definition calculateCmhc (purchasePrice downPayment : Q) (is30Year : bool)
  : CmhcResult.t :=
  let mortgageAmount := purchasePrice - downPayment in
  let ltv := calculateLtv purchasePrice downPayment in
  let downPaymentPercent :=
    if purchasePrice >? 0 then (downPayment / purchasePrice) * 100 else 0 in
  let cmhcRequired := ltv >? 0.80 in
  let premiumRate := getCmhcRate ltv is30Year in
  let cmhcPremium := if cmhcRequired then mortgageAmount * premiumRate else 0 in
  let quebecTax := cmhcPremium * QUEBEC_TVQ_RATE in
  let totalCmhcCost := cmhcPremium + quebecTax in
  let totalMortgage := mortgageAmount + totalCmhcCost in
  {| CmhcResult.mortgageAmount := mortgageAmount;
     CmhcResult.ltv := ltv;
     CmhcResult.ltvPercent := ltv * 100;
     CmhcResult.downPaymentPercent := downPaymentPercent;
     CmhcResult.cmhcRequired := cmhcRequired;
     CmhcResult.premiumRate := premiumRate;
     CmhcResult.premiumRatePercent := premiumRate * 100;
     CmhcResult.cmhcPremium := cmhcPremium;
     CmhcResult.quebecTax := quebecTax;
     CmhcResult.totalCmhcCost := totalCmhcCost;
     CmhcResult.totalMortgage := totalMortgage |}.

Module Payment.
(** [monthlyRate] is a field of the result of the general branch only. *)
Record t : Type :=
  { monthlyPayment : Q;
    totalPayments : Q;
    totalInterest : Q;
    monthlyRate : option Q }.
End Payment.

Module Breakdown.
Record t : Type := { interestPortion : Q; principalPortion : Q }.
End Breakdown.

Module Affordability.
Record t : Type :=
  { ratio : Q; percent : Q; status : string; statusColor : string }.
End Affordability.

Section Formulas.

(** [Math.pow] of the host. *)
Variable Math_pow : Q -> Q -> Q.

Definition calculateMonthlyPayment (principal annualRate termMonths : Q)
  : Traced Payment.t :=
  if (principal <=? 0) || (termMonths <=? 0) then
    ret {| Payment.monthlyPayment := 0;
           Payment.totalPayments := 0;
           Payment.totalInterest := 0;
           Payment.monthlyRate := None |}
  else
    let* percent := div annualRate 100 in
    let* monthlyRate := div percent 12 in
    if Qeq_bool monthlyRate 0 then
      let* monthlyPayment := div principal termMonths in
      ret {| Payment.monthlyPayment := monthlyPayment;
             Payment.totalPayments := principal;
             Payment.totalInterest := 0;
             Payment.monthlyRate := None |}
    else
      let rateFactor := Math_pow (1 + monthlyRate) termMonths in
      let* monthlyPayment :=
        div (principal * (monthlyRate * rateFactor)) (rateFactor - 1) in
      let totalPayments := monthlyPayment * termMonths in
      let totalInterest := totalPayments - principal in
      ret {| Payment.monthlyPayment := monthlyPayment;
             Payment.totalPayments := totalPayments;
             Payment.totalInterest := totalInterest;
             Payment.monthlyRate := Some monthlyRate |}.

End Formulas.

Definition calculatePaymentBreakdown
  (principal annualRate monthlyPayment : Q) (currentBalance : option Q)
  : Breakdown.t :=
  let balance :=
    match currentBalance with Some b => b | None => principal end in
  let monthlyRate := (annualRate / 100) / 12 in
  let interestPortion := balance * monthlyRate in
  let principalPortion := monthlyPayment - interestPortion in
  {| Breakdown.interestPortion := interestPortion;
     Breakdown.principalPortion := principalPortion |}.

(** *** Land-transfer ("welcome") tax *)

Module WelcomeLoop.
Record t : Type :=
  { totalTax : Q;
    remaining : Q;
    previousThreshold : ext;
    breakdown : list Welcome.entry }.
End WelcomeLoop.

(** [Math.min(remaining, bracket.threshold - previousThreshold)].  With
    [previousThreshold = Infinity] the difference is [-Infinity] or [NaN] and
    so is the minimum, which fails the test [> 0]: that is [None]. *)
Definition amountInBracket (remaining : Q) (threshold previous : ext)
  : option Q :=
  match threshold, previous with
  | Fin t, Fin p => Some (Qmin remaining (t - p))
  | Inf, Fin _ => Some remaining
  | _, Inf => None
  end.

(** [Math.min(bracket.threshold, purchasePrice)]. *)
Definition min_ext (threshold : ext) (x : Q) : Q :=
  match threshold with
  | Fin t => Qmin t x
  | Inf => x
  end.

Definition welcome_body (purchasePrice : Q) (bracket : Welcome.bracket)
  (st : WelcomeLoop.t) : WelcomeLoop.t :=
  let st1 :=
    match amountInBracket (WelcomeLoop.remaining st)
            (Welcome.threshold bracket) (WelcomeLoop.previousThreshold st) with
    | Some amount =>
        if amount >? 0 then
          let taxInBracket := amount * Welcome.rate bracket in
          {| WelcomeLoop.totalTax := WelcomeLoop.totalTax st + taxInBracket;
             WelcomeLoop.remaining := WelcomeLoop.remaining st - amount;
             WelcomeLoop.previousThreshold := WelcomeLoop.previousThreshold st;
             WelcomeLoop.breakdown :=
               WelcomeLoop.breakdown st ++
               [ {| Welcome.from := WelcomeLoop.previousThreshold st;
                    Welcome.to :=
                      min_ext (Welcome.threshold bracket) purchasePrice;
                    Welcome.entry_rate := Welcome.rate bracket;
                    Welcome.amount := amount;
                    Welcome.tax := taxInBracket |} ] |}
        else st
    | None => st
    end in
  {| WelcomeLoop.totalTax := WelcomeLoop.totalTax st1;
     WelcomeLoop.remaining := WelcomeLoop.remaining st1;
     WelcomeLoop.previousThreshold := Welcome.threshold bracket;
     WelcomeLoop.breakdown := WelcomeLoop.breakdown st1 |}.

(** The loop over the brackets, left when [remaining <= 0]. *)
Fixpoint welcome_loop (purchasePrice : Q) (brackets : list Welcome.bracket)
  (st : WelcomeLoop.t) : WelcomeLoop.t :=
  match brackets with
  | [] => st
  | bracket :: rest =>
      let st' := welcome_body purchasePrice bracket st in
      if WelcomeLoop.remaining st' <=? 0 then st'
      else welcome_loop purchasePrice rest st'
  end.

Definition calculateWelcomeTax (purchasePrice : Q) : Welcome.result :=
  let st :=
    welcome_loop purchasePrice QUEBEC_WELCOME_TAX_BRACKETS
      {| WelcomeLoop.totalTax := 0;
         WelcomeLoop.remaining := purchasePrice;
         WelcomeLoop.previousThreshold := Fin 0;
         WelcomeLoop.breakdown := [] |} in
  {| Welcome.breakdown := WelcomeLoop.breakdown st;
     Welcome.totalTax := WelcomeLoop.totalTax st |}.

(** *** Household affordability *)

Definition calculateAffordability (totalMonthlyCosts grossMonthlyIncome : Q)
  : Traced Affordability.t :=
  if grossMonthlyIncome <=? 0 then
    ret {| Affordability.ratio := 0;
           Affordability.percent := 0;
           Affordability.status := "unknown";
           Affordability.statusColor := "gray" |}
  else
    let* ratio := div totalMonthlyCosts grossMonthlyIncome in
    let percent := ratio * 100 in
    if percent <=? 30 then
      ret {| Affordability.ratio := ratio;
             Affordability.percent := percent;
             Affordability.status := "Affordable";
             Affordability.statusColor := "green" |}
    else if percent <=? 40 then
      ret {| Affordability.ratio := ratio;
             Affordability.percent := percent;
             Affordability.status := "Caution";
             Affordability.statusColor := "yellow" |}
    else
      ret {| Affordability.ratio := ratio;
             Affordability.percent := percent;
             Affordability.status := "High Risk";
             Affordability.statusColor := "red" |}.

(** ** The page: input fields and application state *)

(** The id of an element: a fixed name, or [`${prefix}-${index}`]. *)
Inductive ElementId : Type :=
| Named (id : string)
| Indexed (prefix : string) (index : nat).

#[global] Instance ElementId_eq_dec : EqDecision ElementId.
Proof. solve_decision. Defined.

Module Dom.
(** [inputs id] is [None] when the document has no such element, and
    otherwise [parseFloat(el.value) || 0] of the element. *)
Record t : Type :=
  { inputs : ElementId -> option Q;
    selects : ElementId -> option string;
    checked : ElementId -> option bool;
    perPersonRatios : bool }.

(** [el.value = v] for the input [id]. *)
Definition set_input (dom : t) (id : ElementId) (v : Q) : t :=
  {| inputs := fun id' => if decide (id' = id) then Some v else inputs dom id';
     selects := selects dom;
     checked := checked dom;
     perPersonRatios := perPersonRatios dom |}.

(** [el.value = v] for the select [id]. *)
Definition set_select (dom : t) (id : ElementId) (v : string) : t :=
  {| inputs := inputs dom;
     selects := fun id' => if decide (id' = id) then Some v else selects dom id';
     checked := checked dom;
     perPersonRatios := perPersonRatios dom |}.

(** A page without any field, with the container of the ratio cards. *)
Definition empty : t :=
  {| inputs := fun _ => None;
     selects := fun _ => None;
     checked := fun _ => None;
     perPersonRatios := true |}.
End Dom.

Definition getInputValue (dom : Dom.t) (id : ElementId) : Q :=
  match Dom.inputs dom id with
  | Some v => v
  | None => 0
  end.

Module Source.
(** The last three fields are [undefined] ([None]) until the second pass
    of [calculate] sets them. *)
Record t : Type :=
  { name : string;
    sourceType : string;
    amount : Q;
    rate : Q;
    termMonths : Q;
    isAutoFillMortgage : bool;
    isAutoCalculated : bool;
    monthlyPayment : option Q;
    interestPortion : option Q;
    principalPortion : option Q }.

Definition set_amount (a : Q) (s : t) : t :=
  {| name := name s; sourceType := sourceType s; amount := a;
     rate := rate s; termMonths := termMonths s;
     isAutoFillMortgage := isAutoFillMortgage s;
     isAutoCalculated := isAutoCalculated s;
     monthlyPayment := monthlyPayment s;
     interestPortion := interestPortion s;
     principalPortion := principalPortion s |}.

Definition set_sourceType (ty : string) (s : t) : t :=
  {| name := name s; sourceType := ty; amount := amount s;
     rate := rate s; termMonths := termMonths s;
     isAutoFillMortgage := isAutoFillMortgage s;
     isAutoCalculated := isAutoCalculated s;
     monthlyPayment := monthlyPayment s;
     interestPortion := interestPortion s;
     principalPortion := principalPortion s |}.

Definition set_loan (r n : Q) (mp ip pp : Q) (s : t) : t :=
  {| name := name s; sourceType := sourceType s; amount := amount s;
     rate := r; termMonths := n;
     isAutoFillMortgage := isAutoFillMortgage s;
     isAutoCalculated := isAutoCalculated s;
     monthlyPayment := Some mp;
     interestPortion := Some ip;
     principalPortion := Some pp |}.
End Source.

Module Owner.
Record t : Type :=
  { name : string;
    income : Q;
    carLoanPayment : Q;
    studentLoanPayment : Q;
    personalLoanPayment : Q;
    creditCardPayment : Q }.
End Owner.

Module OwnerData.
Record t : Type :=
  { index : nat;
    name : string;
    income : Q;
    totalDebts : Q;
    carLoan : Q;
    studentLoan : Q;
    personalLoan : Q;
    creditCard : Q }.
End OwnerData.

Module Warning.
Inductive message : Type :=
| MaximumHbpWithdrawal (limit : option Q)
| MaximumCeliappContribution (limit : option Q).

Record t : Type := { type : string; source : string; text : message }.
End Warning.

Module Loan.
(** An entry of [loanPaymentDetails]. *)
Record t : Type :=
  { name : string;
    sourceType : string;
    interest : Q;
    principal : Q;
    amount : Q;
    rate : Q;
    termMonths : Q;
    monthlyPayment : Q }.
End Loan.

Module State.
Record t : Type :=
  { financingSources : list (option Source.t);
    owners : list (option Owner.t);
    downPaymentMode : string;
    dom : Dom.t }.
End State.

(** [array.findIndex(p)]; [None] is [-1]. *)
Fixpoint findIndex {A} (p : A -> bool) (l : list A) : option nat :=
  match l with
  | [] => None
  | x :: l' => if p x then Some 0%nat else S <$> findIndex p l'
  end.

Definition getDownPaymentAmount (mode : string) (dom : Dom.t) : Q :=
  let offerPrice := getInputValue dom (Named "offerPrice") in
  let inputValue := getInputValue dom (Named "downPayment") in
  if (mode =? "percent")%string then (inputValue / 100) * offerPrice
  else inputValue.

(** [financingSources[i].amount = a], with the field of the page set to
    [shown]. *)
Definition write_amount (i : nat) (a shown : Q)
  (sd : list (option Source.t) * Dom.t) : list (option Source.t) * Dom.t :=
  (alter (fmap (Source.set_amount a)) i sd.1,
   Dom.set_input sd.2 (Indexed "financing-amount" i) shown).

(** [s => s && s.isAutoFillMortgage] *)
Definition is_auto_fill_slot (s : option Source.t) : bool :=
  match s with
  | Some s => Source.isAutoFillMortgage s
  | None => false
  end.

(** [s => s && s.isAutoCalculated && s.sourceType === 'parents_loan'] *)
Definition is_gap_slot (s : option Source.t) : bool :=
  match s with
  | Some s =>
      Source.isAutoCalculated s
      && (Source.sourceType s =? "parents_loan")%string
  | None => false
  end.

Definition updateBankMortgageAmount (totalMortgage : Q)
  (sd : list (option Source.t) * Dom.t) : list (option Source.t) * Dom.t :=
  match findIndex is_auto_fill_slot sd.1 with
  | None => sd
  | Some mortgageIndex =>
      match Dom.inputs sd.2 (Indexed "financing-amount" mortgageIndex) with
      | Some _ =>
          if totalMortgage >? 0 then
            write_amount mortgageIndex totalMortgage (Math_round totalMortgage) sd
          else write_amount mortgageIndex 0 0 sd
      | None => sd
      end
  end.

Definition updateParentsLoanAmount (gapAmount : Q)
  (sd : list (option Source.t) * Dom.t) : list (option Source.t) * Dom.t :=
  match findIndex is_gap_slot sd.1 with
  | None => sd
  | Some parentsLoanIndex =>
      match Dom.inputs sd.2 (Indexed "financing-amount" parentsLoanIndex) with
      | Some _ =>
          if gapAmount >? 0 then
            write_amount parentsLoanIndex gapAmount (Math_round gapAmount) sd
          else write_amount parentsLoanIndex 0 0 sd
      | None => sd
      end
  end.

(** [addFinancingSource(defaultName, sourceType, options)] without saved
    data, for a type of the table: the new source is pushed and its fields
    are added to the page, the numeric ones empty. *)
Definition addFinancingSource (defaultName sourceType : string)
  (isAutoFillMortgage isAutoCalculated : bool)
  (sd : list (option Source.t) * Dom.t) : list (option Source.t) * Dom.t :=
  let index := length sd.1 in
  let typeConfig :=
    default (Types.other_savings FINANCING_TYPES)
      (Types.get FINANCING_TYPES sourceType) in
  let name :=
    if (defaultName =? EmptyString)%string then TypeConfig.label typeConfig
    else defaultName in
  (sd.1 ++
   [ Some {| Source.name := name;
             Source.sourceType := sourceType;
             Source.amount := 0;
             Source.rate := 0;
             Source.termMonths := 0;
             Source.isAutoFillMortgage := isAutoFillMortgage;
             Source.isAutoCalculated :=
               isAutoCalculated || TypeConfig.isAutoCalculated typeConfig;
             Source.monthlyPayment := None;
             Source.interestPortion := None;
             Source.principalPortion := None |} ],
   Dom.set_select
     (Dom.set_input
        (Dom.set_input
           (Dom.set_input sd.2 (Indexed "financing-amount" index) 0)
           (Indexed "financing-rate" index) 0)
        (Indexed "financing-term" index) 0)
     (Indexed "financing-type" index) sourceType).

(** [amount > ceiling], false when the ceiling is [undefined]. *)
Definition exceeds (amount : Q) (ceiling : option Q) : bool :=
  match ceiling with
  | Some c => amount >? c
  | None => false
  end.

Module Pass1.
Record t : Type :=
  { totalSavingsForDownPayment : Q; warnings : list Warning.t }.
End Pass1.

Module Pass2.
Record t : Type :=
  { totalMonthlyLoanPayment : Q;
    totalInterestFirstMonth : Q;
    totalPrincipalFirstMonth : Q;
    loanPaymentDetails : list Loan.t;
    rrspMonthlyRepayment : Q }.
End Pass2.

(** [source.sourceType || document.getElementById(...)?.value]; the empty
    string stands for [undefined] as well. *)
Definition resolved_type (dom : Dom.t) (index : nat) (source : Source.t)
  : string :=
  if (Source.sourceType source =? EmptyString)%string
  then default EmptyString (Dom.selects dom (Indexed "financing-type" index))
  else Source.sourceType source.

(** The amount the first pass gives a source: 0 for an auto-calculated type,
    the amount it holds for the auto-fill mortgage, the input field
    otherwise. *)
Definition resolved_amount (dom : Dom.t) (index : nat) (source : Source.t)
  (typeConfig : option TypeConfig.t) : Q :=
  if from_option TypeConfig.isAutoCalculated false typeConfig then 0
  else if Source.isAutoFillMortgage source then Source.amount source
  else getInputValue dom (Indexed "financing-amount" index).

Section Calculate.

Variable Math_pow : Q -> Q -> Q.

(** The table of financing types the passes read ([FINANCING_TYPES]). *)
Variable types : Types.t.

(** *** First pass: amounts, savings toward the down payment, warnings *)

Definition first_pass_source (dom : Dom.t) (index : nat)
  (source : Source.t) (acc : Pass1.t) : Source.t * Pass1.t :=
  let sourceType := resolved_type dom index source in
  let typeConfig := Types.get types sourceType in
  let amount := resolved_amount dom index source typeConfig in
  let source' :=
    Source.set_sourceType sourceType (Source.set_amount amount source) in
  match typeConfig with
  | Some config =>
      if TypeConfig.countsTowardDownPayment config
         && negb (TypeConfig.isAutoCalculated config)
         && (amount >? 0)
      then
        let rrspWarning :=
          if (sourceType =? "rrsp")%string && (amount >? 0) then
            if exceeds amount (TypeConfig.maxWithdrawal (Types.rrsp types))
            then [ {| Warning.type := "warning";
                      Warning.source := "RRSP";
                      Warning.text :=
                        Warning.MaximumHbpWithdrawal
                          (TypeConfig.maxWithdrawal (Types.rrsp types)) |} ]
            else []
          else [] in
        let celiappWarning :=
          if (sourceType =? "celiapp")%string
             && exceeds amount
                  (TypeConfig.maxContribution (Types.celiapp types))
          then [ {| Warning.type := "warning";
                    Warning.source := "CELIAPP";
                    Warning.text :=
                      Warning.MaximumCeliappContribution
                        (TypeConfig.maxContribution (Types.celiapp types)) |} ]
          else [] in
        (source',
         {| Pass1.totalSavingsForDownPayment :=
              Pass1.totalSavingsForDownPayment acc + amount;
            Pass1.warnings :=
              Pass1.warnings acc ++ rrspWarning ++ celiappWarning |})
      else (source', acc)
  | None => (source', acc)
  end.

(** [financingSources.forEach((source, index) => ...)]; a [null] slot is
    left as it is. *)
Fixpoint first_pass (dom : Dom.t) (index : nat)
  (sources : list (option Source.t)) (acc : Pass1.t)
  : list (option Source.t) * Pass1.t :=
  match sources with
  | [] => ([], acc)
  | None :: rest =>
      let r := first_pass dom (S index) rest acc in (None :: r.1, r.2)
  | Some source :: rest =>
      let s := first_pass_source dom index source acc in
      let r := first_pass dom (S index) rest s.2 in
      (Some s.1 :: r.1, r.2)
  end.

(** *** Second pass: loan payments *)

Definition second_pass_source (dom : Dom.t) (index : nat)
  (source : Source.t) (acc : Pass2.t) : Source.t * Pass2.t :=
  let sourceType := Source.sourceType source in
  let amount := Source.amount source in
  match Types.get types sourceType with
  | None => (source, acc)
  | Some typeConfig =>
      if TypeConfig.isLoan typeConfig && (amount >? 0) then
        let rate := getInputValue dom (Indexed "financing-rate" index) in
        let termYears := getInputValue dom (Indexed "financing-term" index) in
        let termMonths := termYears * 12 in
        let payment :=
          value (calculateMonthlyPayment Math_pow amount rate termMonths) in
        let breakdown :=
          calculatePaymentBreakdown amount rate
            (Payment.monthlyPayment payment) None in
        let source' :=
          Source.set_loan rate termMonths
            (Payment.monthlyPayment payment)
            (Breakdown.interestPortion breakdown)
            (Breakdown.principalPortion breakdown) source in
        if Payment.monthlyPayment payment >? 0 then
          (source',
           {| Pass2.totalMonthlyLoanPayment :=
                Pass2.totalMonthlyLoanPayment acc
                + Payment.monthlyPayment payment;
              Pass2.totalInterestFirstMonth :=
                Pass2.totalInterestFirstMonth acc
                + Breakdown.interestPortion breakdown;
              Pass2.totalPrincipalFirstMonth :=
                Pass2.totalPrincipalFirstMonth acc
                + Breakdown.principalPortion breakdown;
              Pass2.loanPaymentDetails :=
                Pass2.loanPaymentDetails acc ++
                [ {| Loan.name := Source.name source;
                     Loan.sourceType := sourceType;
                     Loan.interest := Breakdown.interestPortion breakdown;
                     Loan.principal := Breakdown.principalPortion breakdown;
                     Loan.amount := amount;
                     Loan.rate := rate;
                     Loan.termMonths := termMonths;
                     Loan.monthlyPayment :=
                       Payment.monthlyPayment payment |} ];
              Pass2.rrspMonthlyRepayment := Pass2.rrspMonthlyRepayment acc |})
        else (source', acc)
      else if (sourceType =? "rrsp")%string && (amount >? 0) then
        (source,
         {| Pass2.totalMonthlyLoanPayment := Pass2.totalMonthlyLoanPayment acc;
            Pass2.totalInterestFirstMonth := Pass2.totalInterestFirstMonth acc;
            Pass2.totalPrincipalFirstMonth :=
              Pass2.totalPrincipalFirstMonth acc;
            Pass2.loanPaymentDetails := Pass2.loanPaymentDetails acc;
            Pass2.rrspMonthlyRepayment := (amount / 15) / 12 |})
      else (source, acc)
  end.

Fixpoint second_pass (dom : Dom.t) (index : nat)
  (sources : list (option Source.t)) (acc : Pass2.t)
  : list (option Source.t) * Pass2.t :=
  match sources with
  | [] => ([], acc)
  | None :: rest =>
      let r := second_pass dom (S index) rest acc in (None :: r.1, r.2)
  | Some source :: rest =>
      let s := second_pass_source dom index source acc in
      let r := second_pass dom (S index) rest s.2 in
      (Some s.1 :: r.1, r.2)
  end.

Definition Pass1_start : Pass1.t :=
  {| Pass1.totalSavingsForDownPayment := 0; Pass1.warnings := [] |}.

Definition Pass2_start : Pass2.t :=
  {| Pass2.totalMonthlyLoanPayment := 0;
     Pass2.totalInterestFirstMonth := 0;
     Pass2.totalPrincipalFirstMonth := 0;
     Pass2.loanPaymentDetails := [];
     Pass2.rrspMonthlyRepayment := 0 |}.

End Calculate.

(** ** Household members *)

Module OwnersAcc.
Record t : Type :=
  { totalGrossIncome : Q;
    totalOtherDebtPayments : Q;
    ownerData : list OwnerData.t }.
End OwnersAcc.

Definition owners_member (dom : Dom.t) (index : nat) (owner : Owner.t)
  (acc : OwnersAcc.t) : Owner.t * OwnersAcc.t :=
  let income := getInputValue dom (Indexed "owner-income" index) in
  let carLoan := getInputValue dom (Indexed "owner-car" index) in
  let studentLoan := getInputValue dom (Indexed "owner-student" index) in
  let personalLoan := getInputValue dom (Indexed "owner-personal" index) in
  let creditCard := getInputValue dom (Indexed "owner-credit" index) in
  let totalDebts := carLoan + studentLoan + personalLoan + creditCard in
  ({| Owner.name := Owner.name owner;
      Owner.income := income;
      Owner.carLoanPayment := carLoan;
      Owner.studentLoanPayment := studentLoan;
      Owner.personalLoanPayment := personalLoan;
      Owner.creditCardPayment := creditCard |},
   {| OwnersAcc.totalGrossIncome := OwnersAcc.totalGrossIncome acc + income;
      OwnersAcc.totalOtherDebtPayments :=
        OwnersAcc.totalOtherDebtPayments acc + totalDebts;
      OwnersAcc.ownerData :=
        OwnersAcc.ownerData acc ++
        [ {| OwnerData.index := index;
             OwnerData.name := Owner.name owner;
             OwnerData.income := income;
             OwnerData.totalDebts := totalDebts;
             OwnerData.carLoan := carLoan;
             OwnerData.studentLoan := studentLoan;
             OwnerData.personalLoan := personalLoan;
             OwnerData.creditCard := creditCard |} ] |}).

(** [owners.forEach((owner, index) => ...)]. *)
Fixpoint owners_pass (dom : Dom.t) (index : nat)
  (owners : list (option Owner.t)) (acc : OwnersAcc.t)
  : list (option Owner.t) * OwnersAcc.t :=
  match owners with
  | [] => ([], acc)
  | None :: rest =>
      let r := owners_pass dom (S index) rest acc in (None :: r.1, r.2)
  | Some owner :: rest =>
      let o := owners_member dom index owner acc in
      let r := owners_pass dom (S index) rest o.2 in
      (Some o.1 :: r.1, r.2)
  end.

Definition OwnersAcc_start : OwnersAcc.t :=
  {| OwnersAcc.totalGrossIncome := 0;
     OwnersAcc.totalOtherDebtPayments := 0;
     OwnersAcc.ownerData := [] |}.

(** ** Affordability indicators *)

Module RatioCard.
(** The figures shown on the card of one household member. *)
Record t : Type :=
  { name : string;
    incomeShare : Q;
    housingCostShare : Q;
    gdsRatio : Q;
    gdsStatus : string;
    rrspPerPerson : Q;
    tdsAmount : Q;
    tdsRatio : Q;
    tdsStatus : string }.
End RatioCard.

(** What [updatePerPersonRatios] leaves in the page. *)
Inductive PerPersonView : Type :=
| NoContainer
| AddMembersNotice
| RatioCards (cards : list RatioCard.t).

Definition ratio_card (totalGrossIncome gdsHousingCosts rrspPerPerson : Q)
  (owner : OwnerData.t) : RatioCard.t :=
  let incomeShare := OwnerData.income owner / totalGrossIncome in
  let housingCostShare := gdsHousingCosts * incomeShare in
  let gdsRatio :=
    if OwnerData.income owner >? 0
    then (housingCostShare / OwnerData.income owner) * 100 else 0 in
  let gdsStatus :=
    if gdsRatio <=? 32 then "Excellent"%string
    else if gdsRatio <=? 39 then "Acceptable"%string
    else "May Not Qualify"%string in
  let tdsAmount :=
    housingCostShare + OwnerData.totalDebts owner + rrspPerPerson in
  let tdsRatio :=
    if OwnerData.income owner >? 0
    then (tdsAmount / OwnerData.income owner) * 100 else 0 in
  let tdsStatus :=
    if tdsRatio <=? 40 then "Excellent"%string
    else if tdsRatio <=? 44 then "Acceptable"%string
    else "May Not Qualify"%string in
  {| RatioCard.name := OwnerData.name owner;
     RatioCard.incomeShare := incomeShare;
     RatioCard.housingCostShare := housingCostShare;
     RatioCard.gdsRatio := gdsRatio;
     RatioCard.gdsStatus := gdsStatus;
     RatioCard.rrspPerPerson := rrspPerPerson;
     RatioCard.tdsAmount := tdsAmount;
     RatioCard.tdsRatio := tdsRatio;
     RatioCard.tdsStatus := tdsStatus |}.

Definition updatePerPersonRatios (dom : Dom.t) (ownerData : list OwnerData.t)
  (totalGrossIncome gdsHousingCosts rrspMonthlyRepayment : Q)
  : PerPersonView :=
  if negb (Dom.perPersonRatios dom) then NoContainer
  else if (length ownerData =? 0)%nat || (totalGrossIncome <=? 0)
  then AddMembersNotice
  else
    let rrspPerPerson :=
      rrspMonthlyRepayment / inject_Z (Z.of_nat (length ownerData)) in
    RatioCards
      (map (ratio_card totalGrossIncome gdsHousingCosts rrspPerPerson)
         ownerData).

Module BarsData.
Record t : Type :=
  { totalMonthlyCosts : Q;
    totalGrossIncome : Q;
    mortgagePayment : Q;
    propertyTax : Q;
    heating : Q;
    otherDebtPayments : Q;
    ownerData : list OwnerData.t;
    rrspMonthlyRepayment : Q }.
End BarsData.

Module Bars.
Record t : Type :=
  { housingCostPercent : Q;
    housingCostStatus : string;
    perPerson : PerPersonView }.
End Bars.

Definition updateAffordabilityBars (dom : Dom.t) (data : BarsData.t) : Bars.t :=
  if BarsData.totalGrossIncome data <=? 0 then
    {| Bars.housingCostPercent := 0;
       Bars.housingCostStatus := "-";
       Bars.perPerson := updatePerPersonRatios dom [] 0 0 0 |}
  else
    let housingCostRatio :=
      (BarsData.totalMonthlyCosts data / BarsData.totalGrossIncome data) * 100 in
    let housingCostStatus :=
      if housingCostRatio <=? 30 then "Affordable"%string
      else if housingCostRatio <=? 40 then "Caution"%string
      else "High Risk"%string in
    let gdsHousingCosts :=
      BarsData.mortgagePayment data + BarsData.propertyTax data
      + BarsData.heating data in
    {| Bars.housingCostPercent := housingCostRatio;
       Bars.housingCostStatus := housingCostStatus;
       Bars.perPerson :=
         updatePerPersonRatios dom (BarsData.ownerData data)
           (BarsData.totalGrossIncome data) gdsHousingCosts
           (BarsData.rrspMonthlyRepayment data) |}.

(** ** The payment chart: amortization schedules *)

Definition maxMonths : nat := 360.

Module Schedule.
Record t : Type :=
  { interestData : list Q;
    principalData : list Q;
    remainingBalance : Q }.
End Schedule.

(** The body of the month loop.  [month] is below the length of both arrays
    whenever the body runs, so the writes stay in range. *)
Definition schedule_body (monthlyRate monthlyPayment : Q) (month : nat)
  (st : Schedule.t) : Schedule.t :=
  if (Schedule.remainingBalance st >? 0) && (monthlyPayment >? 0) then
    let interestPortion := Schedule.remainingBalance st * monthlyRate in
    let principalPortion :=
      Qmin (monthlyPayment - interestPortion) (Schedule.remainingBalance st) in
    {| Schedule.interestData :=
         alter (fun v => v + interestPortion) month (Schedule.interestData st);
       Schedule.principalData :=
         <[ month := principalPortion ]> (Schedule.principalData st);
       Schedule.remainingBalance :=
         Schedule.remainingBalance st - principalPortion |}
  else st.

(** [for (let month = 0; month < limit; month++) body]: [fuel] bounds the
    number of iterations. *)
Fixpoint month_loop (fuel : nat) (month : nat) (limit : Q)
  (body : nat -> Schedule.t -> Schedule.t) (st : Schedule.t) : Schedule.t :=
  match fuel with
  | O => st
  | S fuel' =>
      if inject_Z (Z.of_nat month) <? limit
      then month_loop fuel' (S month) limit body (body month st)
      else st
  end.

(** The schedule of one loan; the limit is at most [maxMonths], which is
    therefore enough fuel.  [loan.monthlyPayment || 0] is the payment
    itself: among the numbers of the model only 0 is falsy. *)
Definition loan_schedule (interestData : list Q) (loan : Loan.t) : Schedule.t :=
  let monthlyRate := (Loan.rate loan / 100) / 12 in
  let monthlyPayment := Loan.monthlyPayment loan in
  month_loop maxMonths 0
    (Qmin (Loan.termMonths loan) (inject_Z (Z.of_nat maxMonths)))
    (schedule_body monthlyRate monthlyPayment)
    {| Schedule.interestData := interestData;
       Schedule.principalData := replicate maxMonths 0;
       Schedule.remainingBalance := Loan.amount loan |}.

Module Chart.
Record t : Type :=
  { interestData : list Q;
    principalDataByLoan : list (string * list Q);
    rrspData : option (list Q) }.
End Chart.

(** [data.loanPaymentDetails.forEach(...)]: the interest series is shared by
    all loans, each loan has a principal series of its own. *)
Fixpoint chart_loans (loans : list Loan.t) (interestData : list Q)
  (principalDataByLoan : list (string * list Q))
  : list Q * list (string * list Q) :=
  match loans with
  | [] => (interestData, principalDataByLoan)
  | loan :: rest =>
      let st := loan_schedule interestData loan in
      chart_loans rest (Schedule.interestData st)
        (principalDataByLoan
           ++ [(Loan.name loan, Schedule.principalData st)])
  end.

Definition updateChart (loanPaymentDetails : list Loan.t)
  (rrspMonthlyRepayment : Q) : Chart.t :=
  let series := chart_loans loanPaymentDetails (replicate maxMonths 0) [] in
  {| Chart.interestData := series.1;
     Chart.principalDataByLoan := series.2;
     Chart.rrspData :=
       if rrspMonthlyRepayment >? 0 then
         Some (foldl (fun rrspData month => <[ month := rrspMonthlyRepayment ]> rrspData)
                 (replicate maxMonths 0) (seq 12 (Nat.min (12 + 180) maxMonths - 12)))
       else None |}.

(** ** One recalculation pass *)

Module Snapshot.
Record t : Type :=
  { cmhc : CmhcResult.t;
    welcomeTax : Welcome.result;
    totalSavingsForDownPayment : Q;
    warnings : list Warning.t;
    downPaymentGap : Q;
    loans : Pass2.t;
    totalMonthlyCosts : Q;
    totalGrossIncome : Q;
    totalOtherDebtPayments : Q;
    ownerData : list OwnerData.t;
    bars : Bars.t;
    chart : Chart.t }.
End Snapshot.

Section Recalculation.

Variable Math_pow : Q -> Q -> Q.
Variable types : Types.t.

(** The first pass over the sources and the resolution of the gap: the
    sources and the page as they stand before the second pass, with the
    accumulator of the pass and the gap. *)
Definition first_pass_and_gap (downPayment : Q)
  (sd : list (option Source.t) * Dom.t)
  : (list (option Source.t) * Dom.t) * (Pass1.t * Q) :=
  let p1 := first_pass types sd.2 0 sd.1 Pass1_start in
  let downPaymentGap :=
    Qmax 0 (downPayment - Pass1.totalSavingsForDownPayment p1.2) in
  (updateParentsLoanAmount downPaymentGap (p1.1, sd.2),
   (p1.2, downPaymentGap)).

(** The financing part of [calculate]: first pass, gap, second pass. *)
Definition financing (downPayment : Q)
  (sd : list (option Source.t) * Dom.t)
  : (list (option Source.t) * Dom.t) * (Pass1.t * Q * Pass2.t) :=
  let g := first_pass_and_gap downPayment sd in
  let p2 := second_pass Math_pow types g.1.2 0 g.1.1 Pass2_start in
  ((p2.1, g.1.2), (g.2, p2.2)).

Definition calculate (st : State.t) : State.t * Snapshot.t :=
  let dom := State.dom st in
  let offerPrice := getInputValue dom (Named "offerPrice") in
  let downPayment := getDownPaymentAmount (State.downPaymentMode st) dom in
  let is30Year := default false (Dom.checked dom (Named "is30Year")) in
  let insurance := getInputValue dom (Named "insurance") in
  let electricity := getInputValue dom (Named "electricity") in
  let upkeep := getInputValue dom (Named "upkeep") in
  let cityTaxesAnnual := getInputValue dom (Named "cityTaxes") in
  let cmhc := calculateCmhc offerPrice downPayment is30Year in
  let sd0 :=
    updateBankMortgageAmount (CmhcResult.totalMortgage cmhc)
      (State.financingSources st, dom) in
  let cityTaxesMonthly := cityTaxesAnnual / 12 in
  let welcomeTax := calculateWelcomeTax offerPrice in
  let fin := financing downPayment sd0 in
  let pass1 := fin.2.1.1 in
  let pass2 := fin.2.2 in
  let totalMonthlyCosts :=
    Pass2.totalMonthlyLoanPayment pass2 + insurance + electricity + upkeep
    + cityTaxesMonthly in
  let own := owners_pass fin.1.2 0 (State.owners st) OwnersAcc_start in
  let bars :=
    updateAffordabilityBars fin.1.2
      {| BarsData.totalMonthlyCosts := totalMonthlyCosts;
         BarsData.totalGrossIncome := OwnersAcc.totalGrossIncome own.2;
         BarsData.mortgagePayment := Pass2.totalMonthlyLoanPayment pass2;
         BarsData.propertyTax := cityTaxesMonthly;
         BarsData.heating := electricity;
         BarsData.otherDebtPayments := OwnersAcc.totalOtherDebtPayments own.2;
         BarsData.ownerData := OwnersAcc.ownerData own.2;
         BarsData.rrspMonthlyRepayment := Pass2.rrspMonthlyRepayment pass2 |} in
  ({| State.financingSources := fin.1.1;
      State.owners := own.1;
      State.downPaymentMode := State.downPaymentMode st;
      State.dom := fin.1.2 |},
   {| Snapshot.cmhc := cmhc;
      Snapshot.welcomeTax := welcomeTax;
      Snapshot.totalSavingsForDownPayment :=
        Pass1.totalSavingsForDownPayment pass1;
      Snapshot.warnings := Pass1.warnings pass1;
      Snapshot.downPaymentGap := fin.2.1.2;
      Snapshot.loans := pass2;
      Snapshot.totalMonthlyCosts := totalMonthlyCosts;
      Snapshot.totalGrossIncome := OwnersAcc.totalGrossIncome own.2;
      Snapshot.totalOtherDebtPayments :=
        OwnersAcc.totalOtherDebtPayments own.2;
      Snapshot.ownerData := OwnersAcc.ownerData own.2;
      Snapshot.bars := bars;
      Snapshot.chart :=
        updateChart (Pass2.loanPaymentDetails pass2)
          (Pass2.rrspMonthlyRepayment pass2) |}).

End Recalculation.

(** ** The equity chart *)

Definition maxYears : nat := 30.

(** The body of the month loop of [updateEquityChart]. *)
Definition equity_body (monthlyRate monthlyPayment remainingBalance : Q) : Q :=
  if remainingBalance >? 0 then
    let interestPortion := remainingBalance * monthlyRate in
    let principalPortion :=
      Qmin (monthlyPayment - interestPortion) remainingBalance in
    remainingBalance - principalPortion
  else remainingBalance.

(** [for (let month = 0; month < limit; month++) body], on the balance
    alone; [fuel] bounds the number of iterations. *)
Fixpoint balance_loop (fuel : nat) (month : nat) (limit : Q)
  (body : Q -> Q) (remainingBalance : Q) : Q :=
  match fuel with
  | O => remainingBalance
  | S fuel' =>
      if inject_Z (Z.of_nat month) <? limit
      then balance_loop fuel' (S month) limit body (body remainingBalance)
      else remainingBalance
  end.

(** What a loan owes after [monthIndex] months; the limit of the loop is at
    most [monthIndex], which is therefore enough fuel. *)
Definition balance_after (monthIndex : nat) (loan : Loan.t) : Q :=
  let monthlyRate := (Loan.rate loan / 100) / 12 in
  balance_loop monthIndex 0
    (Qmin (inject_Z (Z.of_nat monthIndex)) (Loan.termMonths loan))
    (equity_body monthlyRate (Loan.monthlyPayment loan))
    (Loan.amount loan).

(** The body of [loanPaymentDetails.forEach(...)]: a loan without a
    positive amount and payment adds nothing to the debt. *)
Definition remaining_debt (monthIndex : nat) (totalRemainingDebt : Q)
  (loan : Loan.t) : Q :=
  if (Loan.amount loan >? 0) && (Loan.monthlyPayment loan >? 0)
  then totalRemainingDebt + Qmax 0 (balance_after monthIndex loan)
  else totalRemainingDebt.

Module Equity.
Record t : Type :=
  { propertyValueData : list Q;
    remainingDebtData : list Q;
    equityData : list Q }.
End Equity.

(** The body of the loop over the years: one more entry of the debt and of
    the equity series. *)
Definition equity_year (propertyValue : Q) (loanPaymentDetails : list Loan.t)
  (series : list Q * list Q) (year : nat) : list Q * list Q :=
  let monthIndex := (year * 12)%nat in
  let totalRemainingDebt :=
    foldl (remaining_debt monthIndex) 0 loanPaymentDetails in
  (series.1 ++ [totalRemainingDebt],
   series.2 ++ [propertyValue - totalRemainingDebt]).

Definition updateEquityChart (propertyValue : Q)
  (loanPaymentDetails : list Loan.t) : Equity.t :=
  let series :=
    foldl (equity_year propertyValue loanPaymentDetails) ([], [])
      (seq 0 (maxYears + 1)) in
  {| Equity.propertyValueData := replicate (maxYears + 1) propertyValue;
     Equity.remainingDebtData := series.1;
     Equity.equityData := series.2 |}.

(** ** The operations of the page on its lists *)

(** How a function ends: it returns, or reading a property of [null] or
    [undefined] raises a [TypeError]. *)
Inductive completion : Type :=
| Returns
| TypeError.

(** [changeFinancingType(index)].  The type is written to the source before
    the table is consulted, so a value of the selector that is no key of the
    table leaves the source with the new type and the old flags when the
    [TypeError] is raised.  The visibility of the loan fields is not part of
    the model. *)
Definition changeFinancingType (index : nat)
  (sd : list (option Source.t) * Dom.t)
  : (list (option Source.t) * Dom.t) * completion :=
  match Dom.selects sd.2 (Indexed "financing-type" index) with
  | None => (sd, TypeError)
  | Some newType =>
      match sd.1 !! index with
      | Some (Some source) =>
          match Types.get FINANCING_TYPES newType with
          | None =>
              ((<[ index := Some (Source.set_sourceType newType source) ]> sd.1,
                sd.2),
               TypeError)
          | Some typeConfig =>
              ((<[ index :=
                     Some {| Source.name := Source.name source;
                             Source.sourceType := newType;
                             Source.amount := Source.amount source;
                             Source.rate := Source.rate source;
                             Source.termMonths := Source.termMonths source;
                             Source.isAutoFillMortgage :=
                               (newType =? "mortgage")%string
                               && (index =? 0)%nat;
                             Source.isAutoCalculated :=
                               TypeConfig.isAutoCalculated typeConfig;
                             Source.monthlyPayment :=
                               Source.monthlyPayment source;
                             Source.interestPortion :=
                               Source.interestPortion source;
                             Source.principalPortion :=
                               Source.principalPortion source |} ]> sd.1,
                sd.2),
               Returns)
          end
      | _ => (sd, Returns)
      end
  end.

(** [array[index] = null].  Past the end the array grows; the slots in
    between are holes, which [forEach], [filter] and [findIndex] treat as
    they treat [null] in this program, so the model writes them [None] as
    well. *)
Definition assign_null {A : Type} (index : nat) (array : list (option A))
  : list (option A) :=
  if (index <? length array)%nat then <[ index := None ]> array
  else array ++ replicate (index - length array) None ++ [None].

Module Dom_remove.
(** [el.remove()] on the block of a source: the fields of the source are
    inside the block and leave the page with it. *)
Definition source (dom : Dom.t) (index : nat) : Dom.t :=
  {| Dom.inputs := fun id =>
       if decide (id = Indexed "financing-amount" index) then None
       else if decide (id = Indexed "financing-rate" index) then None
       else if decide (id = Indexed "financing-term" index) then None
       else Dom.inputs dom id;
     Dom.selects := fun id =>
       if decide (id = Indexed "financing-type" index) then None
       else Dom.selects dom id;
     Dom.checked := Dom.checked dom;
     Dom.perPersonRatios := Dom.perPersonRatios dom |}.

(** The same for the block of a household member. *)
Definition owner (dom : Dom.t) (index : nat) : Dom.t :=
  {| Dom.inputs := fun id =>
       if decide (id = Indexed "owner-income" index) then None
       else if decide (id = Indexed "owner-car" index) then None
       else if decide (id = Indexed "owner-student" index) then None
       else if decide (id = Indexed "owner-personal" index) then None
       else if decide (id = Indexed "owner-credit" index) then None
       else Dom.inputs dom id;
     Dom.selects := Dom.selects dom;
     Dom.checked := Dom.checked dom;
     Dom.perPersonRatios := Dom.perPersonRatios dom |}.
End Dom_remove.

Section Operations.

Variable Math_pow : Q -> Q -> Q.

(** [removeFinancingSource(index)], up to the call of [saveToStorage]. *)
Definition removeFinancingSource (index : nat) (st : State.t)
  : State.t * Snapshot.t :=
  calculate Math_pow FINANCING_TYPES
    {| State.financingSources := assign_null index (State.financingSources st);
       State.owners := State.owners st;
       State.downPaymentMode := State.downPaymentMode st;
       State.dom := Dom_remove.source (State.dom st) index |}.

(** [removeOwner(index)], up to the call of [saveToStorage]; without a
    second member nothing is done, and there is no snapshot. *)
Definition removeOwner (index : nat) (st : State.t)
  : State.t * option Snapshot.t :=
  if (length (omap id (State.owners st)) <=? 1)%nat then (st, None)
  else
    let r :=
      calculate Math_pow FINANCING_TYPES
        {| State.financingSources := State.financingSources st;
           State.owners := assign_null index (State.owners st);
           State.downPaymentMode := State.downPaymentMode st;
           State.dom := Dom_remove.owner (State.dom st) index |} in
    (r.1, Some r.2).

End Operations.

(** [addOwner(defaultName, savedData)]: the member is pushed and its fields
    are added to the page, holding the saved figures; [savedData] is [None]
    for [null]. *)
Definition addOwner (defaultName : string) (savedData : option Owner.t)
  (od : list (option Owner.t) * Dom.t) : list (option Owner.t) * Dom.t :=
  let index := length od.1 in
  let name :=
    if (defaultName =? EmptyString)%string
    then ("Person " +:+ pretty (index + 1)%nat)%string
    else defaultName in
  let saved (field : Owner.t -> Q) : Q :=
    match savedData with Some o => field o | None => 0 end in
  (od.1 ++
   [ Some {| Owner.name := name;
             Owner.income := saved Owner.income;
             Owner.carLoanPayment := saved Owner.carLoanPayment;
             Owner.studentLoanPayment := saved Owner.studentLoanPayment;
             Owner.personalLoanPayment := saved Owner.personalLoanPayment;
             Owner.creditCardPayment := saved Owner.creditCardPayment |} ],
   Dom.set_input
     (Dom.set_input
        (Dom.set_input
           (Dom.set_input
              (Dom.set_input od.2 (Indexed "owner-income" index)
                 (saved Owner.income))
              (Indexed "owner-car" index) (saved Owner.carLoanPayment))
           (Indexed "owner-student" index) (saved Owner.studentLoanPayment))
        (Indexed "owner-personal" index) (saved Owner.personalLoanPayment))
     (Indexed "owner-credit" index) (saved Owner.creditCardPayment)).

(** ** Renovations and the one-time costs *)

Module Renovation.
Record t : Type := { description : string; amount : Q }.
End Renovation.

(** A slot of the array [renovations]: never assigned (a hole), [null], or
    an item.  [reduce] skips a hole and visits a [null]. *)
Inductive slot (A : Type) : Type :=
| Hole
| Null
| Item (a : A).
Arguments Hole {A}.
Arguments Null {A}.
Arguments Item {A} _.

(** [addRenovation(savedDesc, savedAmount)]; [savedAmount] is [None] for
    [null]. *)
Definition addRenovation (savedDesc : string) (savedAmount : option Q)
  (renovations : list (slot Renovation.t)) : list (slot Renovation.t) :=
  renovations ++
  [ Item {| Renovation.description := savedDesc;
            Renovation.amount := default 0 savedAmount |} ].

(** [renovations.reduce((sum, r) => sum + (r.amount || 0), sum)]; reading
    [amount] of [null] raises a [TypeError], which is [None]. *)
Fixpoint totalRenovations (sum : Q) (renovations : list (slot Renovation.t))
  : option Q :=
  match renovations with
  | [] => Some sum
  | Hole :: rest => totalRenovations sum rest
  | Null :: rest => None
  | Item r :: rest => totalRenovations (sum + Renovation.amount r) rest
  end.

(** The one-time costs of [calculate]: [totalOneTime], or [None] when the
    sum over the renovations raises a [TypeError]; the pass then ends there,
    before the financing sources are read. *)
Definition totalOneTime (dom : Dom.t) (renovations : list (slot Renovation.t))
  : option Q :=
  let offerPrice := getInputValue dom (Named "offerPrice") in
  let squareFootage := getInputValue dom (Named "squareFootage") in
  let notaryFees := getInputValue dom (Named "notaryFees") in
  let movingBase := getInputValue dom (Named "movingBase") in
  let paintPerSqft := getInputValue dom (Named "paintPerSqft") in
  let welcomeTax := calculateWelcomeTax offerPrice in
  let paintTotal := squareFootage * paintPerSqft in
  let totalMovingCost := movingBase + paintTotal in
  match totalRenovations 0 renovations with
  | Some totalRenovations =>
      Some (Welcome.totalTax welcomeTax + notaryFees + totalMovingCost
            + totalRenovations)
  | None => None
  end.

(** [renovations[index] = null]; past the end the array grows by holes. *)
Definition assign_Null {A : Type} (index : nat) (array : list (slot A))
  : list (slot A) :=
  if (index <? length array)%nat then <[ index := Null ]> array
  else array ++ replicate (index - length array) Hole ++ [Null].

(** [removeRenovation(index)]: the slot is set to [null] and [calculate] is
    called; [saveToStorage] is reached only if [calculate] returns.  The
    completion is the one the one-time costs of [calculate] decide. *)
Definition removeRenovation (index : nat) (dom : Dom.t)
  (renovations : list (slot Renovation.t))
  : list (slot Renovation.t) * completion :=
  let renovations' := assign_Null index renovations in
  (renovations',
   match totalOneTime dom renovations' with
   | Some _ => Returns
   | None => TypeError
   end).

(** [renovations.filter(r => r !== null)], as [saveToStorage] writes the
    list: [filter] skips the holes too. *)
Definition saved_renovations (renovations : list (slot Renovation.t))
  : list Renovation.t :=
  omap (fun s => match s with Item r => Some r | _ => None end) renovations.

(** ** Saving and loading

    The data [saveToStorage] writes, and [loadFromStorage] on data of that
    layout.  [JSON.stringify] and [JSON.parse] are taken to give the numbers
    and strings back as they were. *)

Module SavedSource.
Record t : Type :=
  { name : string;
    sourceType : string;
    amount : Q;
    rate : Q;
    termMonths : Q;
    isAutoFillMortgage : bool;
    isAutoCalculated : bool }.
End SavedSource.

Module Saved.
(** A saved member has the fields of [Owner.t], a saved renovation those of
    [Renovation.t]. *)
Record t : Type :=
  { askingPrice : Q;
    evaluationPrice : Q;
    offerPrice : Q;
    squareFootage : Q;
    downPayment : Q;
    downPaymentMode : string;
    is30Year : bool;
    insurance : Q;
    electricity : Q;
    upkeep : Q;
    cityTaxes : Q;
    notaryFees : Q;
    movingBase : Q;
    paintPerSqft : Q;
    financingSources : list SavedSource.t;
    owners : list Owner.t;
    renovations : list Renovation.t }.
End Saved.

Module Page.
Record t : Type :=
  { state : State.t;
    renovations : list (slot Renovation.t) }.
End Page.






(** ** A recalculation pass on the page with its renovations

    [calculate] adds up the renovations after it has written the amount of
    the auto-fill mortgage and before it reads the sources: on a [null] slot
    the pass ends there in a [TypeError]. *)

Module Run.
(** The page an operation leaves, how it ended, and what the recalculation
    pass computed if it ran to its end. *)
Record t : Type :=
  { page : Page.t; completion : completion; snapshot : option Snapshot.t }.
End Run.

Section OnThePage.

Variable Math_pow : Q -> Q -> Q.

(** [x.toFixed(1)] read back as a number, of the host. *)
Variable toFixed1 : Q -> Q.

(** [calculate()] on the page. *)
Definition recalculate (page : Page.t) : Run.t :=
  let st := Page.state page in
  match totalOneTime (State.dom st) (Page.renovations page) with
  | Some _ =>
      let r := calculate Math_pow FINANCING_TYPES st in
      {| Run.page :=
           {| Page.state := r.1; Page.renovations := Page.renovations page |};
         Run.completion := Returns;
         Run.snapshot := Some r.2 |}
  | None =>
      let dom := State.dom st in
      let offerPrice := getInputValue dom (Named "offerPrice") in
      let downPayment := getDownPaymentAmount (State.downPaymentMode st) dom in
      let is30Year := default false (Dom.checked dom (Named "is30Year")) in
      let cmhc := calculateCmhc offerPrice downPayment is30Year in
      let sd0 :=
        updateBankMortgageAmount (CmhcResult.totalMortgage cmhc)
          (State.financingSources st, dom) in
      {| Run.page :=
           {| Page.state :=
                {| State.financingSources := sd0.1;
                   State.owners := State.owners st;
                   State.downPaymentMode := State.downPaymentMode st;
                   State.dom := sd0.2 |};
              Page.renovations := Page.renovations page |};
         Run.completion := TypeError;
         Run.snapshot := None |}
  end.

(** [setDownPaymentMode(mode)], up to the call of [saveToStorage].  Without
    the down-payment field the call ends in a [TypeError] before anything is
    written.  The two buttons of the mode are taken to be in the page, and
    their styles are not part of the model. *)
Definition setDownPaymentMode (mode : string) (page : Page.t) : Run.t :=
  let st := Page.state page in
  let dom := State.dom st in
  let offerPrice := getInputValue dom (Named "offerPrice") in
  let currentValue := getInputValue dom (Named "downPayment") in
  match Dom.inputs dom (Named "downPayment") with
  | None =>
      {| Run.page := page; Run.completion := TypeError; Run.snapshot := None |}
  | Some _ =>
      let dom' :=
        if (mode =? "amount")%string then
          if (State.downPaymentMode st =? "percent")%string
             && (offerPrice >? 0) && (currentValue >? 0)
          then
            let amount := (currentValue / 100) * offerPrice in
            Dom.set_input dom (Named "downPayment") (Math_round amount)
          else dom
        else
          if (State.downPaymentMode st =? "amount")%string
             && (offerPrice >? 0) && (currentValue >? 0)
          then
            let percent := (currentValue / offerPrice) * 100 in
            Dom.set_input dom (Named "downPayment") (toFixed1 percent)
          else dom in
      recalculate
        {| Page.state :=
             {| State.financingSources := State.financingSources st;
                State.owners := State.owners st;
                State.downPaymentMode := mode;
                State.dom := dom' |};
           Page.renovations := Page.renovations page |}
  end.

(** [suggestUpkeep()], up to the call of [saveToStorage].  Without a
    positive offer price nothing is done; without the upkeep field the call
    ends in a [TypeError] before anything is written. *)
Definition suggestUpkeep (page : Page.t) : Run.t :=
  let st := Page.state page in
  let dom := State.dom st in
  let offerPrice := getInputValue dom (Named "offerPrice") in
  if offerPrice >? 0 then
    let suggested := (offerPrice * 0.01) / 12 in
    match Dom.inputs dom (Named "upkeep") with
    | None =>
        {| Run.page := page; Run.completion := TypeError;
           Run.snapshot := None |}
    | Some _ =>
        recalculate
          {| Page.state :=
               {| State.financingSources := State.financingSources st;
                  State.owners := State.owners st;
                  State.downPaymentMode := State.downPaymentMode st;
                  State.dom :=
                    Dom.set_input dom (Named "upkeep")
                      (Math_round suggested) |};
             Page.renovations := Page.renovations page |}
    end
  else {| Run.page := page; Run.completion := Returns; Run.snapshot := None |}.

End OnThePage.

(** A [toFixed(1)] that rounds the exact number to the nearest tenth, a tie
    going away from zero. *)
Definition toFixed1_exact (x : Q) : Q :=
  if x <? 0 then - (inject_Z (Qfloor (- x * 10 + (1 # 2))) / 10)
  else inject_Z (Qfloor (x * 10 + (1 # 2))) / 10.

(** ** The same formulas on the doubles of the host

    The numbers of the program are IEEE 754 doubles.  The definitions above
    take them as exact rationals; where a statement turns on the rounding,
    the formulas are taken here on the binary64 numbers of the kernel, whose
    [+], [-], [*], [/] and comparisons are the ones of the host.  [Math.pow]
    stays a parameter. *)

Module Double.

#[local] Open Scope float_scope.

(** The rational a finite double stands for (0 for an infinity or a NaN). *)
Definition exact (x : float) : Q :=
  match Prim2SF x with
  | S754_finite sign mantissa exponent =>
      ((if sign then -1 else 1) * inject_Z (Z.pos mantissa)
       * Qpower 2 exponent)%Q
  | _ => 0%Q
  end.

(** [month++] from 0: the double of a count. *)
Fixpoint of_nat (n : nat) : float :=
  match n with
  | O => 0
  | S k => of_nat k + 1
  end.

(** [Math.min] of two numbers, neither of them a NaN. *)
Definition Math_min (x y : float) : float := if x <? y then x else y.

Module Affordability.
Record t : Type :=
  { ratio : float; percent : float; status : string; statusColor : string }.
End Affordability.

Definition calculateAffordability (totalMonthlyCosts grossMonthlyIncome : float)
  : Affordability.t :=
  if grossMonthlyIncome <=? 0 then
    {| Affordability.ratio := 0;
       Affordability.percent := 0;
       Affordability.status := "unknown";
       Affordability.statusColor := "gray" |}
  else
    let ratio := totalMonthlyCosts / grossMonthlyIncome in
    let percent := ratio * 100 in
    if percent <=? 30 then
      {| Affordability.ratio := ratio;
         Affordability.percent := percent;
         Affordability.status := "Affordable";
         Affordability.statusColor := "green" |}
    else if percent <=? 40 then
      {| Affordability.ratio := ratio;
         Affordability.percent := percent;
         Affordability.status := "Caution";
         Affordability.statusColor := "yellow" |}
    else
      {| Affordability.ratio := ratio;
         Affordability.percent := percent;
         Affordability.status := "High Risk";
         Affordability.statusColor := "red" |}.

(** The share of the housing cost on the card of a member: the first two
    lines of the body of [ownerData.map] in [updatePerPersonRatios]. *)
Definition housingCostShare (gdsHousingCosts totalGrossIncome income : float)
  : float :=
  let incomeShare := income / totalGrossIncome in
  gdsHousingCosts * incomeShare.


Module Payment.
Record t : Type :=
  { monthlyPayment : float; totalPayments : float; totalInterest : float }.
End Payment.

Section Formulas.

(** [Math.pow] of the host. *)
Variable Math_pow : float -> float -> float.

Definition calculateMonthlyPayment (principal annualRate termMonths : float)
  : Payment.t :=
  if (principal <=? 0) || (termMonths <=? 0) then
    {| Payment.monthlyPayment := 0;
       Payment.totalPayments := 0;
       Payment.totalInterest := 0 |}
  else
    let monthlyRate := (annualRate / 100) / 12 in
    if monthlyRate =? 0 then
      {| Payment.monthlyPayment := principal / termMonths;
         Payment.totalPayments := principal;
         Payment.totalInterest := 0 |}
    else
      let rateFactor := Math_pow (1 + monthlyRate) termMonths in
      let monthlyPayment :=
        principal * (monthlyRate * rateFactor) / (rateFactor - 1) in
      let totalPayments := monthlyPayment * termMonths in
      let totalInterest := totalPayments - principal in
      {| Payment.monthlyPayment := monthlyPayment;
         Payment.totalPayments := totalPayments;
         Payment.totalInterest := totalInterest |}.

End Formulas.

Module Loan.
Record t : Type :=
  { amount : float; rate : float; termMonths : float; monthlyPayment : float }.
End Loan.

Module Schedule.
Record t : Type :=
  { interestData : list float;
    principalData : list float;
    remainingBalance : float }.
End Schedule.

(** The body of the month loop of [updateChart]. *)
Definition schedule_body (monthlyRate monthlyPayment : float) (month : nat)
  (st : Schedule.t) : Schedule.t :=
  if (0 <? Schedule.remainingBalance st) && (0 <? monthlyPayment) then
    let interestPortion := Schedule.remainingBalance st * monthlyRate in
    let principalPortion :=
      Math_min (monthlyPayment - interestPortion)
        (Schedule.remainingBalance st) in
    {| Schedule.interestData :=
         alter (fun v => v + interestPortion) month (Schedule.interestData st);
       Schedule.principalData :=
         <[ month := principalPortion ]> (Schedule.principalData st);
       Schedule.remainingBalance :=
         Schedule.remainingBalance st - principalPortion |}
  else st.

Fixpoint month_loop (fuel : nat) (month : nat) (limit : float)
  (body : nat -> Schedule.t -> Schedule.t) (st : Schedule.t) : Schedule.t :=
  match fuel with
  | O => st
  | S fuel' =>
      if of_nat month <? limit
      then month_loop fuel' (S month) limit body (body month st)
      else st
  end.

(** The schedule of one loan, for a payment that is a number other than
    NaN. *)
Definition loan_schedule (interestData : list float) (loan : Loan.t)
  : Schedule.t :=
  let monthlyRate := (Loan.rate loan / 100) / 12 in
  let monthlyPayment := Loan.monthlyPayment loan in
  month_loop maxMonths 0
    (Math_min (Loan.termMonths loan) (of_nat maxMonths))
    (schedule_body monthlyRate monthlyPayment)
    {| Schedule.interestData := interestData;
       Schedule.principalData := replicate maxMonths 0;
       Schedule.remainingBalance := Loan.amount loan |}.

End Double.

(** * Definitions for the statements

    The sums, predicates and example pages the properties are stated with. *)

(** The sum of the [amount] entries of a breakdown. *)
Definition amountTaxed (result : Welcome.result) : Q :=
  Qsum (map Welcome.amount (Welcome.breakdown result)).

(** A table the walk can start on from the threshold [p]: rates between 0
    and the bound [top], finite thresholds strictly ascending from [p], and
    an unbounded bracket at the end of the finite ones. *)
Fixpoint table_ok (top p : Q) (brackets : list Welcome.bracket) : Prop :=
  match brackets with
  | [] => False
  | b :: rest =>
      0 <= Welcome.rate b /\ Welcome.rate b <= top
      /\ match Welcome.threshold b with
         | Fin t => p < t /\ table_ok top t rest
         | Inf => True
         end
  end.

(** The tax the walk adds for an amount [r] still to allocate, from the
    threshold [p] on: each finite bracket takes what fits below its
    ceiling, the unbounded one takes everything. *)
Fixpoint walk_tax (brackets : list Welcome.bracket) (p r : Q) : Q :=
  match brackets with
  | [] => 0
  | b :: rest =>
      match Welcome.threshold b with
      | Fin t =>
          Qmin r (t - p) * Welcome.rate b
          + walk_tax rest t (r - Qmin r (t - p))
      | Inf => r * Welcome.rate b
      end
  end.

(** Whether the type of a source counts toward the down payment. *)
Definition counts_toward_down_payment (types : Types.t) (s : Source.t) : bool :=
  from_option TypeConfig.countsTowardDownPayment false
    (Types.get types (Source.sourceType s)).

(** The sum, over the non-null sources of a list whose first index is
    [index], of the amounts of the sources [keep] retains, whose type counts
    toward the down payment, which are not the gap slot [gap] and not an
    auto-fill mortgage slot. *)
Fixpoint savings (keep : Source.t -> bool) (types : Types.t) (gap : nat)
  (index : nat) (sources : list (option Source.t)) : Q :=
  match sources with
  | [] => 0
  | None :: rest => savings keep types gap (S index) rest
  | Some s :: rest =>
      (if counts_toward_down_payment types s
          && negb (index =? gap)%nat
          && negb (Source.isAutoFillMortgage s)
          && keep s
       then Source.amount s else 0)
      + savings keep types gap (S index) rest
  end.

(** The sum as the specification words it: every eligible amount. *)
Definition eligible_savings : Types.t -> nat -> nat -> list (option Source.t) -> Q :=
  savings (fun _ => true).

(** The sum restricted to the amounts above zero. *)
Definition positive_savings : Types.t -> nat -> nat -> list (option Source.t) -> Q :=
  savings (fun s => Source.amount s >? 0).

(** What one source adds to [totalSavingsForDownPayment]. *)
Definition counted (types : Types.t) (s : Source.t) : Q :=
  match Types.get types (Source.sourceType s) with
  | Some config =>
      if TypeConfig.countsTowardDownPayment config
         && negb (TypeConfig.isAutoCalculated config)
         && (Source.amount s >? 0)
      then Source.amount s else 0
  | None => 0
  end.

(** What the non-null sources of a list add to it together. *)
Fixpoint counted_sum (types : Types.t) (sources : list (option Source.t)) : Q :=
  match sources with
  | [] => 0
  | None :: rest => counted_sum types rest
  | Some s :: rest => counted types s + counted_sum types rest
  end.

(** [P] holds of every non-null source of the list. *)
Definition all_sources (P : Source.t -> Prop) (l : list (option Source.t)) : Prop :=
  forall (j : nat) (s : Source.t), l !! j = Some (Some s) -> P s.

(** Two sources, a TFSA and the loan of the parents, on an empty page; the
    user types -100 as the amount of the TFSA. *)
Definition tfsa_and_gap : list (option Source.t) * Dom.t :=
  let sd :=
    addFinancingSource "Parent's Loan" "parents_loan" false true
      (addFinancingSource "TFSA" "tfsa" false false ([], Dom.empty)) in
  (sd.1, Dom.set_input sd.2 (Indexed "financing-amount" 0) (-100)).

(** A TFSA holding 5000 that carries the auto-fill flag, which only saved
    data written by hand can produce, and the loan of the parents. *)
Definition flagged_tfsa_and_gap : list (option Source.t) * Dom.t :=
  let sd :=
    addFinancingSource "Parent's Loan" "parents_loan" false true
      (addFinancingSource "TFSA" "tfsa" true false ([], Dom.empty)) in
  (alter (fmap (Source.set_amount 5000)) 0%nat sd.1, sd.2).

(** The sources the page starts with, with 20000, 15000, 5000 and 8000 typed
    as the amounts of the CELIAPP, the RRSP, the TFSA and the joint account. *)
Definition default_sources : list (option Source.t) * Dom.t :=
  let sd :=
    addFinancingSource "Parent's Loan" "parents_loan" false true
      (addFinancingSource "Joint Account" "joint_account" false false
         (addFinancingSource "TFSA" "tfsa" false false
            (addFinancingSource "RRSP" "rrsp" false false
               (addFinancingSource "CELIAPP" "celiapp" false false
                  (addFinancingSource "Bank Mortgage" "mortgage" true false
                     ([], Dom.empty)))))) in
  (sd.1,
   Dom.set_input
     (Dom.set_input
        (Dom.set_input
           (Dom.set_input sd.2 (Indexed "financing-amount" 1) 20000)
           (Indexed "financing-amount" 2) 15000)
        (Indexed "financing-amount" 3) 5000)
     (Indexed "financing-amount" 4) 8000).

(** The ceiling a type declares: [maxWithdrawal] or [maxContribution]. *)
Definition declared_ceiling (types : Types.t) (sourceType : string) : option Q :=
  match Types.get types sourceType with
  | Some config =>
      match TypeConfig.maxWithdrawal config with
      | Some c => Some c
      | None => TypeConfig.maxContribution config
      end
  | None => None
  end.

(** The warning of a source whose amount is above the ceiling of its type,
    and no warning otherwise. *)
Definition source_warnings (s : Source.t) : list Warning.t :=
  if exceeds (Source.amount s)
       (declared_ceiling FINANCING_TYPES (Source.sourceType s))
  then
    if (Source.sourceType s =? "rrsp")%string
    then [ {| Warning.type := "warning";
              Warning.source := "RRSP";
              Warning.text := Warning.MaximumHbpWithdrawal (Some 60000) |} ]
    else [ {| Warning.type := "warning";
              Warning.source := "CELIAPP";
              Warning.text :=
                Warning.MaximumCeliappContribution (Some 40000) |} ]
  else [].

(** [FINANCING_TYPES] with other ceilings for the RRSP and the CELIAPP. *)
Definition with_ceilings (maxWithdrawal maxContribution : option Q) : Types.t :=
  {| Types.mortgage := Types.mortgage FINANCING_TYPES;
     Types.celiapp :=
       {| TypeConfig.label := "CELIAPP";
          TypeConfig.requiresRepayment := false;
          TypeConfig.repaymentYears := None;
          TypeConfig.isLoan := false;
          TypeConfig.countsTowardDownPayment := true;
          TypeConfig.isAutoCalculated := false;
          TypeConfig.maxContribution := maxContribution;
          TypeConfig.maxWithdrawal := None |};
     Types.rrsp :=
       {| TypeConfig.label := "RRSP (Home Buyers' Plan)";
          TypeConfig.requiresRepayment := true;
          TypeConfig.repaymentYears := Some 15;
          TypeConfig.isLoan := false;
          TypeConfig.countsTowardDownPayment := true;
          TypeConfig.isAutoCalculated := false;
          TypeConfig.maxContribution := None;
          TypeConfig.maxWithdrawal := maxWithdrawal |};
     Types.tfsa := Types.tfsa FINANCING_TYPES;
     Types.joint_account := Types.joint_account FINANCING_TYPES;
     Types.parents_loan := Types.parents_loan FINANCING_TYPES;
     Types.other_loan := Types.other_loan FINANCING_TYPES;
     Types.other_savings := Types.other_savings FINANCING_TYPES |}.

(** Two configurations with the same capability flags. *)
Definition same_flags (c1 c2 : TypeConfig.t) : Prop :=
  TypeConfig.isLoan c1 = TypeConfig.isLoan c2
  /\ TypeConfig.countsTowardDownPayment c1
     = TypeConfig.countsTowardDownPayment c2
  /\ TypeConfig.isAutoCalculated c1 = TypeConfig.isAutoCalculated c2.

(** Two tables that differ at most in what is not a capability flag. *)
Definition tables_agree (t1 t2 : Types.t) : Prop :=
  forall key : string,
    match Types.get t1 key, Types.get t2 key with
    | Some c1, Some c2 => same_flags c1 c2
    | None, None => True
    | _, _ => False
    end.

(** The default sources with 70000 typed for the RRSP. *)
Definition rrsp_above_ceiling : list (option Source.t) * Dom.t :=
  (default_sources.1,
   Dom.set_input default_sources.2 (Indexed "financing-amount" 2) 70000).




(** Two members earning 6000 and 4000 a month, a loan of 2000 a month at no
    interest, 3600 of property tax a year and 100 of electricity a month. *)
Definition two_members : State.t :=
  let sd :=
    addFinancingSource "Other Loan" "other_loan" false false ([], Dom.empty) in
  {| State.financingSources := sd.1;
     State.owners :=
       [ Some {| Owner.name := "Person 1"; Owner.income := 0;
                 Owner.carLoanPayment := 0; Owner.studentLoanPayment := 0;
                 Owner.personalLoanPayment := 0;
                 Owner.creditCardPayment := 0 |};
         None;
         Some {| Owner.name := "Person 2"; Owner.income := 0;
                 Owner.carLoanPayment := 0; Owner.studentLoanPayment := 0;
                 Owner.personalLoanPayment := 0;
                 Owner.creditCardPayment := 0 |} ];
     State.downPaymentMode := "amount";
     State.dom :=
       Dom.set_input
         (Dom.set_input
            (Dom.set_input
               (Dom.set_input
                  (Dom.set_input
                     (Dom.set_input
                        (Dom.set_input sd.2 (Indexed "financing-amount" 0)
                           240000)
                        (Indexed "financing-term" 0) 10)
                     (Indexed "owner-income" 0) 6000)
                  (Indexed "owner-income" 2) 4000)
               (Indexed "owner-car" 2) 300)
            (Named "cityTaxes") 3600)
         (Named "electricity") 100 |}.

(** [k] rounds of a loop body, from the month [month] on. *)
Fixpoint run_months (k : nat) (month : nat)
  (body : nat -> Schedule.t -> Schedule.t) (st : Schedule.t) : Schedule.t :=
  match k with
  | O => st
  | S k' => run_months k' (S month) body (body month st)
  end.

(** Powers with a natural exponent. *)
Fixpoint Qpow (x : Q) (k : nat) : Q :=
  match k with
  | O => 1
  | S k' => x * Qpow x k'
  end.

(** A month count as a number. *)
Definition Qnat (n : nat) : Q := inject_Z (Z.of_nat n).



(** A [Math.pow] that is exact on the natural exponents; an exponent in
    between is rounded up. *)
Definition pow_ceiling (x y : Q) : Q := Qpow x (Z.to_nat (Qceiling y)).


(** A loan of 1000 at 5 percent without a term, with the payment and the
    first-month split [calculateMonthlyPayment] and
    [calculatePaymentBreakdown] give for it. *)
Definition loan_without_term : Loan.t :=
  let payment := value (calculateMonthlyPayment pow_ceiling 1000 5 0) in
  let breakdown :=
    calculatePaymentBreakdown 1000 5 (Payment.monthlyPayment payment) None in
  {| Loan.name := "Other Loan";
     Loan.sourceType := "other_loan";
     Loan.interest := Breakdown.interestPortion breakdown;
     Loan.principal := Breakdown.principalPortion breakdown;
     Loan.amount := 1000;
     Loan.rate := 5;
     Loan.termMonths := 0;
     Loan.monthlyPayment := Payment.monthlyPayment payment |}.

(** An entry of the breakdown is well formed: a positive amount, taxed at
    the rate of the entry, that fills the span from [from] to [to]. *)
Definition entry_ok (e : Welcome.entry) : Prop :=
  0 < Welcome.amount e
  /\ Welcome.tax e == Welcome.amount e * Welcome.entry_rate e
  /\ exists p : Q, Welcome.from e = Fin p /\ Welcome.to e - p == Welcome.amount e.

(** The sum of the [tax] entries of a breakdown. *)
Definition taxListed (result : Welcome.result) : Q :=
  Qsum (map Welcome.tax (Welcome.breakdown result)).

(** Two members on a page with the container of the cards: one earns 5000
    and pays 400 on debts, the other has no income and pays 250. *)
Definition earner_and_dependant : list OwnerData.t :=
  [ {| OwnerData.index := 0; OwnerData.name := "Person 1";
       OwnerData.income := 5000; OwnerData.totalDebts := 400;
       OwnerData.carLoan := 400; OwnerData.studentLoan := 0;
       OwnerData.personalLoan := 0; OwnerData.creditCard := 0 |};
    {| OwnerData.index := 1; OwnerData.name := "Person 2";
       OwnerData.income := 0; OwnerData.totalDebts := 250;
       OwnerData.carLoan := 0; OwnerData.studentLoan := 250;
       OwnerData.personalLoan := 0; OwnerData.creditCard := 0 |} ].

(** The default sources for a purchase at 400000 with 60000 down. *)
Definition first_home : State.t :=
  {| State.financingSources := default_sources.1;
     State.owners := [];
     State.downPaymentMode := "amount";
     State.dom :=
       Dom.set_input
         (Dom.set_input default_sources.2 (Named "offerPrice") 400000)
         (Named "downPayment") 60000 |}.

(** What a recalculation pass keeps of a slot of [financingSources]: a
    [null] slot stays [null], a source stays a source with its name, its two
    flags and, when it has one, its type. *)
Definition slot_kept (before after : option Source.t) : Prop :=
  match before, after with
  | None, None => True
  | Some s, Some s' =>
      Source.name s' = Source.name s
      /\ Source.isAutoFillMortgage s' = Source.isAutoFillMortgage s
      /\ Source.isAutoCalculated s' = Source.isAutoCalculated s
      /\ (Source.sourceType s <> EmptyString ->
          Source.sourceType s' = Source.sourceType s)
  | _, _ => False
  end.

(** What it keeps of a slot of [owners]. *)
Definition member_kept (before after : option Owner.t) : Prop :=
  match before, after with
  | None, None => True
  | Some o, Some o' => Owner.name o' = Owner.name o
  | _, _ => False
  end.

(** The debt the equity chart shows for a year. *)
Definition debt_at (year : nat) (loanPaymentDetails : list Loan.t) : Q :=
  foldl (remaining_debt (year * 12)) 0 loanPaymentDetails.

(** The flags of a source fit its type: the source has a type, the
    auto-fill flag is carried by mortgages only, and a loan of the parents is
    auto-calculated. *)
Definition flags_fit (s : Source.t) : Prop :=
  Source.sourceType s <> EmptyString
  /\ (Source.isAutoFillMortgage s = true ->
      Source.sourceType s = "mortgage"%string)
  /\ (Source.sourceType s = "parents_loan"%string ->
      Source.isAutoCalculated s = true).

(** What a recalculation pass keeps of the page: it writes to amount fields
    of sources only, and only to fields that exist; the selectors, the
    checkboxes and the container of the cards are as before. *)
Definition dom_kept (before after : Dom.t) : Prop :=
  (forall id : ElementId,
      (forall i : nat, id <> Indexed "financing-amount" i) ->
      Dom.inputs after id = Dom.inputs before id)
  /\ (forall id : ElementId,
        is_Some (Dom.inputs after id) <-> is_Some (Dom.inputs before id))
  /\ Dom.selects after = Dom.selects before
  /\ Dom.checked after = Dom.checked before
  /\ Dom.perPersonRatios after = Dom.perPersonRatios before.

(** The number of members of a list with [null] slots. *)
Definition members {A : Type} (array : list (option A)) : nat :=
  length (omap id array).

(** The purchase at 400000 on a page that has the upkeep field. *)
Definition priced_home : State.t :=
  {| State.financingSources := State.financingSources first_home;
     State.owners := State.owners first_home;
     State.downPaymentMode := State.downPaymentMode first_home;
     State.dom := Dom.set_input (State.dom first_home) (Named "upkeep") 0 |}.

(** The fields of the page [loadFromStorage] writes to. *)
Definition static_fields : list string :=
  [ "askingPrice"; "evaluationPrice"; "offerPrice"; "squareFootage";
    "downPayment"; "insurance"; "electricity"; "upkeep"; "cityTaxes";
    "notaryFees"; "movingBase"; "paintPerSqft" ]%string.

(** The page as it is when [loadFromStorage] runs: the lists are empty, the
    mode is 'amount', the static fields are there and empty, the checkbox is
    there and not checked. *)
Definition fresh (page : Page.t) : Prop :=
  State.financingSources (Page.state page) = []
  /\ State.owners (Page.state page) = []
  /\ Page.renovations page = []
  /\ State.downPaymentMode (Page.state page) = "amount"%string
  /\ (forall id : string,
        In id static_fields ->
        Dom.inputs (State.dom (Page.state page)) (Named id) = Some 0)
  /\ Dom.checked (State.dom (Page.state page)) (Named "is30Year") = Some false.




(** What [load_field] leaves when the field is in the page. *)
Definition loaded (dom : Dom.t) (id : string) (v : Q) : Dom.t :=
  if Qeq_bool v 0 then dom else Dom.set_input dom (Named id) v.



(** Two pages with the same fields. *)
Definition same_page (d d' : Dom.t) : Prop :=
  (forall id : ElementId, Dom.inputs d' id = Dom.inputs d id)
  /\ (forall id : ElementId, Dom.selects d' id = Dom.selects d id)
  /\ (forall id : ElementId, Dom.checked d' id = Dom.checked d id)
  /\ Dom.perPersonRatios d' = Dom.perPersonRatios d.

(** A list of sources with [f index] applied to the source of each slot. *)
Fixpoint slots_map (f : nat -> Source.t -> Source.t) (index : nat)
  (l : list (option Source.t)) : list (option Source.t) :=
  match l with
  | [] => []
  | x :: rest => (f index <$> x) :: slots_map f (S index) rest
  end.

(** The source the first pass leaves in a slot, and the one the second pass
    leaves. *)
Definition first_source (types : Types.t) (dom : Dom.t) (index : nat)
  (source : Source.t) : Source.t :=
  (first_pass_source types dom index source Pass1_start).1.

Definition second_source (Math_pow : Q -> Q -> Q) (types : Types.t)
  (dom : Dom.t) (index : nat) (source : Source.t) : Source.t :=
  (second_pass_source Math_pow types dom index source Pass2_start).1.

(** The slot [updateBankMortgageAmount] and [updateParentsLoanAmount] write
    to, if any: the first one [p] holds of, when the page has its amount
    field. *)
Definition written (p : option Source.t -> bool)
  (sd : list (option Source.t) * Dom.t) : option nat :=
  match findIndex p sd.1 with
  | Some i =>
      match Dom.inputs sd.2 (Indexed "financing-amount" i) with
      | Some _ => Some i
      | None => None
      end
  | None => None
  end.

(** The amount they write. *)
Definition positive_part (v : Q) : Q := if v >? 0 then v else 0.

(** The source of the slot [i] after the write to the slot [w]. *)
Definition write_slot (w : option nat) (v : Q) (i : nat) (a : Source.t)
  : Source.t :=
  if decide (w = Some i) then Source.set_amount v a else a.

(** What the first pass reads and writes of a source, and what only the
    second pass writes. *)
Definition source_core (s : Source.t) : string * string * Q * bool * bool :=
  (Source.name s, Source.sourceType s, Source.amount s,
   Source.isAutoFillMortgage s, Source.isAutoCalculated s).

Definition source_loan (s : Source.t)
  : Q * Q * option Q * option Q * option Q :=
  (Source.rate s, Source.termMonths s, Source.monthlyPayment s,
   Source.interestPortion s, Source.principalPortion s).

(** The purchase at 400000 with 60000 down, and the one with the upkeep
    field, on a page without renovations. *)
Definition first_home_page : Page.t :=
  {| Page.state := first_home; Page.renovations := [] |}.

Definition priced_home_page : Page.t :=
  {| Page.state := priced_home; Page.renovations := [] |}.


(** * Properties *)

(** ** Comparisons as propositions *)

Lemma Qlt_bool_iff (x y : Q) : (x <? y) = true <-> x < y.
Proof.
  unfold Qlt_bool. rewrite negb_true_iff.
  destruct (Qle_bool y x) eqn:E.
  - apply Qle_bool_iff in E. split; [discriminate | lra].
  - split; [intros _ | reflexivity].
    apply Qnot_le_lt. intros H. apply Qle_bool_iff in H. congruence.
Qed.

Lemma Qlt_bool_false (x y : Q) : (x <? y) = false <-> y <= x.
Proof.
  destruct (x <? y) eqn:E.
  - apply Qlt_bool_iff in E. split; [discriminate | lra].
  - split; [intros _ | reflexivity].
    apply Qnot_lt_le. intros H. apply Qlt_bool_iff in H. congruence.
Qed.

Lemma Qle_bool_false (x y : Q) : (x <=? y) = false <-> y < x.
Proof.
  destruct (x <=? y) eqn:E.
  - apply Qle_bool_iff in E. split; [discriminate | lra].
  - split; [intros _ | reflexivity].
    apply Qnot_le_lt. intros H. apply Qle_bool_iff in H. congruence.
Qed.

(** Turns the boolean comparisons among the hypotheses into inequalities. *)
Ltac qprop :=
  repeat match goal with
    | H : (_ <? _) = true |- _ => apply Qlt_bool_iff in H
    | H : (_ <? _) = false |- _ => apply Qlt_bool_false in H
    | H : (_ <=? _) = true |- _ => apply Qle_bool_iff in H
    | H : (_ <=? _) = false |- _ => apply Qle_bool_false in H
    | H : Qeq_bool _ _ = true |- _ => apply Qeq_bool_iff in H
    | H : Qeq_bool _ _ = false |- _ => apply Qeq_bool_neq in H
    end.

(** Turns the divisions by a literal into multiplications, which [lra]
    understands. *)
Ltac qdiv_literals :=
  unfold Qdiv in *;
  repeat match goal with
    | |- context [/ (?n # ?d)] =>
        let v := eval vm_compute in (/ (n # d)) in
        change (/ (n # d)) with v
    | H : context [/ (?n # ?d)] |- _ =>
        let v := eval vm_compute in (/ (n # d)) in
        change (/ (n # d)) with v in H
    end.

(** ** Mortgage insurance *)

Lemma cmhc_scan_no_match (brackets : list Cmhc.bracket) (ltv rate : Q) :
  Forall (fun b => Cmhc.maxLtv b < ltv) brackets ->
  cmhc_scan brackets ltv rate = rate.
Proof.
  induction 1 as [|b rest Hb _ IH]; simpl; [reflexivity|].
  destruct (ltv <=? Cmhc.maxLtv b) eqn:E; [qprop; lra | exact IH].
Qed.

Lemma CMHC_RATES_ceiling (ltv : Q) :
  0.95 < ltv -> Forall (fun b => Cmhc.maxLtv b < ltv) CMHC_RATES.
Proof.
  intros H. unfold CMHC_RATES.
  repeat (constructor; [simpl; lra|]). constructor.
Qed.

(** C1. The loan-to-value ratio of the result of [calculateCmhc] is
    [(purchasePrice - downPayment) / purchasePrice], or 0 without a positive
    price.  The insurance is reported as required exactly when that ratio is
    strictly above 0.80, so not at 0.80 itself; when it is not required the
    premium, the provincial tax on it and their total are zero, and the
    result still carries the ratio, its percentage and the mortgage amount
    [purchasePrice - downPayment], which is then the total mortgage too. *)
Theorem calculateCmhc_required_iff_ltv_above_80
  (purchasePrice downPayment : Q) (is30Year : bool) :
  let result := calculateCmhc purchasePrice downPayment is30Year in
  (0 < purchasePrice ->
   CmhcResult.ltv result = (purchasePrice - downPayment) / purchasePrice)
  /\ (purchasePrice <= 0 ->
      CmhcResult.ltv result = 0 /\ CmhcResult.cmhcRequired result = false)
  /\ (CmhcResult.cmhcRequired result = true <-> 0.80 < CmhcResult.ltv result)
  /\ (CmhcResult.ltv result == 0.80 -> CmhcResult.cmhcRequired result = false)
  /\ (CmhcResult.cmhcRequired result = false ->
      CmhcResult.cmhcPremium result = 0
      /\ CmhcResult.quebecTax result == 0
      /\ CmhcResult.totalCmhcCost result == 0
      /\ CmhcResult.totalMortgage result == purchasePrice - downPayment)
  /\ CmhcResult.mortgageAmount result = purchasePrice - downPayment
  /\ CmhcResult.ltvPercent result = CmhcResult.ltv result * 100.
Proof.
  cbn zeta. unfold calculateCmhc, calculateLtv.
  cbn [CmhcResult.cmhcRequired CmhcResult.cmhcPremium CmhcResult.quebecTax
       CmhcResult.ltv CmhcResult.mortgageAmount CmhcResult.totalCmhcCost
       CmhcResult.totalMortgage CmhcResult.ltvPercent].
  split.
  { intros Hprice.
    assert (E : (purchasePrice <=? 0) = false)
      by (apply Qle_bool_false; exact Hprice).
    rewrite E. reflexivity. }
  split.
  { intros Hprice.
    assert (E : (purchasePrice <=? 0) = true)
      by (apply Qle_bool_iff; exact Hprice).
    rewrite E. split; reflexivity. }
  split; [apply Qlt_bool_iff|].
  split; [intros H; apply Qlt_bool_false; lra|].
  split; [|split; reflexivity].
  intros ->. unfold QUEBEC_TVQ_RATE. repeat split; lra.
Qed.

(** At 500000 with 100000 down the ratio is 0.80 exactly and no insurance is
    charged; with 50000 down the ratio is 0.90 and it is required. *)
Lemma calculateCmhc_required_iff_ltv_above_80_witness :
  (CmhcResult.ltv (calculateCmhc 500000 100000 false) == 0.80
   /\ CmhcResult.cmhcRequired (calculateCmhc 500000 100000 false) = false
   /\ CmhcResult.cmhcPremium (calculateCmhc 500000 100000 false) = 0
   /\ CmhcResult.totalMortgage (calculateCmhc 500000 100000 false) == 400000)
  /\ (CmhcResult.ltv (calculateCmhc 500000 50000 false) == 0.90
      /\ CmhcResult.cmhcRequired (calculateCmhc 500000 50000 false) = true).
Proof.
  pose proof (calculateCmhc_required_iff_ltv_above_80 500000 100000 false)
    as (Hratio & _ & _ & Hat & Hzero & _).
  pose proof (calculateCmhc_required_iff_ltv_above_80 500000 50000 false)
    as (Hratio' & _ & Hiff & _).
  cbn zeta in Hratio, Hat, Hzero, Hratio', Hiff.
  assert (Hprice : 0 < 500000) by reflexivity.
  split.
  - assert (Hltv : CmhcResult.ltv (calculateCmhc 500000 100000 false) == 0.80)
      by (rewrite (Hratio Hprice); reflexivity).
    split; [exact Hltv|]. split; [exact (Hat Hltv)|].
    destruct (Hzero (Hat Hltv)) as (Hpremium & _ & _ & Htotal).
    split; [exact Hpremium | rewrite Htotal; reflexivity].
  - assert (Hltv : CmhcResult.ltv (calculateCmhc 500000 50000 false) == 0.90)
      by (rewrite (Hratio' Hprice); reflexivity).
    split; [exact Hltv|]. apply Hiff. rewrite Hltv. reflexivity.
Defined.

(** C7. Above the ceiling 0.95 of the last bracket no bracket matches:
    [getCmhcRate] returns 0, or the surcharge 0.0020 alone with the 30-year
    flag, and not the 0.0400 of the last bracket; [calculateCmhc] then
    reports the insurance as required and computes the premium from that
    rate. *)
Theorem getCmhcRate_above_last_bracket
  (purchasePrice downPayment ltv : Q) (is30Year : bool) :
  0.95 < ltv ->
  (getCmhcRate ltv false == 0
   /\ getCmhcRate ltv true == 0.0020
   /\ ~ getCmhcRate ltv is30Year == 0.0400)
  /\ (calculateLtv purchasePrice downPayment == ltv ->
      CmhcResult.cmhcRequired
        (calculateCmhc purchasePrice downPayment is30Year) = true
      /\ CmhcResult.premiumRate
           (calculateCmhc purchasePrice downPayment is30Year)
         == (if is30Year then 0.0020 else 0)
      /\ CmhcResult.cmhcPremium
           (calculateCmhc purchasePrice downPayment is30Year)
         == (purchasePrice - downPayment) * (if is30Year then 0.0020 else 0)).
Proof.
  intros Hltv.
  assert (Hrate : forall l b, 0.95 < l ->
            getCmhcRate l b == (if b then 0.0020 else 0)).
  { intros l b Hl. unfold getCmhcRate.
    rewrite (cmhc_scan_no_match _ _ _ (CMHC_RATES_ceiling l Hl)).
    destruct b; unfold CMHC_30_YEAR_SURCHARGE; lra. }
  split.
  - split; [exact (Hrate ltv false Hltv)|].
    split; [exact (Hrate ltv true Hltv)|].
    rewrite (Hrate ltv is30Year Hltv). destruct is30Year; lra.
  - intros Heq.
    assert (Hl : 0.95 < calculateLtv purchasePrice downPayment) by lra.
    unfold calculateCmhc; cbn [CmhcResult.cmhcRequired CmhcResult.premiumRate
      CmhcResult.cmhcPremium].
    assert (Hreq : (calculateLtv purchasePrice downPayment >? 0.80) = true)
      by (apply Qlt_bool_iff; lra).
    rewrite Hreq.
    split; [reflexivity|].
    split; [exact (Hrate _ is30Year Hl)|].
    rewrite (Hrate _ is30Year Hl). reflexivity.
Qed.

(** A purchase at 100000 with 2000 down has a ratio of 0.98: the insurance is
    required and the premium is computed at the rate 0. *)
Lemma getCmhcRate_above_last_bracket_witness :
  0.95 < 0.98
  /\ getCmhcRate 0.98 false == 0
  /\ CmhcResult.cmhcRequired (calculateCmhc 100000 2000 false) = true
  /\ CmhcResult.cmhcPremium (calculateCmhc 100000 2000 false)
     == (100000 - 2000) * 0.
Proof.
  assert (H : 0.95 < 0.98) by lra.
  pose proof (getCmhcRate_above_last_bracket 100000 2000 0.98 false H)
    as ((Hr & _) & Hc).
  assert (Hltv : calculateLtv 100000 2000 == 0.98) by (vm_compute; reflexivity).
  destruct (Hc Hltv) as (Hreq & _ & Hprem).
  repeat split; assumption.
Defined.

(** ** Household affordability *)




(** ** Level payments *)

Section PaymentFacts.

Variable Math_pow : Q -> Q -> Q.



Lemma calculateMonthlyPayment_general (principal annualRate termMonths : Q) :
  0 < principal -> 0 < termMonths -> ~ annualRate / 100 / 12 == 0 ->
  calculateMonthlyPayment Math_pow principal annualRate termMonths
  = let monthlyRate := annualRate / 100 / 12 in
    let rateFactor := Math_pow (1 + monthlyRate) termMonths in
    let monthlyPayment :=
      principal * (monthlyRate * rateFactor) / (rateFactor - 1) in
    traced {| Payment.monthlyPayment := monthlyPayment;
              Payment.totalPayments := monthlyPayment * termMonths;
              Payment.totalInterest :=
                monthlyPayment * termMonths - principal;
              Payment.monthlyRate := Some monthlyRate |}
      [100; 12; rateFactor - 1].
Proof.
  intros Hp Hn Hrate. unfold calculateMonthlyPayment.
  assert (H : (principal <=? 0) || (termMonths <=? 0) = false).
  { apply orb_false_iff. split; apply Qle_bool_false; assumption. }
  rewrite H. cbv [bind div value divisors ret].
  destruct (Qeq_bool (annualRate / 100 / 12) 0) eqn:E; [|reflexivity].
  apply Qeq_bool_iff in E. contradiction.
Qed.


End PaymentFacts.



(** ** Land-transfer tax *)

Lemma Qsum_app (l1 l2 : list Q) : Qsum (l1 ++ l2) == Qsum l1 + Qsum l2.
Proof.
  induction l1 as [|x l1 IH]; simpl; [lra | rewrite IH; lra].
Qed.

Lemma scale_bounds (a rate top : Q) :
  0 <= a -> 0 <= rate -> rate <= top ->
  0 <= a * rate /\ a * rate <= a * top.
Proof.
  intros Ha Hr Ht. split.
  - apply Qmult_le_0_compat; assumption.
  - rewrite (Qmult_comm a rate), (Qmult_comm a top).
    apply Qmult_le_compat_r; assumption.
Qed.

Section BracketWalk.

(** A bound on the rates of the table. *)
Variable top : Q.

Lemma welcome_loop_amounts (price : Q) (brackets : list Welcome.bracket) :
  forall (p : Q) (st : WelcomeLoop.t),
    table_ok top p brackets ->
    WelcomeLoop.previousThreshold st = Fin p ->
    0 <= WelcomeLoop.remaining st ->
    Qsum (map Welcome.amount
            (WelcomeLoop.breakdown (welcome_loop price brackets st)))
    == Qsum (map Welcome.amount (WelcomeLoop.breakdown st))
       + WelcomeLoop.remaining st.
Proof.
  induction brackets as [|b rest IH]; intros p st Hok Hprev Hrem;
    [contradiction|].
  destruct Hok as (_ & _ & Hth).
  cbn [welcome_loop]. unfold welcome_body. rewrite Hprev.
  destruct (Welcome.threshold b) as [t|]; cbn [amountInBracket].
  - destruct Hth as (Hpt & Hrest).
    set (a := Qmin (WelcomeLoop.remaining st) (t - p)).
    assert (Ha : a <= WelcomeLoop.remaining st) by apply Q.le_min_l.
    destruct (a >? 0) eqn:Epos; cbn [WelcomeLoop.remaining]; qprop.
    + match goal with |- context [if ?c then _ else _] =>
        destruct c eqn:Estop end; qprop.
      * cbn [WelcomeLoop.breakdown].
        rewrite map_app, Qsum_app. cbn [map Qsum Welcome.amount]. lra.
      * rewrite (IH t); cbn [WelcomeLoop.previousThreshold
          WelcomeLoop.remaining WelcomeLoop.breakdown];
          [|assumption|reflexivity|lra].
        rewrite map_app, Qsum_app. cbn [map Qsum Welcome.amount]. lra.
    + assert (Hr0 : WelcomeLoop.remaining st <= 0).
      { destruct (Q.min_spec (WelcomeLoop.remaining st) (t - p))
          as [(L & E)|(L & E)]; fold a in E; lra. }
      assert (Estop : (WelcomeLoop.remaining st <=? 0) = true)
        by (apply Qle_bool_iff; exact Hr0).
      rewrite Estop. cbn [WelcomeLoop.breakdown]. lra.
  - destruct (WelcomeLoop.remaining st >? 0) eqn:Epos;
      cbn [WelcomeLoop.remaining]; qprop.
    + assert (Estop :
        (WelcomeLoop.remaining st - WelcomeLoop.remaining st <=? 0) = true)
        by (apply Qle_bool_iff; lra).
      rewrite Estop. cbn [WelcomeLoop.breakdown].
      rewrite map_app, Qsum_app. cbn [map Qsum Welcome.amount]. lra.
    + assert (Estop : (WelcomeLoop.remaining st <=? 0) = true)
        by (apply Qle_bool_iff; exact Epos).
      rewrite Estop. cbn [WelcomeLoop.breakdown]. lra.
Qed.

Lemma walk_tax_bounds (brackets : list Welcome.bracket) :
  forall p r : Q,
    table_ok top p brackets -> 0 <= r ->
    0 <= walk_tax brackets p r /\ walk_tax brackets p r <= top * r.
Proof.
  induction brackets as [|b rest IH]; intros p r Hok Hr; [contradiction|].
  destruct Hok as (Hr0 & Hr1 & Hth). cbn [walk_tax].
  destruct (Welcome.threshold b) as [t|].
  - destruct Hth as (Hpt & Hrest).
    set (a := Qmin r (t - p)).
    assert (Ha : 0 <= a /\ a <= r).
    { destruct (Q.min_spec r (t - p)) as [(L & E)|(L & E)]; fold a in E; lra. }
    destruct (IH t (r - a) Hrest) as (Hw0 & Hw1); [lra|].
    destruct (scale_bounds a (Welcome.rate b) top) as (Hs0 & Hs1);
      [lra | assumption | assumption |].
    split; lra.
  - destruct (scale_bounds r (Welcome.rate b) top) as (Hs0 & Hs1);
      [assumption | assumption | assumption |].
    split; lra.
Qed.

(** The walk is non-decreasing in the amount, and grows by at most [top]
    per unit. *)
Lemma walk_tax_monotone (brackets : list Welcome.bracket) :
  forall p r1 r2 : Q,
    table_ok top p brackets -> 0 <= r1 -> r1 <= r2 ->
    walk_tax brackets p r1 <= walk_tax brackets p r2
    /\ walk_tax brackets p r2 - walk_tax brackets p r1 <= top * (r2 - r1).
Proof.
  induction brackets as [|b rest IH]; intros p r1 r2 Hok H1 H12;
    [contradiction|].
  destruct Hok as (Hr0 & Hr1 & Hth). cbn [walk_tax].
  destruct (Welcome.threshold b) as [t|].
  - destruct Hth as (Hpt & Hrest).
    set (a1 := Qmin r1 (t - p)). set (a2 := Qmin r2 (t - p)).
    assert (Ha : a1 <= a2 /\ 0 <= r1 - a1 /\ r1 - a1 <= r2 - a2).
    { destruct (Q.min_spec r1 (t - p)) as [(L1 & E1)|(L1 & E1)];
        destruct (Q.min_spec r2 (t - p)) as [(L2 & E2)|(L2 & E2)];
        fold a1 in E1; fold a2 in E2; lra. }
    destruct Ha as (Ha & Hs1 & Hs12).
    destruct (IH t (r1 - a1) (r2 - a2) Hrest Hs1 Hs12) as (Hw0 & Hw1).
    destruct (scale_bounds (a2 - a1) (Welcome.rate b) top) as (Hd0 & Hd1);
      [lra | assumption | assumption |].
    split; lra.
  - destruct (scale_bounds (r2 - r1) (Welcome.rate b) top) as (Hd0 & Hd1);
      [lra | assumption | assumption |].
    split; lra.
Qed.

(** The loop of [calculateWelcomeTax] adds exactly [walk_tax]. *)
Lemma welcome_loop_totalTax (price : Q) (brackets : list Welcome.bracket) :
  forall (p : Q) (st : WelcomeLoop.t),
    table_ok top p brackets ->
    WelcomeLoop.previousThreshold st = Fin p ->
    0 <= WelcomeLoop.remaining st ->
    WelcomeLoop.totalTax (welcome_loop price brackets st)
    == WelcomeLoop.totalTax st
       + walk_tax brackets p (WelcomeLoop.remaining st).
Proof.
  induction brackets as [|b rest IH]; intros p st Hok Hprev Hrem;
    [contradiction|].
  destruct Hok as (Hr0 & Hr1 & Hth).
  cbn [welcome_loop walk_tax]. unfold welcome_body. rewrite Hprev.
  destruct (Welcome.threshold b) as [t|]; cbn [amountInBracket].
  - destruct Hth as (Hpt & Hrest).
    set (a := Qmin (WelcomeLoop.remaining st) (t - p)).
    assert (Ha : 0 <= a /\ a <= WelcomeLoop.remaining st).
    { destruct (Q.min_spec (WelcomeLoop.remaining st) (t - p))
        as [(L & E)|(L & E)]; fold a in E; lra. }
    destruct (a >? 0) eqn:Epos; cbn [WelcomeLoop.remaining]; qprop.
    + match goal with |- context [if ?c then _ else _] =>
        destruct c eqn:Estop end; qprop.
      * cbn [WelcomeLoop.totalTax].
        destruct (walk_tax_bounds rest t (WelcomeLoop.remaining st - a)
                    Hrest) as (Hw0 & Hw1); [lra|].
        assert (Hz : top * (WelcomeLoop.remaining st - a) == 0).
        { assert (E : WelcomeLoop.remaining st - a == 0) by lra.
          rewrite E. ring. }
        lra.
      * rewrite (IH t); cbn [WelcomeLoop.previousThreshold
          WelcomeLoop.remaining WelcomeLoop.totalTax];
          [lra|assumption|reflexivity|lra].
    + assert (Estop : (WelcomeLoop.remaining st <=? 0) = true).
      { apply Qle_bool_iff.
        destruct (Q.min_spec (WelcomeLoop.remaining st) (t - p))
          as [(L & E)|(L & E)]; fold a in E; lra. }
      rewrite Estop. cbn [WelcomeLoop.totalTax]. qprop.
      destruct (walk_tax_bounds rest t (WelcomeLoop.remaining st - a)
                  Hrest) as (Hw0 & Hw1); [lra|].
      assert (Hz : top * (WelcomeLoop.remaining st - a) == 0).
      { assert (E : WelcomeLoop.remaining st - a == 0) by lra.
        rewrite E. ring. }
      assert (Haz : a * Welcome.rate b == 0).
      { assert (E : a == 0) by lra. rewrite E. ring. }
      lra.
  - destruct (WelcomeLoop.remaining st >? 0) eqn:Epos;
      cbn [WelcomeLoop.remaining]; qprop.
    + assert (Estop :
        (WelcomeLoop.remaining st - WelcomeLoop.remaining st <=? 0) = true)
        by (apply Qle_bool_iff; lra).
      rewrite Estop. cbn [WelcomeLoop.totalTax]. lra.
    + assert (Estop : (WelcomeLoop.remaining st <=? 0) = true)
        by (apply Qle_bool_iff; exact Epos).
      rewrite Estop. cbn [WelcomeLoop.totalTax].
      assert (Hz : WelcomeLoop.remaining st * Welcome.rate b == 0).
      { assert (E : WelcomeLoop.remaining st == 0) by lra. rewrite E. ring. }
      lra.
Qed.

End BracketWalk.

Lemma QUEBEC_WELCOME_TAX_BRACKETS_ok :
  table_ok 0.025 0 QUEBEC_WELCOME_TAX_BRACKETS.
Proof.
  unfold QUEBEC_WELCOME_TAX_BRACKETS; cbn.
  repeat split; lra.
Qed.

Lemma calculateWelcomeTax_totalTax (price : Q) :
  0 <= price ->
  Welcome.totalTax (calculateWelcomeTax price)
  == walk_tax QUEBEC_WELCOME_TAX_BRACKETS 0 price.
Proof.
  intros Hprice. unfold calculateWelcomeTax. cbn [Welcome.totalTax].
  rewrite (welcome_loop_totalTax 0.025 price QUEBEC_WELCOME_TAX_BRACKETS 0);
    cbn [WelcomeLoop.totalTax WelcomeLoop.remaining
           WelcomeLoop.previousThreshold];
    [lra | apply QUEBEC_WELCOME_TAX_BRACKETS_ok | reflexivity | assumption].
Qed.

(** C4. For a price that is not negative the taxed amounts of the breakdown
    add up to the price; the total tax does not decrease when the price
    grows, and it is continuous: it moves by at most 0.025 per unit of
    price, so it stays within any [eps > 0] of its value at [p1] for prices
    closer to [p1] than [40 * eps]. *)
Theorem calculateWelcomeTax_amounts_and_monotone (p1 p2 : Q) :
  0 <= p1 -> p1 <= p2 ->
  amountTaxed (calculateWelcomeTax p1) == p1
  /\ Welcome.totalTax (calculateWelcomeTax p1)
     <= Welcome.totalTax (calculateWelcomeTax p2)
  /\ Welcome.totalTax (calculateWelcomeTax p2)
     - Welcome.totalTax (calculateWelcomeTax p1) <= 0.025 * (p2 - p1)
  /\ (forall eps : Q, 0 < eps -> p2 - p1 < 40 * eps ->
      Qabs (Welcome.totalTax (calculateWelcomeTax p2)
            - Welcome.totalTax (calculateWelcomeTax p1)) < eps).
Proof.
  intros H1 H12.
  assert (H2 : 0 <= p2) by lra.
  pose proof (walk_tax_monotone 0.025 QUEBEC_WELCOME_TAX_BRACKETS 0 p1 p2
                QUEBEC_WELCOME_TAX_BRACKETS_ok H1 H12) as (Hmono & Hlip).
  rewrite <- (calculateWelcomeTax_totalTax p1 H1) in Hmono, Hlip.
  rewrite <- (calculateWelcomeTax_totalTax p2 H2) in Hmono, Hlip.
  split.
  - unfold amountTaxed, calculateWelcomeTax. cbn [Welcome.breakdown].
    rewrite (welcome_loop_amounts 0.025 p1 QUEBEC_WELCOME_TAX_BRACKETS 0);
      cbn [WelcomeLoop.breakdown WelcomeLoop.remaining
             WelcomeLoop.previousThreshold map Qsum];
      [lra | apply QUEBEC_WELCOME_TAX_BRACKETS_ok | reflexivity | assumption].
  - split; [exact Hmono|]. split; [exact Hlip|].
    intros eps Heps Hclose.
    rewrite Qabs_pos by lra. lra.
Qed.

(** The scenario of a price of 300000, next to one of 500000: the three
    brackets reached take 55200, 221000 and 23800, and the tax is 2843. *)
Lemma calculateWelcomeTax_amounts_and_monotone_witness :
  amountTaxed (calculateWelcomeTax 300000) == 300000
  /\ Welcome.totalTax (calculateWelcomeTax 300000)
     <= Welcome.totalTax (calculateWelcomeTax 500000)
  /\ Welcome.totalTax (calculateWelcomeTax 300000)
     == 55200 * 0.005 + (276200 - 55200) * 0.01 + (300000 - 276200) * 0.015.
Proof.
  assert (H1 : 0 <= 300000) by lra.
  assert (H2 : 300000 <= 500000) by lra.
  destruct (calculateWelcomeTax_amounts_and_monotone 300000 500000 H1 H2)
    as (Hsum & Hmono & _).
  split; [exact Hsum|]. split; [exact Hmono|].
  vm_compute. reflexivity.
Defined.

(** ** The gap between the savings and the down payment *)

Lemma all_sources_cons (P : Source.t -> Prop) (x : option Source.t)
  (l : list (option Source.t)) :
  all_sources P (x :: l)
  <-> match x with Some s => P s | None => True end /\ all_sources P l.
Proof.
  unfold all_sources. split.
  - intros H. split.
    + destruct x as [s|]; [apply (H 0%nat); reflexivity | exact I].
    + intros j s Hj. apply (H (S j)). exact Hj.
  - intros (Hx & Hl) [|j] s Hj; cbn in Hj.
    + injection Hj as ->. exact Hx.
    + apply (Hl j). exact Hj.
Qed.

Section FirstPassFacts.

Variable types : Types.t.

(** The source the pass leaves in a slot does not depend on the accumulator. *)
Lemma first_pass_source_fst (dom : Dom.t) (index : nat) (source : Source.t)
  (acc : Pass1.t) :
  (first_pass_source types dom index source acc).1
  = Source.set_sourceType (resolved_type dom index source)
      (Source.set_amount
         (resolved_amount dom index source
            (Types.get types (resolved_type dom index source))) source).
Proof.
  unfold first_pass_source.
  destruct (Types.get types (resolved_type dom index source)) as [config|];
    [|reflexivity].
  match goal with |- context [if ?t then _ else _] => destruct t end;
    reflexivity.
Qed.

Lemma first_pass_source_total (dom : Dom.t) (index : nat) (source : Source.t)
  (acc : Pass1.t) :
  Pass1.totalSavingsForDownPayment (first_pass_source types dom index source acc).2
  == Pass1.totalSavingsForDownPayment acc
     + counted types (first_pass_source types dom index source acc).1.
Proof.
  rewrite first_pass_source_fst.
  unfold first_pass_source, counted.
  cbn [Source.sourceType Source.amount Source.set_sourceType Source.set_amount].
  destruct (Types.get types (resolved_type dom index source)) as [config|];
    [|cbn [snd]; lra].
  match goal with |- context [if ?t then _ else _] => destruct t end;
    cbn [snd Pass1.totalSavingsForDownPayment]; lra.
Qed.

Lemma first_pass_total (dom : Dom.t) (sources : list (option Source.t)) :
  forall (index : nat) (acc : Pass1.t),
    Pass1.totalSavingsForDownPayment (first_pass types dom index sources acc).2
    == Pass1.totalSavingsForDownPayment acc
       + counted_sum types (first_pass types dom index sources acc).1.
Proof.
  induction sources as [|[source|] rest IH]; intros index acc;
    cbn [first_pass fst snd counted_sum].
  - lra.
  - rewrite IH, first_pass_source_total. lra.
  - apply IH.
Qed.

(** A property of the sources the pass establishes or keeps slot by slot. *)
Lemma first_pass_all_sources (P P' : Source.t -> Prop) (dom : Dom.t) :
  (forall index source acc,
      P source -> P' (first_pass_source types dom index source acc).1) ->
  forall (sources : list (option Source.t)) (index : nat) (acc : Pass1.t),
    all_sources P sources ->
    all_sources P' (first_pass types dom index sources acc).1.
Proof.
  intros Hstep sources.
  induction sources as [|[source|] rest IH]; intros index acc Hall;
    cbn [first_pass fst snd].
  - intros j s Hj. discriminate.
  - apply all_sources_cons in Hall as (Hs & Hrest).
    apply all_sources_cons. split; [apply Hstep, Hs | apply IH, Hrest].
  - apply all_sources_cons in Hall as (_ & Hrest).
    apply all_sources_cons. split; [exact I | apply IH, Hrest].
Qed.

(** After the pass a source of an auto-calculated type holds the amount 0. *)
Lemma first_pass_source_auto_calculated (dom : Dom.t) (index : nat)
  (source : Source.t) (acc : Pass1.t) :
  from_option TypeConfig.isAutoCalculated false
    (Types.get types
       (Source.sourceType (first_pass_source types dom index source acc).1))
  = true ->
  Source.amount (first_pass_source types dom index source acc).1 = 0.
Proof.
  rewrite first_pass_source_fst.
  cbn [Source.sourceType Source.amount Source.set_sourceType Source.set_amount].
  unfold resolved_amount. intros ->. reflexivity.
Qed.

End FirstPassFacts.

Lemma findIndex_Some {A} (p : A -> bool) (l : list A) :
  forall i : nat,
    findIndex p l = Some i -> exists x, l !! i = Some x /\ p x = true.
Proof.
  induction l as [|y l IH]; intros i; cbn [findIndex]; [discriminate|].
  destruct (p y) eqn:Hy.
  - intros [= <-]. exists y. split; [reflexivity | exact Hy].
  - destruct (findIndex p l) as [j|]; [|discriminate].
    cbn. intros [= <-]. apply (IH j). reflexivity.
Qed.

(** The content of the gap slot does not matter to [savings]. *)
Lemma savings_alter_gap (keep : Source.t -> bool) (types : Types.t)
  (f : option Source.t -> option Source.t) (l : list (option Source.t)) :
  forall index j : nat,
    (forall x, is_Some (f x) <-> is_Some x) ->
    savings keep types (index + j) index (alter f j l)
    = savings keep types (index + j) index l.
Proof.
  induction l as [|x l IH]; intros index j Hf; [reflexivity|].
  destruct j as [|j].
  - cbn [alter list_alter]. rewrite Nat.add_0_r.
    destruct x as [s|], (f _) as [s'|] eqn:Hfx; cbn [savings].
    + rewrite Nat.eqb_refl, !andb_false_r. reflexivity.
    + assert (H : is_Some (f (Some s))) by (apply Hf; eauto).
      rewrite Hfx in H. destruct H; discriminate.
    + assert (H : is_Some (@None Source.t)) by (apply Hf; rewrite Hfx; eauto).
      destruct H; discriminate.
    + reflexivity.
  - cbn [alter list_alter]. fold (alter f j l).
    replace (index + S j)%nat with (S index + j)%nat by lia.
    destruct x as [s|]; cbn [savings]; rewrite IH by assumption; reflexivity.
Qed.

(** The accumulator of the first pass and the sum over the positive eligible
    amounts agree when the gap slot is of an auto-calculated type, the
    auto-fill slots are of a type that does not count toward the down
    payment and the sources of an auto-calculated type hold the amount 0. *)
Lemma counted_sum_positive_savings (types : Types.t) (gap : nat)
  (l : list (option Source.t)) :
  forall index : nat,
    (forall j s, l !! j = Some (Some s) -> (index + j)%nat = gap ->
                 from_option TypeConfig.isAutoCalculated false
                   (Types.get types (Source.sourceType s)) = true) ->
    all_sources (fun s => Source.isAutoFillMortgage s = true ->
                          counts_toward_down_payment types s = false) l ->
    all_sources (fun s => from_option TypeConfig.isAutoCalculated false
                            (Types.get types (Source.sourceType s)) = true ->
                          Source.amount s = 0) l ->
    counted_sum types l == positive_savings types gap index l.
Proof.
  unfold positive_savings.
  induction l as [|[s|] l IH]; intros index Hgap Hfill Hauto;
    cbn [counted_sum savings]; [lra| |].
  - apply all_sources_cons in Hfill as (Hfill_s & Hfill).
    apply all_sources_cons in Hauto as (Hauto_s & Hauto).
    rewrite (IH (S index)); [|intros j s' Hj Hi; apply (Hgap (S j) s' Hj); lia
                             |assumption|assumption].
    assert (Hhead : counted types s
                    == if counts_toward_down_payment types s
                          && negb (index =? gap)%nat
                          && negb (Source.isAutoFillMortgage s)
                          && (Source.amount s >? 0)
                       then Source.amount s else 0).
    { specialize (Hgap 0%nat s eq_refl).
      unfold counted, counts_toward_down_payment in *.
      destruct (Types.get types (Source.sourceType s)) as [config|];
        cbn [from_option] in *.
      - destruct (TypeConfig.isAutoCalculated config) eqn:Hac.
        + rewrite (Hauto_s eq_refl).
          repeat match goal with
                 | |- context [if ?c then _ else _] => destruct c
                 end; reflexivity.
        + destruct (index =? gap)%nat eqn:Hig.
          { apply Nat.eqb_eq in Hig. rewrite Nat.add_0_r in Hgap.
            specialize (Hgap Hig). discriminate. }
          destruct (Source.isAutoFillMortgage s) eqn:Haf.
          { rewrite (Hfill_s eq_refl). reflexivity. }
          cbn [negb]. rewrite !andb_true_r. reflexivity.
      - reflexivity. }
    rewrite Hhead. reflexivity.
  - apply all_sources_cons in Hfill as (_ & Hfill).
    apply all_sources_cons in Hauto as (_ & Hauto).
    apply (IH (S index)); [|assumption|assumption].
    intros j s' Hj Hi. apply (Hgap (S j) s' Hj). lia.
Qed.

Lemma first_pass_keeps_auto_fill_mortgage (dom : Dom.t)
  (sources : list (option Source.t)) (index : nat) (acc : Pass1.t) :
  all_sources (fun s => Source.isAutoFillMortgage s = true ->
                        Source.sourceType s = "mortgage"%string) sources ->
  all_sources (fun s => Source.isAutoFillMortgage s = true ->
                        counts_toward_down_payment FINANCING_TYPES s = false)
    (first_pass FINANCING_TYPES dom index sources acc).1.
Proof.
  apply first_pass_all_sources. clear.
  intros index source acc Hmortgage.
  rewrite first_pass_source_fst. unfold counts_toward_down_payment.
  cbn [Source.isAutoFillMortgage Source.sourceType Source.set_sourceType
         Source.set_amount].
  intros Hfill. unfold resolved_type. rewrite (Hmortgage Hfill). reflexivity.
Qed.

Lemma first_pass_zeroes_auto_calculated (types : Types.t) (dom : Dom.t)
  (sources : list (option Source.t)) (index : nat) (acc : Pass1.t) :
  all_sources (fun s => from_option TypeConfig.isAutoCalculated false
                          (Types.get types (Source.sourceType s)) = true ->
                        Source.amount s = 0)
    (first_pass types dom index sources acc).1.
Proof.
  apply (first_pass_all_sources types (fun _ => True)).
  - intros i source a _. apply first_pass_source_auto_calculated.
  - intros j s _. exact I.
Qed.

(** The sources after [updateParentsLoanAmount] when a gap slot and its
    amount field exist. *)
Lemma updateParentsLoanAmount_found (gapAmount : Q)
  (sources : list (option Source.t)) (dom : Dom.t) (i : nat) :
  findIndex is_gap_slot sources = Some i ->
  is_Some (Dom.inputs dom (Indexed "financing-amount" i)) ->
  (updateParentsLoanAmount gapAmount (sources, dom)).1
  = alter (fmap (Source.set_amount (if gapAmount >? 0 then gapAmount else 0)))
      i sources.
Proof.
  intros Hfind [v Hv]. unfold updateParentsLoanAmount. cbn [fst snd].
  rewrite Hfind, Hv. destruct (gapAmount >? 0); reflexivity.
Qed.

(** C2, with the sum the code computes.  When the auto-fill slots are of
    type mortgage and the list has a gap slot whose amount field is in the
    page, the amount of the gap slot after the first pass is
    [max(0, downPayment - S)], where [S] adds the amounts above zero of the
    non-null sources whose type counts toward the down payment, the gap slot
    and the auto-fill slots left out; it is never negative. *)
Theorem gap_amount_after_first_pass (downPayment : Q)
  (sources : list (option Source.t)) (dom : Dom.t) (i : nat) :
  all_sources (fun s => Source.isAutoFillMortgage s = true ->
                        Source.sourceType s = "mortgage"%string) sources ->
  findIndex is_gap_slot (first_pass FINANCING_TYPES dom 0 sources Pass1_start).1
  = Some i ->
  is_Some (Dom.inputs dom (Indexed "financing-amount" i)) ->
  exists gapSource : Source.t,
    (first_pass_and_gap FINANCING_TYPES downPayment (sources, dom)).1.1 !! i
    = Some (Some gapSource)
    /\ Source.amount gapSource
       == Qmax 0
            (downPayment
             - positive_savings FINANCING_TYPES i 0
                 (first_pass_and_gap FINANCING_TYPES downPayment
                    (sources, dom)).1.1)
    /\ 0 <= Source.amount gapSource.
Proof.
  intros Hmortgage Hfind Hfield.
  unfold first_pass_and_gap. cbn [fst snd].
  set (p1 := first_pass FINANCING_TYPES dom 0 sources Pass1_start) in *.
  set (gap := Qmax 0 (downPayment - Pass1.totalSavingsForDownPayment p1.2)).
  rewrite (updateParentsLoanAmount_found gap p1.1 dom i Hfind Hfield).
  destruct (findIndex_Some _ _ _ Hfind) as (slot & Hslot & Hgapslot).
  destruct slot as [s|]; [|discriminate].
  cbn [is_gap_slot] in Hgapslot.
  apply andb_true_iff in Hgapslot as (_ & Htype).
  apply String.eqb_eq in Htype.
  set (a := if gap >? 0 then gap else 0).
  exists (Source.set_amount a s).
  assert (Hgap0 : 0 <= gap) by apply Q.le_max_l.
  assert (Ha : a == gap /\ 0 <= a).
  { unfold a. destruct (gap >? 0) eqn:E; qprop; split; lra. }
  split; [rewrite list_lookup_alter_eq, Hslot; reflexivity|].
  cbn [Source.amount Source.set_amount].
  split; [|apply Ha].
  unfold positive_savings.
  pose proof (savings_alter_gap (fun s => Source.amount s >? 0)
                FINANCING_TYPES (fmap (Source.set_amount a)) p1.1 0 i) as Ealter.
  cbn [Nat.add] in Ealter. rewrite Ealter
    by (intros [x|]; cbn; split; intros [y Hy]; eauto; discriminate).
  clear Ealter.
  assert (Htotal : Pass1.totalSavingsForDownPayment p1.2
                   == positive_savings FINANCING_TYPES i 0 p1.1).
  { unfold p1. rewrite first_pass_total. cbn [Pass1_start
      Pass1.totalSavingsForDownPayment]. fold p1.
    rewrite (counted_sum_positive_savings FINANCING_TYPES i p1.1 0).
    - lra.
    - intros j s' Hj Hji. cbn in Hji. subst j.
      rewrite Hslot in Hj. injection Hj as <-. rewrite Htype. reflexivity.
    - apply first_pass_keeps_auto_fill_mortgage, Hmortgage.
    - apply first_pass_zeroes_auto_calculated. }
  destruct Ha as (Ha & _). rewrite Ha. unfold gap.
  unfold positive_savings in Htotal. rewrite Htotal. reflexivity.
Qed.

(** With 50000 to put down and 40000 of eligible savings the loan of the
    parents is 10000. *)
Lemma gap_amount_after_first_pass_witness :
  exists gapSource : Source.t,
    (first_pass_and_gap FINANCING_TYPES 50000 default_sources).1.1 !! 5%nat
    = Some (Some gapSource)
    /\ Source.amount gapSource == 10000.
Proof.
  assert (Hmortgage :
    all_sources (fun s => Source.isAutoFillMortgage s = true ->
                          Source.sourceType s = "mortgage"%string)
      default_sources.1).
  { intros j s Hj Hfill.
    do 6 (destruct j as [|j]; [injection Hj as <-; first [reflexivity|discriminate]|]).
    discriminate. }
  assert (Hfind :
    findIndex is_gap_slot
      (first_pass FINANCING_TYPES default_sources.2 0 default_sources.1
         Pass1_start).1 = Some 5%nat) by (vm_compute; reflexivity).
  assert (Hfield :
    is_Some (Dom.inputs default_sources.2 (Indexed "financing-amount" 5)))
    by (vm_compute; eauto).
  destruct (gap_amount_after_first_pass 50000 default_sources.1
              default_sources.2 5 Hmortgage Hfind Hfield)
    as (gapSource & Hlookup & Hamount & _).
  exists gapSource. split; [exact Hlookup|].
  rewrite Hamount. vm_compute. reflexivity.
Defined.

(** C2 with the sum of every eligible amount fails on a negative amount:
    with 1000 to put down and -100 typed for the TFSA the gap slot receives
    1000, while that sum is -100 and the formula gives 1100. *)
Lemma gap_amount_ignores_negative_amounts :
  exists gapSource : Source.t,
    (first_pass_and_gap FINANCING_TYPES 1000 tfsa_and_gap).1.1 !! 1%nat
    = Some (Some gapSource)
    /\ Source.amount gapSource == 1000
    /\ Qmax 0
         (1000
          - eligible_savings FINANCING_TYPES 1 0
              (first_pass_and_gap FINANCING_TYPES 1000 tfsa_and_gap).1.1)
       == 1100
    /\ ~ Source.amount gapSource
         == Qmax 0
              (1000
               - eligible_savings FINANCING_TYPES 1 0
                   (first_pass_and_gap FINANCING_TYPES 1000 tfsa_and_gap).1.1).
Proof.
  eexists. split; [vm_compute; reflexivity|].
  split; [vm_compute; reflexivity|].
  split; [vm_compute; reflexivity|].
  vm_compute. discriminate.
Qed.

(** The auto-fill slots have to be mortgages for the sum to leave them out:
    the pass takes the amount of an auto-fill slot of a counting type into
    the savings, and with 10000 to put down the gap slot then receives
    5000. *)
Lemma gap_amount_counts_flagged_savings :
  exists gapSource : Source.t,
    (first_pass_and_gap FINANCING_TYPES 10000 flagged_tfsa_and_gap).1.1 !! 1%nat
    = Some (Some gapSource)
    /\ Source.amount gapSource == 5000
    /\ positive_savings FINANCING_TYPES 1 0
         (first_pass_and_gap FINANCING_TYPES 10000 flagged_tfsa_and_gap).1.1
       == 0.
Proof.
  eexists. split; [vm_compute; reflexivity|].
  split; vm_compute; reflexivity.
Qed.

(** ** Ceilings and warnings *)

Lemma with_ceilings_agree (maxWithdrawal maxContribution : option Q) :
  tables_agree (with_ceilings maxWithdrawal maxContribution) FINANCING_TYPES.
Proof.
  intros key. unfold Types.get.
  repeat match goal with
         | |- context [if ?c then _ else _] => destruct c
         end; cbn; unfold same_flags; auto.
Qed.

Section Agreement.

Variable Math_pow : Q -> Q -> Q.
Variables t1 t2 : Types.t.
Hypothesis Hagree : tables_agree t1 t2.

Lemma resolved_amount_agree (dom : Dom.t) (index : nat) (source : Source.t)
  (key : string) :
  resolved_amount dom index source (Types.get t1 key)
  = resolved_amount dom index source (Types.get t2 key).
Proof.
  specialize (Hagree key). unfold resolved_amount.
  destruct (Types.get t1 key) as [c1|], (Types.get t2 key) as [c2|];
    try contradiction; [|reflexivity].
  cbn [from_option]. destruct Hagree as (_ & _ & ->). reflexivity.
Qed.

Lemma first_pass_source_agree (dom : Dom.t) (index : nat) (source : Source.t)
  (acc1 acc2 : Pass1.t) :
  Pass1.totalSavingsForDownPayment acc1 = Pass1.totalSavingsForDownPayment acc2 ->
  (first_pass_source t1 dom index source acc1).1
  = (first_pass_source t2 dom index source acc2).1
  /\ Pass1.totalSavingsForDownPayment
       (first_pass_source t1 dom index source acc1).2
     = Pass1.totalSavingsForDownPayment
         (first_pass_source t2 dom index source acc2).2.
Proof.
  intros Hacc. unfold first_pass_source.
  rewrite (resolved_amount_agree dom index source).
  specialize (Hagree (resolved_type dom index source)).
  destruct (Types.get t1 _) as [c1|], (Types.get t2 _) as [c2|];
    try contradiction; [|split; [reflexivity | exact Hacc]].
  destruct Hagree as (_ & -> & ->).
  match goal with |- context [if ?t then _ else _] => destruct t end;
    cbn [fst snd Pass1.totalSavingsForDownPayment];
    (split; [reflexivity | congruence]).
Qed.

Lemma first_pass_agree (dom : Dom.t) (sources : list (option Source.t)) :
  forall (index : nat) (acc1 acc2 : Pass1.t),
    Pass1.totalSavingsForDownPayment acc1
    = Pass1.totalSavingsForDownPayment acc2 ->
    (first_pass t1 dom index sources acc1).1
    = (first_pass t2 dom index sources acc2).1
    /\ Pass1.totalSavingsForDownPayment (first_pass t1 dom index sources acc1).2
       = Pass1.totalSavingsForDownPayment
           (first_pass t2 dom index sources acc2).2.
Proof.
  induction sources as [|[source|] rest IH]; intros index acc1 acc2 Hacc;
    cbn [first_pass fst snd].
  - split; [reflexivity | exact Hacc].
  - destruct (first_pass_source_agree dom index source acc1 acc2 Hacc)
      as (Hs & Ht).
    destruct (IH (S index) _ _ Ht) as (Hl & Hr).
    split; [congruence | exact Hr].
  - destruct (IH (S index) _ _ Hacc) as (Hl & Hr).
    split; [congruence | exact Hr].
Qed.

Lemma second_pass_source_agree (dom : Dom.t) (index : nat) (source : Source.t)
  (acc : Pass2.t) :
  second_pass_source Math_pow t1 dom index source acc
  = second_pass_source Math_pow t2 dom index source acc.
Proof.
  unfold second_pass_source.
  specialize (Hagree (Source.sourceType source)).
  destruct (Types.get t1 _) as [c1|], (Types.get t2 _) as [c2|];
    try contradiction; [|reflexivity].
  destruct Hagree as (-> & _ & _). reflexivity.
Qed.

Lemma second_pass_agree (dom : Dom.t) (sources : list (option Source.t)) :
  forall (index : nat) (acc : Pass2.t),
    second_pass Math_pow t1 dom index sources acc
    = second_pass Math_pow t2 dom index sources acc.
Proof.
  induction sources as [|[source|] rest IH]; intros index acc;
    cbn [second_pass]; [reflexivity| |].
  - rewrite second_pass_source_agree, IH. reflexivity.
  - rewrite IH. reflexivity.
Qed.

(** Under two tables with the same flags the financing part of [calculate]
    leaves the same sources and page and computes the same savings, gap and
    loan figures. *)
Lemma financing_agree (downPayment : Q) (sd : list (option Source.t) * Dom.t) :
  (financing Math_pow t1 downPayment sd).1
  = (financing Math_pow t2 downPayment sd).1
  /\ Pass1.totalSavingsForDownPayment
       (financing Math_pow t1 downPayment sd).2.1.1
     = Pass1.totalSavingsForDownPayment
         (financing Math_pow t2 downPayment sd).2.1.1
  /\ (financing Math_pow t1 downPayment sd).2.1.2
     = (financing Math_pow t2 downPayment sd).2.1.2
  /\ (financing Math_pow t1 downPayment sd).2.2
     = (financing Math_pow t2 downPayment sd).2.2.
Proof.
  unfold financing, first_pass_and_gap. cbn [fst snd].
  destruct (first_pass_agree sd.2 sd.1 0 Pass1_start Pass1_start eq_refl)
    as (Hl & Ht).
  rewrite Hl, Ht, second_pass_agree. repeat split; reflexivity.
Qed.

End Agreement.

(** The first pass emits for each source the warnings [source_warnings]. *)
Lemma first_pass_source_warnings (dom : Dom.t) (index : nat)
  (source : Source.t) (acc : Pass1.t) :
  Pass1.warnings (first_pass_source FINANCING_TYPES dom index source acc).2
  = Pass1.warnings acc
    ++ source_warnings (first_pass_source FINANCING_TYPES dom index source acc).1.
Proof.
  rewrite first_pass_source_fst.
  unfold first_pass_source, source_warnings, declared_ceiling.
  cbn [Source.sourceType Source.amount Source.set_sourceType Source.set_amount].
  remember (resolved_type dom index source) as ty eqn:Hty.
  set (amount := resolved_amount dom index source (Types.get FINANCING_TYPES ty)).
  clearbody amount. clear Hty.
  unfold Types.get.
  repeat match goal with
         | |- context [if (ty =? ?k)%string then _ else _] =>
             let E := fresh "E" in
             destruct (ty =? k)%string eqn:E;
             [apply String.eqb_eq in E; subst ty|]
         end;
    cbn [FINANCING_TYPES Types.mortgage Types.celiapp Types.rrsp Types.tfsa
           Types.joint_account Types.parents_loan Types.other_loan
           Types.other_savings TypeConfig.countsTowardDownPayment
           TypeConfig.isAutoCalculated TypeConfig.maxWithdrawal
           TypeConfig.maxContribution exceeds negb andb String.eqb Ascii.eqb
           Bool.eqb snd];
    try (rewrite app_nil_r; reflexivity);
    try (destruct (amount >? 0); cbn [snd Pass1.warnings];
         rewrite ?app_nil_r; reflexivity).
  - destruct (amount >? 0) eqn:Hpos, (amount >? 40000) eqn:Hmax;
      cbn [snd Pass1.warnings andb]; rewrite ?app_nil_r; try reflexivity.
    qprop. lra.
  - destruct (amount >? 0) eqn:Hpos, (amount >? 60000) eqn:Hmax;
      cbn [snd Pass1.warnings andb]; rewrite ?app_nil_r; try reflexivity.
    qprop. lra.
Qed.

Lemma first_pass_warnings (dom : Dom.t) (sources : list (option Source.t)) :
  forall (index : nat) (acc : Pass1.t),
    Pass1.warnings (first_pass FINANCING_TYPES dom index sources acc).2
    = Pass1.warnings acc
      ++ flat_map source_warnings
           (omap id (first_pass FINANCING_TYPES dom index sources acc).1).
Proof.
  induction sources as [|[source|] rest IH]; intros index acc;
    cbn [first_pass fst snd omap list_omap id flat_map].
  - rewrite app_nil_r. reflexivity.
  - rewrite IH, first_pass_source_warnings, <- app_assoc. reflexivity.
  - apply IH.
Qed.

(** A source is warned about exactly when it is an RRSP above 60000 or a
    CELIAPP above 40000, and then once. *)
Lemma source_warnings_iff (s : Source.t) :
  (source_warnings s <> []
   <-> (Source.sourceType s = "rrsp"%string /\ 60000 < Source.amount s)
       \/ (Source.sourceType s = "celiapp"%string /\ 40000 < Source.amount s))
  /\ (length (source_warnings s) <= 1)%nat.
Proof.
  unfold source_warnings, declared_ceiling.
  remember (Source.sourceType s) as ty eqn:Hty. clear Hty.
  set (amount := Source.amount s). clearbody amount.
  split.
  - unfold Types.get.
    repeat match goal with
           | |- context [if (ty =? ?k)%string then _ else _] =>
               let E := fresh "E" in
               destruct (ty =? k)%string eqn:E;
               [apply String.eqb_eq in E; subst ty|apply String.eqb_neq in E]
           end;
      cbn [FINANCING_TYPES Types.mortgage Types.celiapp Types.rrsp Types.tfsa
             Types.joint_account Types.parents_loan Types.other_loan
             Types.other_savings TypeConfig.maxWithdrawal
             TypeConfig.maxContribution exceeds String.eqb Ascii.eqb Bool.eqb];
      try (split; [congruence | intros [(? & _)|(? & _)]; congruence]).
    + destruct (amount >? 40000) eqn:Hmax; qprop; split.
      * intros _. right. split; [reflexivity | assumption].
      * discriminate.
      * congruence.
      * intros [(? & _)|(_ & ?)]; [discriminate | lra].
    + destruct (amount >? 60000) eqn:Hmax; qprop; split.
      * intros _. left. split; [reflexivity | assumption].
      * discriminate.
      * congruence.
      * intros [(_ & ?)|(? & _)]; [lra | discriminate].
  - repeat match goal with
           | |- context [if ?c then _ else _] => destruct c
           end; cbn; lia.
Qed.

(** C9. The warnings of the first pass are, source by source, one warning
    for each non-null source whose amount is above the ceiling its type
    declares (an RRSP above 60000, a CELIAPP above 40000) and none for the
    others; and the ceilings have no part in the figures: with any other
    ceilings, or none, the pass leaves the same sources and page and
    computes the same savings total, gap and loan payments. *)
Theorem warnings_iff_ceiling_exceeded (Math_pow : Q -> Q -> Q)
  (downPayment : Q) (sd : list (option Source.t) * Dom.t)
  (maxWithdrawal maxContribution : option Q) :
  Pass1.warnings (financing Math_pow FINANCING_TYPES downPayment sd).2.1.1
  = flat_map source_warnings
      (omap id (first_pass FINANCING_TYPES sd.2 0 sd.1 Pass1_start).1)
  /\ (forall s : Source.t,
        (source_warnings s <> []
         <-> (Source.sourceType s = "rrsp"%string /\ 60000 < Source.amount s)
             \/ (Source.sourceType s = "celiapp"%string
                 /\ 40000 < Source.amount s))
        /\ (length (source_warnings s) <= 1)%nat)
  /\ (financing Math_pow (with_ceilings maxWithdrawal maxContribution)
        downPayment sd).1
     = (financing Math_pow FINANCING_TYPES downPayment sd).1
  /\ Pass1.totalSavingsForDownPayment
       (financing Math_pow (with_ceilings maxWithdrawal maxContribution)
          downPayment sd).2.1.1
     = Pass1.totalSavingsForDownPayment
         (financing Math_pow FINANCING_TYPES downPayment sd).2.1.1
  /\ (financing Math_pow (with_ceilings maxWithdrawal maxContribution)
        downPayment sd).2.1.2
     = (financing Math_pow FINANCING_TYPES downPayment sd).2.1.2
  /\ (financing Math_pow (with_ceilings maxWithdrawal maxContribution)
        downPayment sd).2.2
     = (financing Math_pow FINANCING_TYPES downPayment sd).2.2.
Proof.
  split.
  - unfold financing, first_pass_and_gap. cbn [fst snd].
    rewrite first_pass_warnings. reflexivity.
  - split; [exact source_warnings_iff|].
    apply financing_agree, with_ceilings_agree.
Qed.

(** An RRSP of 70000 draws the one warning, and the savings total is the
    95000 it is when no ceiling is declared. *)
Lemma warnings_iff_ceiling_exceeded_witness :
  map Warning.source
    (Pass1.warnings
       (financing (fun _ _ => 0) FINANCING_TYPES 50000 rrsp_above_ceiling).2.1.1)
  = ["RRSP"%string]
  /\ Pass1.totalSavingsForDownPayment
       (financing (fun _ _ => 0) FINANCING_TYPES 50000 rrsp_above_ceiling).2.1.1
     == 95000
  /\ Pass1.warnings
       (financing (fun _ _ => 0) (with_ceilings None None) 50000
          rrsp_above_ceiling).2.1.1 = [].
Proof.
  destruct (warnings_iff_ceiling_exceeded (fun _ _ => 0) 50000
              rrsp_above_ceiling None None)
    as (Hwarn & _ & _ & Htotal & _).
  split; [|split].
  - rewrite Hwarn. vm_compute. reflexivity.
  - rewrite <- Htotal. vm_compute. reflexivity.
  - vm_compute. reflexivity.
Defined.

(** ** The deferred repayment of the RRSP *)







(** ** Per-person shares of the housing cost *)









(** ** Amortization schedules *)

(** The fuel is enough whenever it covers the months below the limit. *)
Lemma month_loop_run_months (limit : Q)
  (body : nat -> Schedule.t -> Schedule.t) (k : nat) :
  forall (fuel month : nat) (st : Schedule.t),
    (k <= fuel)%nat ->
    (forall j : nat, (j < k)%nat -> Qnat (month + j) < limit) ->
    limit <= Qnat (month + k) ->
    month_loop fuel month limit body st = run_months k month body st.
Proof.
  induction k as [|k IH]; intros fuel month st Hfuel Hbelow Hstop.
  - rewrite Nat.add_0_r in Hstop.
    destruct fuel as [|fuel]; cbn [month_loop run_months]; [reflexivity|].
    fold (Qnat month).
    assert (E : (Qnat month <? limit) = false)
      by (apply Qlt_bool_false; exact Hstop).
    rewrite E. reflexivity.
  - destruct fuel as [|fuel]; [lia|]. cbn [month_loop run_months].
    fold (Qnat month).
    assert (E : (Qnat month <? limit) = true).
    { apply Qlt_bool_iff. specialize (Hbelow 0%nat).
      rewrite Nat.add_0_r in Hbelow. apply Hbelow. lia. }
    rewrite E. apply IH; [lia| |].
    + intros j Hj. replace (S month + j)%nat with (month + S j)%nat by lia.
      apply Hbelow. lia.
    + replace (S month + k)%nat with (month + S k)%nat by lia. exact Hstop.
Qed.

(** The number of months below a positive limit. *)
Lemma months_below_limit (limit : Q) :
  0 < limit ->
  (forall j : nat, (j < Z.to_nat (Qceiling limit))%nat -> Qnat j < limit)
  /\ limit <= Qnat (Z.to_nat (Qceiling limit)).
Proof.
  intros Hpos.
  pose proof (Qle_ceiling limit) as Hle.
  pose proof (Qceiling_lt limit) as Hlt.
  assert (Hc : (0 < Qceiling limit)%Z).
  { rewrite Zlt_Qlt. change (inject_Z 0) with 0. lra. }
  unfold Qnat. rewrite Z2Nat.id by lia. split; [|exact Hle].
  intros j Hj.
  assert (Hz : (Z.of_nat j <= Qceiling limit - 1)%Z) by lia.
  rewrite Zle_Qle in Hz. lra.
Qed.

(** Fuel beyond a limit it already covers changes nothing: the loop stops
    by its own test. *)
Lemma month_loop_fuel_enough (limit : Q)
  (body : nat -> Schedule.t -> Schedule.t) (fuel extra : nat)
  (st : Schedule.t) :
  limit <= Qnat fuel ->
  month_loop (fuel + extra) 0 limit body st = month_loop fuel 0 limit body st.
Proof.
  intros Hfuel.
  destruct (Qlt_le_dec 0 limit) as [Hpos|Hneg].
  - destruct (months_below_limit limit Hpos) as (Hbelow & Hstop).
    assert (HN : (Z.to_nat (Qceiling limit) <= fuel)%nat).
    { apply Qceiling_resp_le in Hfuel. unfold Qnat in Hfuel.
      rewrite Qceiling_Z in Hfuel. lia. }
    rewrite !(month_loop_run_months limit body (Z.to_nat (Qceiling limit)))
      by (cbn [Nat.add]; first [assumption | lia]).
    reflexivity.
  - rewrite !(month_loop_run_months limit body 0)
      by (cbn [Nat.add]; first [lia | intros j Hj; lia | exact Hneg]).
    reflexivity.
Qed.


Section ScheduleInvariant.

(** The principal, the monthly rate and the monthly payment of the loan, the
    number of months of the schedule, and an envelope [e] over the balance:
    it starts at the principal, stays non-negative, falls by no more than the
    payment allows and ends at 0. *)
Variables (P r M : Q) (N : nat) (e : nat -> Q).
Hypothesis r_nonneg : 0 <= r.
Hypothesis M_pos : 0 < M.
Hypothesis N_max : (N <= maxMonths)%nat.
Hypothesis e_nonneg : forall m : nat, (m <= N)%nat -> 0 <= e m.
Hypothesis e_step :
  forall m : nat, (m < N)%nat -> e m * (1 + r) - M <= e (S m).




End ScheduleInvariant.

Lemma Qnat_S (m : nat) : Qnat (S m) == Qnat m + 1.
Proof.
  unfold Qnat. rewrite Nat2Z.inj_succ. unfold Z.succ.
  rewrite inject_Z_plus. reflexivity.
Qed.





Lemma Qdiv_nonneg (a b : Q) : 0 <= a -> 0 < b -> 0 <= a / b.
Proof.
  intros Ha Hb. apply Qle_shift_div_l; [exact Hb | lra].
Qed.





Section AmortizationFacts.

Variable Math_pow : Q -> Q -> Q.

(** What is assumed of [Math.pow]: above 1 for a base above 1 and a positive
    exponent, and not above the exact power of a natural exponent that is not
    smaller. *)
Hypothesis Math_pow_above_one :
  forall x y : Q, 1 < x -> 0 < y -> 1 < Math_pow x y.
Hypothesis Math_pow_below_power :
  forall (x y : Q) (k : nat),
    1 < x -> 0 < y -> y <= Qnat k -> Math_pow x y <= Qpow x k.

(** At a positive rate no divisor of [calculateMonthlyPayment] is zero and
    the payment is positive. *)
Lemma calculateMonthlyPayment_positive_rate (principal annualRate termMonths : Q) :
  0 < principal -> 0 < termMonths -> 0 < annualRate ->
  no_zero_divisor
    (calculateMonthlyPayment Math_pow principal annualRate termMonths)
  /\ 0 < Payment.monthlyPayment
           (value (calculateMonthlyPayment Math_pow principal annualRate
                     termMonths)).
Proof.
  intros HP Hn Hrate.
  assert (Hr : 0 < annualRate / 100 / 12) by (qdiv_literals; lra).
  rewrite calculateMonthlyPayment_general by (try assumption; lra).
  cbn zeta. cbn [value divisors Payment.monthlyPayment].
  set (r := annualRate / 100 / 12) in *. clearbody r.
  pose proof (Math_pow_above_one (1 + r) termMonths ltac:(lra) Hn) as HF.
  split.
  - unfold no_zero_divisor. repeat (constructor; [lra|]). constructor.
  - apply Qlt_shift_div_l; [lra|].
    assert (H : 0 < principal * r * Math_pow (1 + r) termMonths)
      by (repeat apply Qmult_lt_0_compat; lra).
    lra.
Qed.




End AmortizationFacts.





(** * Further properties

    Properties of the code beyond the ten claims. *)

(** ** Loan-to-value ratio and mortgage insurance *)

Lemma Qdiv_le_compat (a b c : Q) : a <= b -> 0 < c -> a / c <= b / c.
Proof.
  intros Hab Hc. apply Qle_shift_div_l; [exact Hc|].
  assert (E : a / c * c == a) by (field; lra). lra.
Qed.

Lemma calculateLtv_positive_price (purchasePrice downPayment : Q) :
  0 < purchasePrice ->
  calculateLtv purchasePrice downPayment
  = (purchasePrice - downPayment) / purchasePrice.
Proof.
  intros Hp. unfold calculateLtv.
  destruct (purchasePrice <=? 0) eqn:E; [qprop; lra | reflexivity].
Qed.

(** X1. [calculateLtv] is 0 without a positive price.  For a positive price
    and down payments between 0 and the price the ratio lies between 0 and
    1, it does not grow when the down payment grows, it is 0 when the whole
    price is paid down and 1 when nothing is. *)
Theorem calculateLtv_range (purchasePrice d1 d2 : Q) :
  (purchasePrice <= 0 -> calculateLtv purchasePrice d1 = 0)
  /\ (0 < purchasePrice -> 0 <= d1 -> d1 <= d2 -> d2 <= purchasePrice ->
      0 <= calculateLtv purchasePrice d2
      /\ calculateLtv purchasePrice d2 <= calculateLtv purchasePrice d1
      /\ calculateLtv purchasePrice d1 <= 1
      /\ calculateLtv purchasePrice purchasePrice == 0
      /\ calculateLtv purchasePrice 0 == 1).
Proof.
  split.
  - intros Hp. unfold calculateLtv.
    destruct (purchasePrice <=? 0) eqn:E; [reflexivity | qprop; lra].
  - intros Hp H1 H12 H2. rewrite !calculateLtv_positive_price by exact Hp.
    split; [apply Qdiv_nonneg; lra|].
    split; [apply Qdiv_le_compat; lra|].
    split; [apply Qle_shift_div_r; lra|].
    split; field; lra.
Qed.

(** At 400000, 80000 down gives a lower ratio than 20000 down. *)
Lemma calculateLtv_range_witness :
  0 <= calculateLtv 400000 80000
  /\ calculateLtv 400000 80000 <= calculateLtv 400000 20000
  /\ calculateLtv 400000 20000 <= 1.
Proof.
  destruct (calculateLtv_range 400000 20000 80000) as (_ & H).
  destruct H as (H0 & H1 & H2 & _); [lra | lra | lra | lra |].
  repeat split; assumption.
Defined.

(** X2. Up to the ceiling 0.95 of the table the premium rate of
    [getCmhcRate] does not fall when the loan-to-value ratio grows, it stays
    between the 0.60 percent of the first bracket and the 4.00 percent of the
    last, and the 30-year flag adds exactly 0.20 percentage points. *)
Theorem getCmhcRate_monotone_within_table (ltv1 ltv2 : Q) (is30Year : bool) :
  ltv1 <= ltv2 -> ltv2 <= 0.95 ->
  getCmhcRate ltv1 is30Year <= getCmhcRate ltv2 is30Year
  /\ 0.0060 <= getCmhcRate ltv1 false
  /\ getCmhcRate ltv2 false <= 0.0400
  /\ getCmhcRate ltv1 true == getCmhcRate ltv1 false + 0.0020.
Proof.
  intros H12 H2.
  unfold getCmhcRate, CMHC_RATES, CMHC_30_YEAR_SURCHARGE.
  cbn [cmhc_scan Cmhc.maxLtv Cmhc.rate].
  repeat match goal with
         | |- context [if ?x <=? ?y then _ else _] =>
             destruct (x <=? y) eqn:?
         end; qprop; destruct is30Year; repeat split; lra.
Qed.

(** The rates at the ratios 0.82 and 0.93. *)
Lemma getCmhcRate_monotone_within_table_witness :
  getCmhcRate 0.82 false <= getCmhcRate 0.93 false
  /\ 0.0060 <= getCmhcRate 0.82 false
  /\ getCmhcRate 0.93 false <= 0.0400.
Proof.
  destruct (getCmhcRate_monotone_within_table 0.82 0.93 false)
    as (H1 & H2 & H3 & _); [lra | lra |].
  repeat split; assumption.
Defined.

(** ** Land-transfer tax: the breakdown and the effective rate *)

Lemma welcome_loop_entries (top price : Q) (brackets : list Welcome.bracket) :
  forall (p : Q) (st : WelcomeLoop.t),
    table_ok top p brackets ->
    WelcomeLoop.previousThreshold st = Fin p ->
    0 <= WelcomeLoop.remaining st ->
    WelcomeLoop.remaining st == price - p ->
    Forall entry_ok (WelcomeLoop.breakdown st) ->
    WelcomeLoop.totalTax st
    == Qsum (map Welcome.tax (WelcomeLoop.breakdown st)) ->
    Forall entry_ok (WelcomeLoop.breakdown (welcome_loop price brackets st))
    /\ WelcomeLoop.totalTax (welcome_loop price brackets st)
       == Qsum (map Welcome.tax
                  (WelcomeLoop.breakdown (welcome_loop price brackets st))).
Proof.
  induction brackets as [|b rest IH]; intros p st Hok Hprev Hrem Hprice Hall Hsum;
    [contradiction|].
  destruct Hok as (_ & _ & Hth).
  cbn [welcome_loop]. unfold welcome_body. rewrite Hprev.
  destruct (Welcome.threshold b) as [t|]; cbn [amountInBracket min_ext].
  - destruct Hth as (Hpt & Hrest).
    set (a := Qmin (WelcomeLoop.remaining st) (t - p)).
    assert (Ha : a <= WelcomeLoop.remaining st /\ a <= t - p
                 /\ (a == WelcomeLoop.remaining st \/ a == t - p)).
    { destruct (Q.min_spec (WelcomeLoop.remaining st) (t - p))
        as [(L & E)|(L & E)]; fold a in E; repeat split; auto; lra. }
    destruct Ha as (Har & Hat & Ha).
    assert (Hto : Qmin t price - p == a).
    { destruct (Q.min_spec t price) as [(L & E)|(L & E)]; rewrite E;
        destruct Ha as [Ea|Ea]; lra. }
    destruct (a >? 0) eqn:Epos; cbn [WelcomeLoop.remaining]; qprop.
    + assert (Hnew : Forall entry_ok
                (WelcomeLoop.breakdown st ++
                 [ {| Welcome.from := Fin p;
                      Welcome.to := Qmin t price;
                      Welcome.entry_rate := Welcome.rate b;
                      Welcome.amount := a;
                      Welcome.tax := a * Welcome.rate b |} ])).
      { apply Forall_app. split; [exact Hall|].
        constructor; [|constructor].
        split; [exact Epos|]. split; [reflexivity|].
        exists p. split; [reflexivity | exact Hto]. }
      match goal with |- context [if ?c then _ else _] =>
        destruct c eqn:Estop end; qprop.
      * cbn [WelcomeLoop.breakdown WelcomeLoop.totalTax].
        split; [exact Hnew|].
        rewrite map_app, Qsum_app. cbn [map Qsum Welcome.tax]. lra.
      * apply (IH t); cbn [WelcomeLoop.previousThreshold
          WelcomeLoop.remaining WelcomeLoop.breakdown WelcomeLoop.totalTax];
          [assumption | reflexivity | lra | destruct Ha; lra | exact Hnew |].
        rewrite map_app, Qsum_app. cbn [map Qsum Welcome.tax]. lra.
    + assert (Estop : (WelcomeLoop.remaining st <=? 0) = true).
      { apply Qle_bool_iff. destruct Ha; lra. }
      rewrite Estop. cbn [WelcomeLoop.breakdown WelcomeLoop.totalTax].
      split; assumption.
  - destruct (WelcomeLoop.remaining st >? 0) eqn:Epos;
      cbn [WelcomeLoop.remaining]; qprop.
    + assert (Estop :
        (WelcomeLoop.remaining st - WelcomeLoop.remaining st <=? 0) = true)
        by (apply Qle_bool_iff; lra).
      rewrite Estop. cbn [WelcomeLoop.breakdown WelcomeLoop.totalTax].
      split.
      * apply Forall_app. split; [exact Hall|].
        constructor; [|constructor].
        split; [exact Epos|]. split; [reflexivity|].
        exists p. split; [reflexivity|].
        cbn [Welcome.to Welcome.amount]. lra.
      * rewrite map_app, Qsum_app. cbn [map Qsum Welcome.tax]. lra.
    + assert (Estop : (WelcomeLoop.remaining st <=? 0) = true)
        by (apply Qle_bool_iff; exact Epos).
      rewrite Estop. cbn [WelcomeLoop.breakdown WelcomeLoop.totalTax].
      split; assumption.
Qed.

Lemma welcome_body_length (price : Q) (b : Welcome.bracket)
  (st : WelcomeLoop.t) :
  (length (WelcomeLoop.breakdown (welcome_body price b st))
   <= S (length (WelcomeLoop.breakdown st)))%nat.
Proof.
  unfold welcome_body.
  destruct (amountInBracket _ _ _) as [a|]; [|cbn; lia].
  destruct (a >? 0); cbn [WelcomeLoop.breakdown]; [|lia].
  rewrite length_app. cbn [length]. lia.
Qed.

Lemma welcome_loop_length (price : Q) (brackets : list Welcome.bracket) :
  forall st : WelcomeLoop.t,
    (length (WelcomeLoop.breakdown (welcome_loop price brackets st))
     <= length (WelcomeLoop.breakdown st) + length brackets)%nat.
Proof.
  induction brackets as [|b rest IH]; intros st; cbn [welcome_loop length];
    [lia|].
  pose proof (welcome_body_length price b st) as Hb.
  destruct (_ <=? 0); [lia|].
  specialize (IH (welcome_body price b st)). lia.
Qed.

(** With nothing to allocate the loop stops after the first bracket and
    lists nothing. *)
Lemma welcome_loop_nothing_left (price p : Q) (b : Welcome.bracket)
  (rest : list Welcome.bracket) (st : WelcomeLoop.t) :
  WelcomeLoop.previousThreshold st = Fin p ->
  WelcomeLoop.remaining st <= 0 ->
  (match Welcome.threshold b with Fin t => 0 <= t - p | Inf => True end) ->
  WelcomeLoop.breakdown (welcome_loop price (b :: rest) st)
  = WelcomeLoop.breakdown st
  /\ WelcomeLoop.totalTax (welcome_loop price (b :: rest) st)
     = WelcomeLoop.totalTax st.
Proof.
  intros Hprev Hrem Hth. cbn [welcome_loop]. unfold welcome_body.
  rewrite Hprev.
  assert (Estop : (WelcomeLoop.remaining st <=? 0) = true)
    by (apply Qle_bool_iff; exact Hrem).
  destruct (Welcome.threshold b) as [t|]; cbn [amountInBracket].
  - assert (Ea : (Qmin (WelcomeLoop.remaining st) (t - p) >? 0) = false).
    { apply Qlt_bool_false.
      pose proof (Q.le_min_l (WelcomeLoop.remaining st) (t - p)). lra. }
    rewrite Ea. cbn [WelcomeLoop.remaining]. rewrite Estop.
    split; reflexivity.
  - assert (Ea : (WelcomeLoop.remaining st >? 0) = false)
      by (apply Qlt_bool_false; exact Hrem).
    rewrite Ea. cbn [WelcomeLoop.remaining]. rewrite Estop.
    split; reflexivity.
Qed.

(** X6. The breakdown of [calculateWelcomeTax], for every price: each entry
    has a positive amount, its tax is the amount times its rate, and it
    spans its amount, [to - from = amount]; the total tax is the sum of the
    taxes of the entries; there are at most five entries; and for a price
    that is not positive the breakdown is empty and the tax is 0. *)
Theorem calculateWelcomeTax_breakdown_entries (purchasePrice : Q) :
  Forall entry_ok (Welcome.breakdown (calculateWelcomeTax purchasePrice))
  /\ Welcome.totalTax (calculateWelcomeTax purchasePrice)
     == taxListed (calculateWelcomeTax purchasePrice)
  /\ (length (Welcome.breakdown (calculateWelcomeTax purchasePrice)) <= 5)%nat
  /\ (purchasePrice <= 0 ->
      calculateWelcomeTax purchasePrice
      = {| Welcome.breakdown := []; Welcome.totalTax := 0 |}).
Proof.
  assert (Hempty : purchasePrice <= 0 ->
            calculateWelcomeTax purchasePrice
            = {| Welcome.breakdown := []; Welcome.totalTax := 0 |}).
  { intros Hp. unfold calculateWelcomeTax, QUEBEC_WELCOME_TAX_BRACKETS.
    match goal with |- context [welcome_loop ?pr (?b :: ?rest) ?st] =>
      destruct (welcome_loop_nothing_left pr 0 b rest st) as (-> & ->)
    end; [reflexivity | exact Hp | cbn; lra | reflexivity]. }
  split; [|split; [|split; [|exact Hempty]]].
  - destruct (Qlt_le_dec 0 purchasePrice) as [Hpos|Hneg];
      [|rewrite (Hempty Hneg); constructor].
    apply (welcome_loop_entries 0.025 purchasePrice
             QUEBEC_WELCOME_TAX_BRACKETS 0);
      cbn [WelcomeLoop.remaining WelcomeLoop.previousThreshold
             WelcomeLoop.breakdown WelcomeLoop.totalTax map Qsum];
      [apply QUEBEC_WELCOME_TAX_BRACKETS_ok | reflexivity | lra | lra
      | constructor | reflexivity].
  - destruct (Qlt_le_dec 0 purchasePrice) as [Hpos|Hneg];
      [|rewrite (Hempty Hneg); reflexivity].
    apply (welcome_loop_entries 0.025 purchasePrice
             QUEBEC_WELCOME_TAX_BRACKETS 0);
      cbn [WelcomeLoop.remaining WelcomeLoop.previousThreshold
             WelcomeLoop.breakdown WelcomeLoop.totalTax map Qsum];
      [apply QUEBEC_WELCOME_TAX_BRACKETS_ok | reflexivity | lra | lra
      | constructor | reflexivity].
  - unfold calculateWelcomeTax. cbn [Welcome.breakdown].
    match goal with |- context [welcome_loop ?pr ?bs ?st] =>
      pose proof (welcome_loop_length pr bs st) as H
    end.
    exact H.
Qed.

(** A negative price is not taxed. *)
Lemma calculateWelcomeTax_breakdown_entries_witness :
  calculateWelcomeTax (-5)
  = {| Welcome.breakdown := []; Welcome.totalTax := 0 |}.
Proof.
  destruct (calculateWelcomeTax_breakdown_entries (-5)) as (_ & _ & _ & H).
  apply H. lra.
Defined.

Lemma walk_tax_floor (bottom top : Q) (brackets : list Welcome.bracket) :
  forall p r : Q,
    table_ok top p brackets ->
    Forall (fun b => bottom <= Welcome.rate b) brackets ->
    0 <= r ->
    bottom * r <= walk_tax brackets p r.
Proof.
  induction brackets as [|b rest IH]; intros p r Hok Hall Hr; [contradiction|].
  destruct Hok as (Hr0 & Hr1 & Hth).
  apply Forall_cons in Hall as (Hb & Hall). cbn [walk_tax].
  destruct (Welcome.threshold b) as [t|].
  - destruct Hth as (Hpt & Hrest).
    set (a := Qmin r (t - p)).
    assert (Ha : 0 <= a /\ a <= r).
    { destruct (Q.min_spec r (t - p)) as [(L & E)|(L & E)]; fold a in E; lra. }
    specialize (IH t (r - a) Hrest Hall ltac:(lra)).
    assert (H : a * bottom <= a * Welcome.rate b).
    { rewrite (Qmult_comm a bottom), (Qmult_comm a (Welcome.rate b)).
      apply Qmult_le_compat_r; lra. }
    lra.
  - assert (H : r * bottom <= r * Welcome.rate b).
    { rewrite (Qmult_comm r bottom), (Qmult_comm r (Welcome.rate b)).
      apply Qmult_le_compat_r; lra. }
    lra.
Qed.

Ltac name_minima :=
  repeat match goal with
    | |- context [Qmin ?x ?y] =>
        let m := fresh "m" in
        let H := fresh "Hm" in
        pose proof (Q.min_spec x y) as H;
        set (m := Qmin x y) in *; clearbody m
    end.

(** X7. For a price that is not negative the tax of [calculateWelcomeTax]
    lies between 0.5 and 2.5 percent of the price, the lowest and the highest
    marginal rate; up to 55200 it is 0.5 percent of the price, and from
    1000000 on it is 15843 plus 2.5 percent of what exceeds 1000000. *)
Theorem calculateWelcomeTax_effective_rate (purchasePrice : Q) :
  0 <= purchasePrice ->
  0.005 * purchasePrice <= Welcome.totalTax (calculateWelcomeTax purchasePrice)
  /\ Welcome.totalTax (calculateWelcomeTax purchasePrice)
     <= 0.025 * purchasePrice
  /\ (purchasePrice <= 55200 ->
      Welcome.totalTax (calculateWelcomeTax purchasePrice)
      == 0.005 * purchasePrice)
  /\ (1000000 <= purchasePrice ->
      Welcome.totalTax (calculateWelcomeTax purchasePrice)
      == 15843 + 0.025 * (purchasePrice - 1000000)).
Proof.
  intros Hp. rewrite calculateWelcomeTax_totalTax by exact Hp.
  split.
  { apply (walk_tax_floor 0.005 0.025);
      [apply QUEBEC_WELCOME_TAX_BRACKETS_ok | | exact Hp].
    unfold QUEBEC_WELCOME_TAX_BRACKETS.
    repeat (constructor; [cbn; lra|]). constructor. }
  split.
  { apply (walk_tax_bounds 0.025);
      [apply QUEBEC_WELCOME_TAX_BRACKETS_ok | exact Hp]. }
  unfold QUEBEC_WELCOME_TAX_BRACKETS.
  cbn [walk_tax Welcome.threshold Welcome.rate].
  split; intros Hcase; name_minima;
    repeat match goal with
      | H : _ \/ _ |- _ => destruct H as [(? & ?)|(? & ?)]
      end; lra.
Qed.

(** The tax at 1200000 and at 40000. *)
Lemma calculateWelcomeTax_effective_rate_witness :
  Welcome.totalTax (calculateWelcomeTax 1200000) == 15843 + 0.025 * 200000
  /\ Welcome.totalTax (calculateWelcomeTax 40000) == 200.
Proof.
  destruct (calculateWelcomeTax_effective_rate 1200000) as (_ & _ & _ & Htop);
    [lra|].
  destruct (calculateWelcomeTax_effective_rate 40000) as (_ & _ & Hlow & _);
    [lra|].
  split; [rewrite Htop by lra; lra | rewrite Hlow by lra; lra].
Defined.

(** ** The household bar *)

(** X8. The household bar of [updateAffordabilityBars] and
    [calculateAffordability] classify alike: with a positive income the bar
    shows the percentage and the status [calculateAffordability] returns for
    the same costs and income.  With an income that is not positive the bar
    shows 0 and '-', where [calculateAffordability] says 'unknown', and
    the cards of the members give way to the notice. *)
Theorem updateAffordabilityBars_agrees_with_calculateAffordability
  (dom : Dom.t) (data : BarsData.t) :
  let bars := updateAffordabilityBars dom data in
  let result :=
    value (calculateAffordability (BarsData.totalMonthlyCosts data)
             (BarsData.totalGrossIncome data)) in
  (0 < BarsData.totalGrossIncome data ->
   Bars.housingCostPercent bars = Affordability.percent result
   /\ Bars.housingCostStatus bars = Affordability.status result)
  /\ (BarsData.totalGrossIncome data <= 0 ->
      Bars.housingCostPercent bars = 0
      /\ Bars.housingCostStatus bars = "-"%string
      /\ Affordability.status result = "unknown"%string
      /\ Bars.perPerson bars
         = (if Dom.perPersonRatios dom then AddMembersNotice else NoContainer)).
Proof.
  cbn zeta. unfold updateAffordabilityBars, calculateAffordability. split.
  - intros Hincome.
    destruct (BarsData.totalGrossIncome data <=? 0) eqn:Hguard; [qprop; lra|].
    cbn [bind div value divisors ret Bars.housingCostPercent
           Bars.housingCostStatus].
    repeat match goal with
           | |- context [if ?x <=? ?y then _ else _] => destruct (x <=? y)
           end; split; reflexivity.
  - intros Hincome.
    assert (Hguard : (BarsData.totalGrossIncome data <=? 0) = true)
      by (apply Qle_bool_iff; exact Hincome).
    rewrite Hguard.
    cbn [value ret Bars.housingCostPercent Bars.housingCostStatus
           Affordability.status Bars.perPerson].
    repeat split. unfold updatePerPersonRatios.
    destruct (Dom.perPersonRatios dom); reflexivity.
Qed.

(** Costs of 1500 on an income of 5000. *)
Lemma updateAffordabilityBars_agrees_with_calculateAffordability_witness :
  Bars.housingCostStatus
    (updateAffordabilityBars Dom.empty
       {| BarsData.totalMonthlyCosts := 1500;
          BarsData.totalGrossIncome := 5000;
          BarsData.mortgagePayment := 1200;
          BarsData.propertyTax := 200;
          BarsData.heating := 100;
          BarsData.otherDebtPayments := 0;
          BarsData.ownerData := [];
          BarsData.rrspMonthlyRepayment := 0 |})
  = Affordability.status (value (calculateAffordability 1500 5000)).
Proof.
  destruct (updateAffordabilityBars_agrees_with_calculateAffordability
              Dom.empty
              {| BarsData.totalMonthlyCosts := 1500;
                 BarsData.totalGrossIncome := 5000;
                 BarsData.mortgagePayment := 1200;
                 BarsData.propertyTax := 200;
                 BarsData.heating := 100;
                 BarsData.otherDebtPayments := 0;
                 BarsData.ownerData := [];
                 BarsData.rrspMonthlyRepayment := 0 |}) as (H & _).
  cbn [BarsData.totalGrossIncome BarsData.totalMonthlyCosts] in H.
  destruct H as (_ & H); [lra|]. exact H.
Defined.

(** The cards of [updatePerPersonRatios], when it shows cards. *)
(** ** The cards of the household members *)

Lemma updatePerPersonRatios_cards (dom : Dom.t) (ownerData : list OwnerData.t)
  (totalGrossIncome gdsHousingCosts rrspMonthlyRepayment : Q)
  (cards : list RatioCard.t) :
  updatePerPersonRatios dom ownerData totalGrossIncome gdsHousingCosts
    rrspMonthlyRepayment = RatioCards cards ->
  0 < totalGrossIncome
  /\ ownerData <> []
  /\ cards
     = map (ratio_card totalGrossIncome gdsHousingCosts
              (rrspMonthlyRepayment / Qnat (length ownerData))) ownerData.
Proof.
  unfold updatePerPersonRatios.
  destruct (negb (Dom.perPersonRatios dom)); [discriminate|].
  destruct (length ownerData =? 0)%nat eqn:Hlen; [discriminate|].
  destruct (totalGrossIncome <=? 0) eqn:Hincome; [discriminate|].
  cbn [orb]. intros [= <-]. qprop.
  split; [exact Hincome|]. split; [|reflexivity].
  intros ->. discriminate.
Qed.

(** X10. A member whose income is not positive gets the ratios 0 and the
    status 'Excellent' for both GDS and TDS on the cards of
    [updatePerPersonRatios], although the TDS amount of the card still counts
    the debts of the member and a share of the RRSP repayment. *)
Theorem member_without_income_is_rated_excellent (dom : Dom.t)
  (ownerData : list OwnerData.t)
  (totalGrossIncome gdsHousingCosts rrspMonthlyRepayment : Q)
  (cards : list RatioCard.t) (i : nat) (owner : OwnerData.t) :
  updatePerPersonRatios dom ownerData totalGrossIncome gdsHousingCosts
    rrspMonthlyRepayment = RatioCards cards ->
  ownerData !! i = Some owner ->
  OwnerData.income owner <= 0 ->
  exists card : RatioCard.t,
    cards !! i = Some card
    /\ RatioCard.gdsRatio card = 0
    /\ RatioCard.tdsRatio card = 0
    /\ RatioCard.gdsStatus card = "Excellent"%string
    /\ RatioCard.tdsStatus card = "Excellent"%string
    /\ RatioCard.tdsAmount card
       = RatioCard.housingCostShare card + OwnerData.totalDebts owner
         + rrspMonthlyRepayment / Qnat (length ownerData).
Proof.
  intros Hcards Hi Hincome.
  apply updatePerPersonRatios_cards in Hcards as (HT & _ & ->).
  eexists. split; [rewrite list_lookup_fmap, Hi; reflexivity|].
  unfold ratio_card.
  cbn [RatioCard.gdsRatio RatioCard.tdsRatio RatioCard.gdsStatus
         RatioCard.tdsStatus RatioCard.tdsAmount RatioCard.housingCostShare].
  assert (E : (OwnerData.income owner >? 0) = false)
    by (apply Qlt_bool_false; exact Hincome).
  rewrite E. repeat split.
Qed.

(** The member without income owes 295 a month and is rated 'Excellent'. *)
Lemma member_without_income_is_rated_excellent_witness :
  exists card : RatioCard.t,
    map (ratio_card 5000 2000 (90 / Qnat 2)) earner_and_dependant !! 1%nat
    = Some card
    /\ RatioCard.tdsStatus card = "Excellent"%string
    /\ RatioCard.tdsAmount card == 295.
Proof.
  assert (Hcards :
    updatePerPersonRatios Dom.empty earner_and_dependant 5000 2000 90
    = RatioCards (map (ratio_card 5000 2000 (90 / Qnat 2))
                    earner_and_dependant)) by reflexivity.
  destruct (member_without_income_is_rated_excellent Dom.empty
              earner_and_dependant 5000 2000 90 _ 1
              {| OwnerData.index := 1; OwnerData.name := "Person 2";
                 OwnerData.income := 0; OwnerData.totalDebts := 250;
                 OwnerData.carLoan := 0; OwnerData.studentLoan := 250;
                 OwnerData.personalLoan := 0; OwnerData.creditCard := 0 |}
              Hcards eq_refl)
    as (card & Hcard & _ & _ & _ & Htds & Hamount); [cbn; lra|].
  exists card. split; [exact Hcard|]. split; [exact Htds|].
  rewrite Hamount.
  cbn in Hcard. injection Hcard as <-. vm_compute. reflexivity.
Defined.

(** ** What a recalculation pass keeps *)

Lemma slot_kept_refl (x : option Source.t) : slot_kept x x.
Proof. destruct x; cbn; auto. Qed.

Lemma slot_kept_trans (x y z : option Source.t) :
  slot_kept x y -> slot_kept y z -> slot_kept x z.
Proof.
  destruct x, y, z; cbn; try tauto.
  intros (-> & -> & -> & Hxy) (-> & -> & -> & Hyz).
  repeat split. intros Hx. rewrite <- (Hxy Hx). apply Hyz.
  rewrite (Hxy Hx). exact Hx.
Qed.

Lemma slots_kept_refl (l : list (option Source.t)) : Forall2 slot_kept l l.
Proof. induction l; constructor; [apply slot_kept_refl | assumption]. Qed.

Lemma slots_kept_trans (l1 l2 l3 : list (option Source.t)) :
  Forall2 slot_kept l1 l2 -> Forall2 slot_kept l2 l3 -> Forall2 slot_kept l1 l3.
Proof.
  intros H12. revert l3.
  induction H12 as [|x y l1 l2 Hxy _ IH]; intros l3 H23.
  - inversion H23. constructor.
  - inversion H23 as [|? z ? l3' Hyz H23']; subst.
    constructor; [exact (slot_kept_trans _ _ _ Hxy Hyz) | apply IH, H23'].
Qed.

Lemma slots_kept_set_amount (a : Q) (i : nat) (l : list (option Source.t)) :
  Forall2 slot_kept l (alter (fmap (Source.set_amount a)) i l).
Proof.
  revert i. induction l as [|x l IH]; intros i; [constructor|].
  destruct i as [|i]; cbn [alter list_alter].
  - constructor; [|apply slots_kept_refl].
    destruct x; cbn; auto.
  - constructor; [apply slot_kept_refl | apply IH].
Qed.

Lemma updateBankMortgageAmount_slots (totalMortgage : Q)
  (sd : list (option Source.t) * Dom.t) :
  Forall2 slot_kept sd.1 (updateBankMortgageAmount totalMortgage sd).1.
Proof.
  unfold updateBankMortgageAmount.
  destruct (findIndex is_auto_fill_slot sd.1) as [i|];
    [|apply slots_kept_refl].
  destruct (Dom.inputs sd.2 _); [|apply slots_kept_refl].
  destruct (totalMortgage >? 0); apply slots_kept_set_amount.
Qed.

Lemma updateParentsLoanAmount_slots (gapAmount : Q)
  (sd : list (option Source.t) * Dom.t) :
  Forall2 slot_kept sd.1 (updateParentsLoanAmount gapAmount sd).1.
Proof.
  unfold updateParentsLoanAmount.
  destruct (findIndex is_gap_slot sd.1) as [i|]; [|apply slots_kept_refl].
  destruct (Dom.inputs sd.2 _); [|apply slots_kept_refl].
  destruct (gapAmount >? 0); apply slots_kept_set_amount.
Qed.

Lemma first_pass_slots (types : Types.t) (dom : Dom.t)
  (sources : list (option Source.t)) :
  forall (index : nat) (acc : Pass1.t),
    Forall2 slot_kept sources (first_pass types dom index sources acc).1.
Proof.
  induction sources as [|[source|] rest IH]; intros index acc;
    cbn [first_pass fst snd]; constructor; try apply IH.
  - rewrite first_pass_source_fst.
    cbn [slot_kept Source.name Source.isAutoFillMortgage
           Source.isAutoCalculated Source.sourceType Source.set_sourceType
           Source.set_amount].
    repeat split. intros Hty. unfold resolved_type.
    destruct (String.eqb_spec (Source.sourceType source) EmptyString);
      [contradiction | reflexivity].
  - exact I.
Qed.

Lemma second_pass_source_slot (Math_pow : Q -> Q -> Q) (types : Types.t)
  (dom : Dom.t) (index : nat) (source : Source.t) (acc : Pass2.t) :
  slot_kept (Some source)
    (Some (second_pass_source Math_pow types dom index source acc).1).
Proof.
  unfold second_pass_source.
  destruct (Types.get types (Source.sourceType source)) as [config|];
    [|cbn; auto].
  repeat match goal with
         | |- context [if ?c then _ else _] => destruct c
         end; cbn; auto.
Qed.

Lemma second_pass_slots (Math_pow : Q -> Q -> Q) (types : Types.t)
  (dom : Dom.t) (sources : list (option Source.t)) :
  forall (index : nat) (acc : Pass2.t),
    Forall2 slot_kept sources
      (second_pass Math_pow types dom index sources acc).1.
Proof.
  induction sources as [|[source|] rest IH]; intros index acc;
    cbn [second_pass fst snd]; constructor; try apply IH.
  - apply second_pass_source_slot.
  - exact I.
Qed.

Lemma owners_pass_slots (dom : Dom.t) (owners : list (option Owner.t)) :
  forall (index : nat) (acc : OwnersAcc.t),
    Forall2 member_kept owners (owners_pass dom index owners acc).1.
Proof.
  induction owners as [|[owner|] rest IH]; intros index acc;
    cbn [owners_pass fst snd]; constructor; try apply IH.
  - reflexivity.
  - exact I.
Qed.

Lemma calculate_sources_kept (Math_pow : Q -> Q -> Q) (types : Types.t)
  (st : State.t) :
  Forall2 slot_kept (State.financingSources st)
    (State.financingSources (calculate Math_pow types st).1).
Proof.
  unfold calculate. cbn [fst State.financingSources].
  set (downPayment := getDownPaymentAmount _ _).
  set (sd0 := updateBankMortgageAmount _ _).
  unfold financing, first_pass_and_gap. cbn [fst snd].
  eapply slots_kept_trans;
    [apply (updateBankMortgageAmount_slots
              (CmhcResult.totalMortgage
                 (calculateCmhc
                    (getInputValue (State.dom st) (Named "offerPrice"))
                    downPayment
                    (default false
                       (Dom.checked (State.dom st) (Named "is30Year")))))
              (State.financingSources st, State.dom st))|].
  fold sd0.
  eapply slots_kept_trans; [apply (first_pass_slots types sd0.2 sd0.1)|].
  eapply slots_kept_trans; [|apply second_pass_slots].
  match goal with |- context [updateParentsLoanAmount ?g ?sd] =>
    apply (updateParentsLoanAmount_slots g sd) end.
Qed.

Lemma calculate_owners_kept (Math_pow : Q -> Q -> Q) (types : Types.t)
  (st : State.t) :
  Forall2 member_kept (State.owners st)
    (State.owners (calculate Math_pow types st).1).
Proof.
  unfold calculate. cbn [fst State.owners]. apply owners_pass_slots.
Qed.

(** X13. A recalculation pass keeps the shape of the state: the lists of
    sources and of members keep their length, a [null] slot stays [null], a
    source keeps its name, its two flags and the type it has, a member keeps
    its name, and the mode of the down payment is unchanged. *)
Theorem calculate_keeps_slots (Math_pow : Q -> Q -> Q) (types : Types.t)
  (st : State.t) :
  let st' := (calculate Math_pow types st).1 in
  Forall2 slot_kept (State.financingSources st) (State.financingSources st')
  /\ Forall2 member_kept (State.owners st) (State.owners st')
  /\ length (State.financingSources st') = length (State.financingSources st)
  /\ length (State.owners st') = length (State.owners st)
  /\ State.downPaymentMode st' = State.downPaymentMode st.
Proof.
  cbn zeta.
  pose proof (calculate_sources_kept Math_pow types st) as Hsources.
  pose proof (calculate_owners_kept Math_pow types st) as Howners.
  split; [exact Hsources|]. split; [exact Howners|].
  split; [symmetry; exact (Forall2_length _ _ _ Hsources)|].
  split; [symmetry; exact (Forall2_length _ _ _ Howners) | reflexivity].
Qed.

(** ** The series of the payment chart *)

Lemma Qsum_replicate (n : nat) (x : Q) : Qsum (replicate n x) == Qnat n * x.
Proof.
  induction n as [|n IH]; cbn [replicate Qsum].
  - change (Qnat 0) with 0. ring.
  - rewrite IH, Qnat_S. ring.
Qed.

(** X15. The RRSP series of [updateChart]: for a positive monthly repayment
    it is 0 for the first 12 months, the repayment for the next 180 and 0 for
    the last 168, which adds up to 180 repayments, that is to the amount
    withdrawn when the repayment is [amount / 15 / 12]; without a positive
    repayment there is no series. *)
Theorem updateChart_rrsp_series (loanPaymentDetails : list Loan.t)
  (rrspMonthlyRepayment : Q) :
  (0 < rrspMonthlyRepayment ->
   Chart.rrspData (updateChart loanPaymentDetails rrspMonthlyRepayment)
   = Some (replicate 12 0 ++ replicate 180 rrspMonthlyRepayment
           ++ replicate 168 0)
   /\ Qsum (replicate 12 0 ++ replicate 180 rrspMonthlyRepayment
            ++ replicate 168 0)
      == 180 * rrspMonthlyRepayment
   /\ forall amount : Q,
        rrspMonthlyRepayment == amount / 15 / 12 ->
        Qsum (replicate 12 0 ++ replicate 180 rrspMonthlyRepayment
              ++ replicate 168 0) == amount)
  /\ (rrspMonthlyRepayment <= 0 ->
      Chart.rrspData (updateChart loanPaymentDetails rrspMonthlyRepayment)
      = None).
Proof.
  unfold updateChart. cbn [Chart.rrspData]. split.
  - intros Hpos.
    assert (E : (rrspMonthlyRepayment >? 0) = true)
      by (apply Qlt_bool_iff; exact Hpos).
    rewrite E. split; [reflexivity|].
    assert (Hsum : Qsum (replicate 12 0 ++ replicate 180 rrspMonthlyRepayment
                         ++ replicate 168 0) == 180 * rrspMonthlyRepayment).
    { rewrite !Qsum_app, !Qsum_replicate.
      change (Qnat 12) with 12. change (Qnat 180) with 180.
      change (Qnat 168) with 168. ring. }
    split; [exact Hsum|]. intros amount Ea. qdiv_literals. lra.
  - intros Hneg.
    assert (E : (rrspMonthlyRepayment >? 0) = false)
      by (apply Qlt_bool_false; exact Hneg).
    rewrite E. reflexivity.
Qed.

(** A withdrawal of 45000 is repaid in full within the chart. *)
Lemma updateChart_rrsp_series_witness :
  Chart.rrspData (updateChart [] (45000 / 15 / 12))
  = Some (replicate 12 0 ++ replicate 180 (45000 / 15 / 12) ++ replicate 168 0)
  /\ Qsum (replicate 12 0 ++ replicate 180 (45000 / 15 / 12)
           ++ replicate 168 0) == 45000.
Proof.
  destruct (updateChart_rrsp_series [] (45000 / 15 / 12)) as (H & _).
  destruct H as (Hdata & _ & Hsum); [reflexivity|].
  split; [exact Hdata | apply Hsum; reflexivity].
Defined.

Lemma schedule_body_lengths (monthlyRate monthlyPayment : Q) (month : nat)
  (st : Schedule.t) :
  length (Schedule.interestData (schedule_body monthlyRate monthlyPayment
                                   month st))
  = length (Schedule.interestData st)
  /\ length (Schedule.principalData (schedule_body monthlyRate monthlyPayment
                                       month st))
     = length (Schedule.principalData st).
Proof.
  unfold schedule_body.
  destruct (_ && _); [|split; reflexivity].
  cbn [Schedule.interestData Schedule.principalData].
  rewrite length_alter, length_insert. split; reflexivity.
Qed.

Lemma month_loop_lengths (limit monthlyRate monthlyPayment : Q) (fuel : nat) :
  forall (month : nat) (st : Schedule.t),
    length (Schedule.interestData
              (month_loop fuel month limit
                 (schedule_body monthlyRate monthlyPayment) st))
    = length (Schedule.interestData st)
    /\ length (Schedule.principalData
                 (month_loop fuel month limit
                    (schedule_body monthlyRate monthlyPayment) st))
       = length (Schedule.principalData st).
Proof.
  induction fuel as [|fuel IH]; intros month st; cbn [month_loop];
    [split; reflexivity|].
  destruct (_ <? limit); [|split; reflexivity].
  destruct (IH (S month) (schedule_body monthlyRate monthlyPayment month st))
    as (-> & ->).
  apply schedule_body_lengths.
Qed.

Lemma chart_loans_shape (loans : list Loan.t) :
  forall (interestData : list Q) (series : list (string * list Q)),
    length interestData = maxMonths ->
    Forall (fun s => length s.2 = maxMonths) series ->
    length (chart_loans loans interestData series).1 = maxMonths
    /\ map fst (chart_loans loans interestData series).2
       = map fst series ++ map Loan.name loans
    /\ Forall (fun s => length s.2 = maxMonths)
         (chart_loans loans interestData series).2.
Proof.
  induction loans as [|loan rest IH]; intros interestData series Hlen Hall;
    cbn [chart_loans fst snd map].
  - rewrite app_nil_r. repeat split; assumption.
  - destruct (month_loop_lengths
                (Qmin (Loan.termMonths loan) (inject_Z (Z.of_nat maxMonths)))
                (Loan.rate loan / 100 / 12) (Loan.monthlyPayment loan)
                maxMonths 0
                {| Schedule.interestData := interestData;
                   Schedule.principalData := replicate maxMonths 0;
                   Schedule.remainingBalance := Loan.amount loan |})
      as (Hi & Hp).
    cbn [Schedule.interestData Schedule.principalData] in Hi, Hp.
    rewrite length_replicate in Hp.
    destruct (IH (Schedule.interestData (loan_schedule interestData loan))
                (series ++ [(Loan.name loan,
                             Schedule.principalData
                               (loan_schedule interestData loan))]))
      as (H1 & H2 & H3).
    + unfold loan_schedule. rewrite Hi. exact Hlen.
    + apply Forall_app. split; [exact Hall|].
      constructor; [|constructor]. cbn [snd]. unfold loan_schedule. exact Hp.
    + split; [exact H1|]. split; [|exact H3].
      rewrite H2, map_app, <- app_assoc. reflexivity.
Qed.

(** X16. The series of [updateChart] keep the 360 months of the chart: the
    interest series and every principal series have 360 entries, there is one
    principal series per loan, named after it and in the order of the loans,
    and the RRSP series, when there is one, has 360 entries too. *)
Theorem updateChart_series_shape (loanPaymentDetails : list Loan.t)
  (rrspMonthlyRepayment : Q) :
  let chart := updateChart loanPaymentDetails rrspMonthlyRepayment in
  length (Chart.interestData chart) = 360%nat
  /\ map fst (Chart.principalDataByLoan chart)
     = map Loan.name loanPaymentDetails
  /\ Forall (fun series => length series.2 = 360%nat)
       (Chart.principalDataByLoan chart)
  /\ from_option (fun rrspData => length rrspData = 360%nat) True
       (Chart.rrspData chart).
Proof.
  cbn zeta. unfold updateChart.
  cbn [Chart.interestData Chart.principalDataByLoan Chart.rrspData].
  destruct (chart_loans_shape loanPaymentDetails (replicate maxMonths 0) [])
    as (H1 & H2 & H3); [apply length_replicate | constructor |].
  split; [exact H1|]. split; [exact H2|]. split; [exact H3|].
  destruct (rrspMonthlyRepayment >? 0); [|exact I].
  cbn [from_option]. reflexivity.
Qed.

(** ** The equity chart *)

Lemma equity_years_series (propertyValue : Q) (loans : list Loan.t)
  (years : list nat) :
  forall series : list Q * list Q,
    foldl (equity_year propertyValue loans) series years
    = (series.1 ++ map (fun year => debt_at year loans) years,
       series.2
       ++ map (fun year => propertyValue - debt_at year loans) years).
Proof.
  induction years as [|year years IH]; intros series; cbn [foldl map].
  - rewrite !app_nil_r. destruct series; reflexivity.
  - rewrite IH. unfold equity_year. cbn [fst snd]. fold (debt_at year loans).
    rewrite <- !app_assoc. reflexivity.
Qed.

Lemma remaining_debt_sum (monthIndex : nat) (loans : list Loan.t) :
  forall total : Q,
    foldl (remaining_debt monthIndex) total loans
    == total + Qsum (map (remaining_debt monthIndex 0) loans).
Proof.
  induction loans as [|loan loans IH]; intros total; cbn [foldl map Qsum].
  - lra.
  - rewrite IH. unfold remaining_debt.
    destruct (_ && _); lra.
Qed.

Lemma remaining_debt_nonneg (monthIndex : nat) (loan : Loan.t) :
  0 <= remaining_debt monthIndex 0 loan.
Proof.
  unfold remaining_debt. destruct (_ && _); [|lra].
  pose proof (Q.le_max_l 0 (balance_after monthIndex loan)). lra.
Qed.

Lemma Qsum_nonneg (l : list Q) : Forall (fun x => 0 <= x) l -> 0 <= Qsum l.
Proof.
  induction 1 as [|x l Hx _ IH]; cbn [Qsum]; lra.
Qed.

Lemma debt_at_nonneg (year : nat) (loans : list Loan.t) :
  0 <= debt_at year loans.
Proof.
  unfold debt_at. rewrite remaining_debt_sum.
  assert (H : 0 <= Qsum (map (remaining_debt (year * 12) 0) loans)).
  { apply Qsum_nonneg, Forall_map, Forall_forall. intros loan _.
    apply remaining_debt_nonneg. }
  lra.
Qed.

(** X17. The three series of [updateEquityChart] have one entry for each of
    the years 0 to 30; in every year the equity is the property value less
    the remaining debt, the debt is not negative and the equity is not above
    the property value; and the debt of the year 0 is the sum of the amounts
    of the loans that have a positive amount and a positive payment. *)
Theorem updateEquityChart_series (propertyValue : Q)
  (loanPaymentDetails : list Loan.t) :
  let chart := updateEquityChart propertyValue loanPaymentDetails in
  length (Equity.propertyValueData chart) = 31%nat
  /\ length (Equity.remainingDebtData chart) = 31%nat
  /\ length (Equity.equityData chart) = 31%nat
  /\ (forall (year : nat) (debt equity : Q),
        Equity.remainingDebtData chart !! year = Some debt ->
        Equity.equityData chart !! year = Some equity ->
        equity = propertyValue - debt
        /\ 0 <= debt
        /\ equity <= propertyValue)
  /\ (exists debt : Q,
        Equity.remainingDebtData chart !! 0%nat = Some debt
        /\ debt
           == Qsum (map (fun loan =>
                           if (Loan.amount loan >? 0)
                              && (Loan.monthlyPayment loan >? 0)
                           then Loan.amount loan else 0)
                      loanPaymentDetails)).
Proof.
  cbn zeta. unfold updateEquityChart.
  cbn [Equity.propertyValueData Equity.remainingDebtData Equity.equityData].
  rewrite equity_years_series. cbn [fst snd app].
  split; [apply length_replicate|].
  split; [rewrite length_map; apply length_seq|].
  split; [rewrite length_map; apply length_seq|].
  split.
  - intros year debt equity Hdebt Hequity.
    rewrite list_lookup_fmap in Hdebt, Hequity.
    destruct (seq 0 (maxYears + 1) !! year) as [y|]; [|discriminate].
    cbn in Hdebt, Hequity. injection Hdebt as <-. injection Hequity as <-.
    pose proof (debt_at_nonneg y loanPaymentDetails) as H.
    split; [reflexivity|]. split; [exact H | lra].
  - eexists. split; [reflexivity|].
    unfold debt_at. rewrite remaining_debt_sum.
    assert (E : forall l : list Loan.t,
              Qsum (map (remaining_debt (0 * 12) 0) l)
              == Qsum (map (fun loan =>
                              if (Loan.amount loan >? 0)
                                 && (Loan.monthlyPayment loan >? 0)
                              then Loan.amount loan else 0) l)).
    { induction l as [|loan l IH]; cbn [map Qsum]; [reflexivity|].
      rewrite IH. unfold remaining_debt, balance_after.
      cbn [Nat.mul balance_loop].
      destruct (Loan.amount loan >? 0) eqn:Ha; cbn [andb]; [|lra].
      destruct (Loan.monthlyPayment loan >? 0); [|lra].
      qprop. rewrite Q.max_r by lra. lra. }
    rewrite E. lra.
Qed.

(** A loan without a payment owes nothing on the chart. *)
Lemma updateEquityChart_series_witness :
  exists debt : Q,
    Equity.remainingDebtData (updateEquityChart 300000 [loan_without_term])
    !! 0%nat = Some debt
    /\ debt == 0.
Proof.
  destruct (updateEquityChart_series 300000 [loan_without_term])
    as (_ & _ & _ & _ & debt & Hdebt & Hsum).
  exists debt. split; [exact Hdebt|]. rewrite Hsum. vm_compute. reflexivity.
Defined.

(** ** Changing the type of a source *)

Lemma Types_get_isAutoCalculated (key : string) (config : TypeConfig.t) :
  Types.get FINANCING_TYPES key = Some config ->
  TypeConfig.isAutoCalculated config = (key =? "parents_loan")%string.
Proof.
  unfold Types.get.
  repeat match goal with
         | |- context [if (key =? ?k)%string then _ else _] =>
             destruct (String.eqb_spec key k) as [->|?]
         end; intros [= <-]; reflexivity.
Qed.

(** X20. [changeFinancingType] on a source whose selector holds a key of the
    table returns and replaces the source in its slot, the page unchanged:
    the source has the selected type, its name and its amount as before, its
    auto-fill flag is set exactly when the type is 'mortgage' and the slot is
    the first, and its auto-calculated flag exactly when the type is
    'parents_loan'; and if the flags of all sources fitted their types before,
    they do after. *)
Theorem changeFinancingType_sets_flags (index : nat)
  (sources : list (option Source.t)) (dom : Dom.t) (source : Source.t)
  (newType : string) :
  sources !! index = Some (Some source) ->
  Dom.selects dom (Indexed "financing-type" index) = Some newType ->
  is_Some (Types.get FINANCING_TYPES newType) ->
  exists source' : Source.t,
    changeFinancingType index (sources, dom)
    = ((<[ index := Some source' ]> sources, dom), Returns)
    /\ Source.sourceType source' = newType
    /\ Source.name source' = Source.name source
    /\ Source.amount source' = Source.amount source
    /\ (Source.isAutoFillMortgage source' = true
        <-> newType = "mortgage"%string /\ index = 0%nat)
    /\ (Source.isAutoCalculated source' = true
        <-> newType = "parents_loan"%string)
    /\ (all_sources flags_fit sources ->
        all_sources flags_fit (<[ index := Some source' ]> sources)).
Proof.
  intros Hsource Hselect [config Hconfig].
  unfold changeFinancingType. cbn [fst snd].
  rewrite Hselect, Hsource, Hconfig.
  eexists. split; [reflexivity|].
  cbn [Source.sourceType Source.name Source.amount Source.isAutoFillMortgage
         Source.isAutoCalculated].
  split; [reflexivity|]. split; [reflexivity|]. split; [reflexivity|].
  assert (Hfill : (newType =? "mortgage")%string && (index =? 0)%nat = true
                  <-> newType = "mortgage"%string /\ index = 0%nat).
  { rewrite andb_true_iff, String.eqb_eq, Nat.eqb_eq. reflexivity. }
  assert (Hauto : TypeConfig.isAutoCalculated config = true
                  <-> newType = "parents_loan"%string).
  { rewrite (Types_get_isAutoCalculated newType config Hconfig).
    apply String.eqb_eq. }
  split; [exact Hfill|]. split; [exact Hauto|].
  intros Hall j s Hj.
  destruct (decide (j = index)) as [->|Hne].
  - rewrite list_lookup_insert_eq in Hj
      by (apply lookup_lt_is_Some; eauto).
    injection Hj as <-. unfold flags_fit.
    cbn [Source.sourceType Source.isAutoFillMortgage Source.isAutoCalculated].
    split; [intros ->; discriminate Hconfig|].
    split; [intros H; apply Hfill in H; tauto | intros H; apply Hauto, H].
  - rewrite list_lookup_insert_ne in Hj by auto. apply (Hall j s Hj).
Qed.

(** ** What a recalculation pass writes to the page *)

Lemma dom_kept_refl (dom : Dom.t) : dom_kept dom dom.
Proof. repeat split; auto. Qed.

Lemma dom_kept_trans (d1 d2 d3 : Dom.t) :
  dom_kept d1 d2 -> dom_kept d2 d3 -> dom_kept d1 d3.
Proof.
  intros (Ha & Hb & Hc & Hd & He) (Ha' & Hb' & Hc' & Hd' & He').
  repeat split.
  - intros id Hid. rewrite (Ha' id Hid). apply Ha, Hid.
  - intros H. apply Hb, Hb', H.
  - intros H. apply Hb', Hb, H.
  - congruence.
  - congruence.
  - congruence.
Qed.

Lemma write_amount_dom_kept (i : nat) (a shown : Q)
  (sd : list (option Source.t) * Dom.t) :
  is_Some (Dom.inputs sd.2 (Indexed "financing-amount" i)) ->
  dom_kept sd.2 (write_amount i a shown sd).2.
Proof.
  intros Hfield. unfold write_amount, Dom.set_input. cbn [snd].
  repeat split; cbn [Dom.inputs Dom.selects Dom.checked Dom.perPersonRatios].
  - intros id Hid. destruct (decide (id = Indexed "financing-amount" i)) as [->|];
      [exfalso; apply (Hid i); reflexivity | reflexivity].
  - destruct (decide (id = Indexed "financing-amount" i)) as [->|];
      [intros _; exact Hfield | auto].
  - destruct (decide (id = Indexed "financing-amount" i)) as [->|];
      [intros _; eauto | auto].
Qed.

Lemma updateBankMortgageAmount_dom_kept (totalMortgage : Q)
  (sd : list (option Source.t) * Dom.t) :
  dom_kept sd.2 (updateBankMortgageAmount totalMortgage sd).2.
Proof.
  unfold updateBankMortgageAmount.
  destruct (findIndex is_auto_fill_slot sd.1) as [i|]; [|apply dom_kept_refl].
  destruct (Dom.inputs sd.2 (Indexed "financing-amount" i)) as [v|] eqn:Hv;
    [|apply dom_kept_refl].
  destruct (totalMortgage >? 0); apply write_amount_dom_kept; rewrite Hv; eauto.
Qed.

Lemma updateParentsLoanAmount_dom_kept (gapAmount : Q)
  (sd : list (option Source.t) * Dom.t) :
  dom_kept sd.2 (updateParentsLoanAmount gapAmount sd).2.
Proof.
  unfold updateParentsLoanAmount.
  destruct (findIndex is_gap_slot sd.1) as [i|]; [|apply dom_kept_refl].
  destruct (Dom.inputs sd.2 (Indexed "financing-amount" i)) as [v|] eqn:Hv;
    [|apply dom_kept_refl].
  destruct (gapAmount >? 0); apply write_amount_dom_kept; rewrite Hv; eauto.
Qed.

Lemma calculate_dom_kept (Math_pow : Q -> Q -> Q) (types : Types.t)
  (st : State.t) :
  dom_kept (State.dom st) (State.dom (calculate Math_pow types st).1).
Proof.
  unfold calculate. cbn [fst State.dom].
  set (downPayment := getDownPaymentAmount _ _).
  unfold financing, first_pass_and_gap. cbn [fst snd].
  eapply dom_kept_trans; [|apply updateParentsLoanAmount_dom_kept].
  cbn [snd].
  match goal with |- context [updateBankMortgageAmount ?t ?sd] =>
    apply (updateBankMortgageAmount_dom_kept t sd) end.
Qed.

(** X21. A recalculation pass writes to amount fields of financing sources
    only: every named field, every other indexed field, every selector and
    every checkbox is as before, no field is created or removed, and the down
    payment read from the page after the pass is the one read before it. *)
Theorem calculate_writes_amount_fields_only (Math_pow : Q -> Q -> Q)
  (types : Types.t) (st : State.t) :
  let dom := State.dom st in
  let dom' := State.dom (calculate Math_pow types st).1 in
  (forall id : string, Dom.inputs dom' (Named id) = Dom.inputs dom (Named id))
  /\ (forall (prefix : string) (index : nat),
        prefix <> "financing-amount"%string ->
        Dom.inputs dom' (Indexed prefix index)
        = Dom.inputs dom (Indexed prefix index))
  /\ (forall id : ElementId,
        is_Some (Dom.inputs dom' id) <-> is_Some (Dom.inputs dom id))
  /\ Dom.selects dom' = Dom.selects dom
  /\ Dom.checked dom' = Dom.checked dom
  /\ getDownPaymentAmount (State.downPaymentMode (calculate Math_pow types st).1)
       dom'
     = getDownPaymentAmount (State.downPaymentMode st) dom.
Proof.
  cbn zeta.
  destruct (calculate_dom_kept Math_pow types st) as (Ha & Hb & Hc & Hd & _).
  split; [intros id; apply Ha; intros i; discriminate|].
  split; [intros prefix index Hp; apply Ha; intros i [= -> _];
          apply Hp; reflexivity|].
  split; [exact Hb|]. split; [exact Hc|]. split; [exact Hd|].
  unfold getDownPaymentAmount, getInputValue.
  rewrite !Ha by (intros i; discriminate). reflexivity.
Qed.

(** The rate field of the first source is left alone. *)
Lemma calculate_writes_amount_fields_only_witness :
  Dom.inputs (State.dom (calculate (fun _ _ => 0) FINANCING_TYPES first_home).1)
    (Indexed "financing-rate" 0)
  = Dom.inputs (State.dom first_home) (Indexed "financing-rate" 0).
Proof.
  destruct (calculate_writes_amount_fields_only (fun _ _ => 0) FINANCING_TYPES
              first_home) as (_ & H & _).
  apply H. discriminate.
Defined.

(** ** Removing members and sources *)

Lemma assign_null_length {A : Type} (index : nat) (l : list (option A)) :
  length (assign_null index l) = Nat.max (length l) (S index).
Proof.
  unfold assign_null. destruct (index <? length l)%nat eqn:E.
  - apply Nat.ltb_lt in E. rewrite length_insert. lia.
  - apply Nat.ltb_ge in E.
    rewrite !length_app, length_replicate. cbn [length]. lia.
Qed.

Lemma assign_null_at {A : Type} (index : nat) (l : list (option A)) :
  assign_null index l !! index = Some None.
Proof.
  unfold assign_null. destruct (index <? length l)%nat eqn:E.
  - apply Nat.ltb_lt in E. apply list_lookup_insert_eq, E.
  - apply Nat.ltb_ge in E.
    rewrite lookup_app_r by exact E.
    rewrite lookup_app_r by (rewrite length_replicate; lia).
    rewrite length_replicate, Nat.sub_diag. reflexivity.
Qed.

Lemma assign_null_other {A : Type} (index j : nat) (l : list (option A)) :
  j <> index -> (j < length l)%nat -> assign_null index l !! j = l !! j.
Proof.
  intros Hne Hj. unfold assign_null. destruct (index <? length l)%nat.
  - apply list_lookup_insert_ne. auto.
  - apply lookup_app_l, Hj.
Qed.

Lemma members_app {A : Type} (l1 l2 : list (option A)) :
  members (l1 ++ l2) = (members l1 + members l2)%nat.
Proof. unfold members. rewrite omap_app, length_app. reflexivity. Qed.

Lemma members_replicate_None {A : Type} (n : nat) :
  members (replicate n (@None A)) = 0%nat.
Proof. induction n as [|n IH]; [reflexivity | exact IH]. Qed.

Lemma members_cons {A : Type} (x : option A) (l : list (option A)) :
  members (x :: l)
  = ((match x with Some _ => 1 | None => 0 end) + members l)%nat.
Proof. destruct x; reflexivity. Qed.

Lemma members_positive {A : Type} (l : list (option A)) (index : nat) (a : A) :
  l !! index = Some (Some a) -> (0 < members l)%nat.
Proof.
  revert index. induction l as [|y l IH]; intros [|i] Hi; try discriminate;
    rewrite members_cons.
  - cbn in Hi. injection Hi as ->. lia.
  - specialize (IH i Hi). lia.
Qed.

Lemma members_insert_None {A : Type} (l : list (option A)) :
  forall index : nat,
    (index < length l)%nat ->
    members (<[ index := None ]> l)
    = match l !! index with
      | Some (Some _) => (members l - 1)%nat
      | _ => members l
      end.
Proof.
  induction l as [|x l IH]; intros index Hi; [cbn in Hi; lia|].
  destruct index as [|index].
  - change (<[ 0%nat := None ]> (x :: l)) with (@None A :: l).
    change ((x :: l) !! 0%nat) with (Some x).
    rewrite !members_cons. destruct x; lia.
  - change (<[ S index := None ]> (x :: l)) with (x :: <[ index := None ]> l).
    change ((x :: l) !! S index) with (l !! index).
    cbn in Hi. rewrite !members_cons.
    rewrite (IH index ltac:(lia)).
    destruct (l !! index) as [[b|]|] eqn:Hb; try reflexivity.
    pose proof (members_positive l index b Hb). destruct x; lia.
Qed.

Lemma members_assign_null {A : Type} (index : nat) (l : list (option A)) :
  members (assign_null index l)
  = match l !! index with
    | Some (Some _) => (members l - 1)%nat
    | _ => members l
    end.
Proof.
  unfold assign_null. destruct (index <? length l)%nat eqn:E.
  - apply Nat.ltb_lt in E. apply members_insert_None, E.
  - apply Nat.ltb_ge in E. rewrite (lookup_ge_None_2 l index E).
    rewrite !members_app, members_replicate_None. unfold members. cbn. lia.
Qed.

Lemma members_kept (l l' : list (option Owner.t)) :
  Forall2 member_kept l l' -> members l' = members l.
Proof.
  unfold members.
  induction 1 as [|x y l l' Hxy _ IH]; [reflexivity|].
  destruct x, y; cbn in Hxy |- *; try contradiction; lia.
Qed.

Lemma Forall2_lookup_both {A : Type} (R : A -> A -> Prop) (l l' : list A)
  (j : nat) (x : A) :
  Forall2 R l l' -> l !! j = Some x -> exists y, l' !! j = Some y /\ R x y.
Proof.
  intros H Hx. destruct (Forall2_lookup_l _ _ _ _ _ H Hx) as (y & Hy & Hxy).
  exists y. split; assumption.
Qed.

Section OperationFacts.

Variable Math_pow : Q -> Q -> Q.

(** X22. [removeOwner] never removes the last member: with at most one
    member it does nothing at all, and a household with a member still has
    one afterwards.  With two members or more the number of members falls by
    one when the slot [index] holds a member and stays as it is otherwise; a
    member in another slot stays in its slot under its name. *)
Theorem removeOwner_keeps_a_member (index : nat) (st : State.t) :
  let owners' := State.owners (removeOwner Math_pow index st).1 in
  (members (State.owners st) <= 1 ->
   removeOwner Math_pow index st = (st, None))%nat
  /\ (1 <= members (State.owners st) -> 1 <= members owners')%nat
  /\ members owners'
     = (if (2 <=? members (State.owners st))%nat
        then match State.owners st !! index with
             | Some (Some _) => (members (State.owners st) - 1)%nat
             | _ => members (State.owners st)
             end
        else members (State.owners st))
  /\ (forall (j : nat) (owner : Owner.t),
        j <> index -> State.owners st !! j = Some (Some owner) ->
        exists owner' : Owner.t,
          owners' !! j = Some (Some owner')
          /\ Owner.name owner' = Owner.name owner).
Proof.
  cbn zeta. unfold removeOwner. fold (members (State.owners st)).
  destruct (members (State.owners st) <=? 1)%nat eqn:Hguard.
  - apply Nat.leb_le in Hguard. cbn [fst].
    split; [reflexivity|]. split; [auto|].
    split.
    + destruct (2 <=? members (State.owners st))%nat eqn:E; [|reflexivity].
      apply Nat.leb_le in E. lia.
    + intros j owner _ Hj. exists owner. split; [exact Hj | reflexivity].
  - apply Nat.leb_gt in Hguard. cbn [fst].
    set (st0 := {| State.financingSources := State.financingSources st;
                   State.owners := assign_null index (State.owners st);
                   State.downPaymentMode := State.downPaymentMode st;
                   State.dom := Dom_remove.owner (State.dom st) index |}).
    pose proof (calculate_owners_kept Math_pow FINANCING_TYPES st0) as Hkept.
    cbn [st0 State.owners] in Hkept. fold st0 in Hkept.
    pose proof (members_kept _ _ Hkept) as Hcount.
    rewrite members_assign_null in Hcount.
    split; [intros H; lia|].
    split; [intros _; rewrite Hcount;
            destruct (State.owners st !! index) as [[o|]|]; lia|].
    split.
    + rewrite Hcount.
      assert (E : (2 <=? members (State.owners st))%nat = true)
        by (apply Nat.leb_le; lia).
      rewrite E. reflexivity.
    + intros j owner Hne Hj.
      assert (Hlt : (j < length (State.owners st))%nat)
        by (apply lookup_lt_is_Some; eauto).
      rewrite <- (assign_null_other index j _ Hne Hlt) in Hj.
      destruct (Forall2_lookup_both _ _ _ _ _ Hkept Hj) as (y & Hy & Hxy).
      destruct y as [owner'|]; [|contradiction].
      exists owner'. split; [exact Hy | exact Hxy].
Qed.

(** X23. [removeFinancingSource] keeps the indices stable: the slot [index]
    is [null] afterwards and its fields are gone from the page, the list does
    not shrink, a source in another slot stays in its slot with its name, its
    flags and its type, and a source added afterwards goes to the end of the
    list, into a slot past [index], which stays [null]. *)
Theorem removeFinancingSource_keeps_indices (index : nat) (st : State.t) :
  let st' := (removeFinancingSource Math_pow index st).1 in
  State.financingSources st' !! index = Some None
  /\ length (State.financingSources st')
     = Nat.max (length (State.financingSources st)) (S index)
  /\ (forall (j : nat) (source : Source.t),
        j <> index ->
        State.financingSources st !! j = Some (Some source) ->
        exists source' : Source.t,
          State.financingSources st' !! j = Some (Some source')
          /\ slot_kept (Some source) (Some source'))
  /\ Dom.inputs (State.dom st') (Indexed "financing-amount" index) = None
  /\ Dom.inputs (State.dom st') (Indexed "financing-rate" index) = None
  /\ Dom.inputs (State.dom st') (Indexed "financing-term" index) = None
  /\ Dom.selects (State.dom st') (Indexed "financing-type" index) = None
  /\ (forall (defaultName sourceType : string)
             (isAutoFillMortgage isAutoCalculated : bool),
        let added :=
          addFinancingSource defaultName sourceType isAutoFillMortgage
            isAutoCalculated (State.financingSources st', State.dom st') in
        added.1 !! index = Some None
        /\ is_Some (mjoin (added.1 !! length (State.financingSources st')))
        /\ (index < length (State.financingSources st'))%nat).
Proof.
  cbn zeta. unfold removeFinancingSource.
  set (st0 := {| State.financingSources :=
                   assign_null index (State.financingSources st);
                 State.owners := State.owners st;
                 State.downPaymentMode := State.downPaymentMode st;
                 State.dom := Dom_remove.source (State.dom st) index |}).
  pose proof (calculate_sources_kept Math_pow FINANCING_TYPES st0) as Hkept.
  pose proof (Forall2_length _ _ _ Hkept) as Hlen. symmetry in Hlen.
  destruct (calculate_dom_kept Math_pow FINANCING_TYPES st0)
    as (Hother & Hsome & Hselects & _).
  cbn [st0 State.financingSources State.dom] in Hkept, Hlen, Hother, Hsome,
    Hselects.
  fold st0 in Hkept, Hlen, Hother, Hsome, Hselects.
  assert (Hnull : State.financingSources
                    (calculate Math_pow FINANCING_TYPES st0).1 !! index
                  = Some None).
  { destruct (Forall2_lookup_both _ _ _ _ _ Hkept
                (assign_null_at index (State.financingSources st)))
      as (y & Hy & Hxy).
    destruct y; [contradiction | exact Hy]. }
  assert (Hgone : forall id : ElementId,
            Dom.inputs (Dom_remove.source (State.dom st) index) id = None ->
            Dom.inputs (State.dom (calculate Math_pow FINANCING_TYPES st0).1) id
            = None).
  { intros id Hid.
    destruct (Dom.inputs (State.dom (calculate Math_pow FINANCING_TYPES st0).1)
                id) as [v|] eqn:Hv; [|reflexivity].
    assert (H : is_Some (Dom.inputs (Dom_remove.source (State.dom st) index) id))
      by (apply Hsome; rewrite Hv; eauto).
    rewrite Hid in H. destruct H; discriminate. }
  split; [exact Hnull|].
  split; [rewrite Hlen; apply assign_null_length|].
  split.
  { intros j source Hne Hj.
    assert (Hlt : (j < length (State.financingSources st))%nat)
      by (apply lookup_lt_is_Some; eauto).
    rewrite <- (assign_null_other index j _ Hne Hlt) in Hj.
    destruct (Forall2_lookup_both _ _ _ _ _ Hkept Hj) as (y & Hy & Hxy).
    destruct y as [source'|]; [|contradiction].
    exists source'. split; [exact Hy | exact Hxy]. }
  split; [apply Hgone; cbn; rewrite decide_True by reflexivity; reflexivity|].
  split; [apply Hgone; cbn; rewrite decide_False by discriminate;
          rewrite decide_True by reflexivity; reflexivity|].
  split; [apply Hgone; cbn; rewrite !decide_False by discriminate;
          rewrite decide_True by reflexivity; reflexivity|].
  split; [rewrite Hselects; cbn; rewrite decide_True by reflexivity;
          reflexivity|].
  intros defaultName sourceType isAutoFillMortgage isAutoCalculated.
  unfold addFinancingSource. cbn [fst snd].
  assert (Hindex : (index < length (State.financingSources
                                      (calculate Math_pow FINANCING_TYPES
                                         st0).1))%nat)
    by (apply lookup_lt_is_Some; rewrite Hnull; eauto).
  split; [rewrite lookup_app_l by exact Hindex; exact Hnull|].
  split; [|exact Hindex].
  rewrite lookup_app_r by lia. rewrite Nat.sub_diag. cbn. eauto.
Qed.

End OperationFacts.

(** ** Removing a renovation *)

Lemma totalRenovations_items (renovations : list (slot Renovation.t)) :
  forall sum : Q,
    ~ In Null renovations ->
    exists total : Q,
      totalRenovations sum renovations = Some total
      /\ total
         == sum + Qsum (map Renovation.amount (saved_renovations renovations)).
Proof.
  induction renovations as [|[| |r] rest IH]; intros sum Hnull;
    cbn [totalRenovations saved_renovations omap list_omap map Qsum].
  - exists sum. split; [reflexivity | lra].
  - apply IH. intros H. apply Hnull. right. exact H.
  - exfalso. apply Hnull. left. reflexivity.
  - destruct (IH (sum + Renovation.amount r)) as (total & Ht & Hsum).
    { intros H. apply Hnull. right. exact H. }
    exists total. split; [exact Ht|].
    fold (saved_renovations rest). rewrite Hsum. lra.
Qed.

Lemma totalRenovations_null (renovations : list (slot Renovation.t)) :
  forall sum : Q,
    In Null renovations -> totalRenovations sum renovations = None.
Proof.
  induction renovations as [|[| |r] rest IH]; intros sum Hnull;
    cbn [totalRenovations].
  - destruct Hnull.
  - destruct Hnull as [Hx|Hin]; [discriminate | apply IH, Hin].
  - reflexivity.
  - destruct Hnull as [Hx|Hin]; [discriminate | apply IH, Hin].
Qed.

Lemma assign_Null_In {A : Type} (index : nat) (array : list (slot A)) :
  In Null (assign_Null index array).
Proof.
  unfold assign_Null. destruct (index <? length array)%nat eqn:E.
  - apply Nat.ltb_lt in E. apply list_elem_of_In.
    apply list_elem_of_lookup. exists index.
    apply list_lookup_insert_eq, E.
  - apply in_app_iff. right. apply in_app_iff. right. left. reflexivity.
Qed.

(** X24. [removeRenovation] leaves a [null] in the array, and the sum
    [calculate] takes over the renovations reads [amount] of that [null]: the
    call of [calculate] ends in a [TypeError] for every index and every list,
    so [saveToStorage] is not reached, and the one-time costs stay
    unavailable after further additions.  On a list without a [null] the
    one-time costs are the land-transfer tax, the notary fees, the moving
    base, the paint and the amounts of the renovations. *)
Theorem removeRenovation_ends_in_TypeError (index : nat) (dom : Dom.t)
  (renovations : list (slot Renovation.t)) :
  (removeRenovation index dom renovations).2 = TypeError
  /\ totalOneTime dom (removeRenovation index dom renovations).1 = None
  /\ (forall (savedDesc : string) (savedAmount : option Q),
        totalOneTime dom
          (addRenovation savedDesc savedAmount
             (removeRenovation index dom renovations).1) = None)
  /\ (~ In Null renovations ->
      exists total : Q,
        totalOneTime dom renovations = Some total
        /\ total
           == Welcome.totalTax
                (calculateWelcomeTax (getInputValue dom (Named "offerPrice")))
              + getInputValue dom (Named "notaryFees")
              + getInputValue dom (Named "movingBase")
              + getInputValue dom (Named "squareFootage")
                * getInputValue dom (Named "paintPerSqft")
              + Qsum (map Renovation.amount (saved_renovations renovations))).
Proof.
  assert (Hnone : totalOneTime dom (assign_Null index renovations) = None).
  { unfold totalOneTime.
    rewrite (totalRenovations_null _ 0 (assign_Null_In index renovations)).
    reflexivity. }
  unfold removeRenovation. cbn [fst snd]. rewrite Hnone.
  split; [reflexivity|]. split; [reflexivity|]. split.
  - intros savedDesc savedAmount. unfold totalOneTime, addRenovation.
    rewrite totalRenovations_null; [reflexivity|].
    apply in_app_iff. left. apply assign_Null_In.
  - intros Hitems. unfold totalOneTime.
    destruct (totalRenovations_items renovations 0 Hitems)
      as (total & -> & Hsum).
    eexists. split; [reflexivity|]. rewrite Hsum. lra.
Qed.

(** ** The mode of the down payment and the suggested upkeep *)

Lemma Math_round_close (x : Q) :
  x - (1 # 2) <= Math_round x /\ Math_round x <= x + (1 # 2).
Proof.
  unfold Math_round.
  pose proof (Qfloor_le (x + (1 # 2))) as Hle.
  pose proof (Qlt_floor (x + (1 # 2))) as Hlt.
  rewrite inject_Z_plus in Hlt. change (inject_Z 1) with 1 in Hlt.
  split; lra.
Qed.

(** What [recalculate] leaves of the named fields and how it ends. *)
Lemma recalculate_named (Math_pow : Q -> Q -> Q) (page : Page.t) :
  (forall id : string,
      Dom.inputs (State.dom (Page.state (Run.page (recalculate Math_pow page))))
        (Named id)
      = Dom.inputs (State.dom (Page.state page)) (Named id))
  /\ State.downPaymentMode (Page.state (Run.page (recalculate Math_pow page)))
     = State.downPaymentMode (Page.state page)
  /\ Page.renovations (Run.page (recalculate Math_pow page))
     = Page.renovations page.
Proof.
  unfold recalculate.
  destruct (totalOneTime _ _) as [total|];
    cbn [Run.page Page.state Page.renovations State.dom State.downPaymentMode].
  - split; [|split; reflexivity].
    intros id.
    destruct (calculate_dom_kept Math_pow FINANCING_TYPES (Page.state page))
      as (Hnamed & _).
    apply Hnamed. intros i. discriminate.
  - split; [|split; reflexivity].
    intros id.
    match goal with |- context [updateBankMortgageAmount ?t ?sd] =>
      destruct (updateBankMortgageAmount_dom_kept t sd) as (Hnamed & _) end.
    apply Hnamed. intros i. discriminate.
Qed.

Lemma recalculate_completion (Math_pow : Q -> Q -> Q) (page : Page.t) :
  (~ In Null (Page.renovations page) ->
   Run.completion (recalculate Math_pow page) = Returns
   /\ Run.snapshot (recalculate Math_pow page)
      = Some (calculate Math_pow FINANCING_TYPES (Page.state page)).2)
  /\ (In Null (Page.renovations page) ->
      Run.completion (recalculate Math_pow page) = TypeError
      /\ Run.snapshot (recalculate Math_pow page) = None).
Proof.
  unfold recalculate, totalOneTime. split; intros Hnull.
  - destruct (totalRenovations_items _ 0 Hnull) as (total & -> & _).
    split; reflexivity.
  - rewrite (totalRenovations_null _ 0 Hnull). split; reflexivity.
Qed.

Lemma toFixed1_exact_close (x : Q) :
  0 <= x ->
  x - (1 # 10) <= toFixed1_exact x /\ toFixed1_exact x <= x + (1 # 10).
Proof.
  intros Hx. unfold toFixed1_exact.
  assert (E : (x <? 0) = false) by (apply Qlt_bool_false; exact Hx).
  rewrite E.
  pose proof (Qfloor_le (x * 10 + (1 # 2))) as Hle.
  pose proof (Qlt_floor (x * 10 + (1 # 2))) as Hlt.
  rewrite inject_Z_plus in Hlt. change (inject_Z 1) with 1 in Hlt.
  set (n := inject_Z (Qfloor (x * 10 + (1 # 2)))) in *. clearbody n.
  qdiv_literals. split; lra.
Qed.

Section ModeFacts.

Variable Math_pow : Q -> Q -> Q.
Variable toFixed1 : Q -> Q.

(** What is assumed of [toFixed(1)]: the number read back is within a tenth
    of the number given (a twentieth for the rounding to one decimal, and
    the rounding of the host when it is read back). *)
Hypothesis toFixed1_tenth :
  forall x : Q,
    0 <= x -> x - (1 # 10) <= toFixed1 x /\ toFixed1 x <= x + (1 # 10).

(** X25. [setDownPaymentMode] on a page without the down-payment field ends
    in a [TypeError] and leaves the page as it is.  With the field it sets
    the mode, and the pass it runs returns unless a renovation was removed:
    then the call ends in the [TypeError] of the pass.  With a positive offer
    price and a positive value, switching from the amount to the percentage
    changes the down payment by at most a thousandth of the price
    ([toFixed(1)] keeps one decimal of the percentage), and switching from
    the percentage to the amount changes it by at most one half and leaves a
    whole number; setting the mode it already has changes nothing; and
    without a positive price or value the field keeps its value, whatever the
    switch. *)
Theorem setDownPaymentMode_converts_within_rounding (mode : string)
  (page : Page.t) :
  let dom := State.dom (Page.state page) in
  let old := State.downPaymentMode (Page.state page) in
  let run := setDownPaymentMode Math_pow toFixed1 mode page in
  let dom' := State.dom (Page.state (Run.page run)) in
  (Dom.inputs dom (Named "downPayment") = None ->
   run = {| Run.page := page; Run.completion := TypeError;
            Run.snapshot := None |})
  /\ forall value : Q,
       Dom.inputs dom (Named "downPayment") = Some value ->
       State.downPaymentMode (Page.state (Run.page run)) = mode
       /\ (~ In Null (Page.renovations page) ->
           Run.completion run = Returns /\ is_Some (Run.snapshot run))
       /\ (In Null (Page.renovations page) ->
           Run.completion run = TypeError /\ Run.snapshot run = None)
       /\ let offerPrice := getInputValue dom (Named "offerPrice") in
          let before := getDownPaymentAmount old dom in
          let after := getDownPaymentAmount mode dom' in
          (0 < offerPrice -> 0 < value ->
           old = "amount"%string -> mode = "percent"%string ->
           before - offerPrice / 1000 <= after
           /\ after <= before + offerPrice / 1000)
          /\ (0 < offerPrice -> 0 < value ->
              old = "percent"%string -> mode = "amount"%string ->
              before - (1 # 2) <= after /\ after <= before + (1 # 2)
              /\ exists n : Z, after = inject_Z n)
          /\ (mode = old -> after = before)
          /\ (offerPrice <= 0 \/ value <= 0 ->
              getInputValue dom' (Named "downPayment") = value).
Proof.
  cbn zeta. split.
  { intros Hnone. unfold setDownPaymentMode. cbn zeta. rewrite Hnone.
    reflexivity. }
  intros value Hvalue. unfold setDownPaymentMode. cbn zeta. rewrite Hvalue.
  match goal with |- context [recalculate Math_pow ?p] => set (page0 := p) end.
  destruct (recalculate_named Math_pow page0) as (Hnamed & Hmode & _).
  destruct (recalculate_completion Math_pow page0) as (Hreturns & Hthrows).
  split; [rewrite Hmode; reflexivity|].
  split.
  { intros Hnull. destruct (Hreturns Hnull) as (-> & ->).
    split; [reflexivity | eexists; reflexivity]. }
  split; [exact Hthrows|].
  assert (Hread : forall m : string,
            getDownPaymentAmount m
              (State.dom (Page.state (Run.page (recalculate Math_pow page0))))
            = getDownPaymentAmount m (State.dom (Page.state page0))).
  { intros m. unfold getDownPaymentAmount, getInputValue.
    rewrite !Hnamed. reflexivity. }
  assert (Hinput : getInputValue
                     (State.dom
                        (Page.state (Run.page (recalculate Math_pow page0))))
                     (Named "downPayment")
                   = getInputValue (State.dom (Page.state page0))
                       (Named "downPayment")).
  { unfold getInputValue. rewrite Hnamed. reflexivity. }
  rewrite Hread, Hinput. unfold page0. cbn [Page.state State.dom].
  set (st := Page.state page) in *.
  assert (Hcurrent : getInputValue (State.dom st) (Named "downPayment") = value)
    by (unfold getInputValue; rewrite Hvalue; reflexivity).
  rewrite Hcurrent.
  set (offerPrice := getInputValue (State.dom st) (Named "offerPrice")).
  assert (Hprice : forall v : Q,
            getInputValue (Dom.set_input (State.dom st) (Named "downPayment") v)
              (Named "offerPrice") = offerPrice) by reflexivity.
  assert (Hset : forall v : Q,
            getInputValue (Dom.set_input (State.dom st) (Named "downPayment") v)
              (Named "downPayment") = v) by reflexivity.
  split; [|split; [|split]].
  - intros Hp Hv Hold ->. rewrite Hold. cbn [String.eqb Ascii.eqb Bool.eqb andb].
    assert (E1 : (offerPrice >? 0) = true) by (apply Qlt_bool_iff; exact Hp).
    assert (E2 : (value >? 0) = true) by (apply Qlt_bool_iff; exact Hv).
    rewrite E1, E2. cbn [andb].
    unfold getDownPaymentAmount.
    cbn [String.eqb Ascii.eqb Bool.eqb].
    rewrite Hprice, Hset, Hcurrent.
    assert (Hpercent : 0 <= value / offerPrice * 100).
    { apply Qmult_le_0_compat; [apply Qdiv_nonneg; lra | lra]. }
    destruct (toFixed1_tenth _ Hpercent) as (H0 & H1).
    set (t := toFixed1 (value / offerPrice * 100)) in *. clearbody t.
    assert (E : value / offerPrice * 100 / 100 * offerPrice == value)
      by (field; lra).
    assert (Hlow : (value / offerPrice * 100 - (1 # 10)) / 100 * offerPrice
                   <= t / 100 * offerPrice).
    { apply Qmult_le_compat_r; [|lra]. qdiv_literals. lra. }
    assert (Hhigh : t / 100 * offerPrice
                    <= (value / offerPrice * 100 + (1 # 10)) / 100 * offerPrice).
    { apply Qmult_le_compat_r; [|lra]. qdiv_literals. lra. }
    assert (E0 : (value / offerPrice * 100 - (1 # 10)) / 100 * offerPrice
                 == value / offerPrice * 100 / 100 * offerPrice
                    - offerPrice / 1000) by (field; lra).
    assert (E1' : (value / offerPrice * 100 + (1 # 10)) / 100 * offerPrice
                  == value / offerPrice * 100 / 100 * offerPrice
                     + offerPrice / 1000) by (field; lra).
    split; lra.
  - intros Hp Hv Hold ->. rewrite Hold. cbn [String.eqb Ascii.eqb Bool.eqb andb].
    assert (E1 : (offerPrice >? 0) = true) by (apply Qlt_bool_iff; exact Hp).
    assert (E2 : (value >? 0) = true) by (apply Qlt_bool_iff; exact Hv).
    rewrite E1, E2. cbn [andb].
    unfold getDownPaymentAmount.
    cbn [String.eqb Ascii.eqb Bool.eqb].
    rewrite Hset, Hcurrent. fold offerPrice.
    destruct (Math_round_close (value / 100 * offerPrice)) as (H0 & H1).
    split; [exact H0|]. split; [exact H1|].
    eexists. reflexivity.
  - intros ->.
    destruct (State.downPaymentMode st =? "amount")%string eqn:Ea.
    + apply String.eqb_eq in Ea. rewrite Ea.
      cbn [String.eqb Ascii.eqb Bool.eqb andb]. reflexivity.
    + destruct (String.eqb_spec (State.downPaymentMode st) "amount");
        [discriminate|].
      cbn [andb]. reflexivity.
  - intros Hedge.
    assert (E : (offerPrice >? 0) && (value >? 0) = false).
    { apply andb_false_iff.
      destruct Hedge; [left | right]; apply Qlt_bool_false; assumption. }
    destruct (mode =? "amount")%string;
      rewrite <- andb_assoc, E, andb_false_r; exact Hcurrent.
Qed.

(** X26. [suggestUpkeep] does nothing without a positive offer price, and
    with one it ends in a [TypeError] on a page without the upkeep field.
    With the field it sets the upkeep to [offerPrice * 0.01 / 12] rounded to
    a whole number, at most one half away from it.  The pass it runs then
    returns, with a monthly cost that counts that upkeep, unless a renovation
    was removed: then the call ends in the [TypeError] of the pass, with the
    upkeep set all the same. *)
Theorem suggestUpkeep_is_one_percent_a_year (page : Page.t) :
  let dom := State.dom (Page.state page) in
  let offerPrice := getInputValue dom (Named "offerPrice") in
  let suggested := offerPrice * 0.01 / 12 in
  let run := suggestUpkeep Math_pow page in
  (offerPrice <= 0 ->
   run = {| Run.page := page; Run.completion := Returns;
            Run.snapshot := None |})
  /\ (0 < offerPrice -> Dom.inputs dom (Named "upkeep") = None ->
      run = {| Run.page := page; Run.completion := TypeError;
               Run.snapshot := None |})
  /\ (0 < offerPrice -> is_Some (Dom.inputs dom (Named "upkeep")) ->
      let upkeep :=
        getInputValue (State.dom (Page.state (Run.page run)))
          (Named "upkeep") in
      (exists n : Z, upkeep = inject_Z n)
      /\ suggested - (1 # 2) <= upkeep
      /\ upkeep <= suggested + (1 # 2)
      /\ (~ In Null (Page.renovations page) ->
          Run.completion run = Returns
          /\ exists snapshot : Snapshot.t,
               Run.snapshot run = Some snapshot
               /\ Snapshot.totalMonthlyCosts snapshot
                  == Pass2.totalMonthlyLoanPayment (Snapshot.loans snapshot)
                     + getInputValue dom (Named "insurance")
                     + getInputValue dom (Named "electricity")
                     + upkeep
                     + getInputValue dom (Named "cityTaxes") / 12)
      /\ (In Null (Page.renovations page) ->
          Run.completion run = TypeError /\ Run.snapshot run = None)).
Proof.
  cbn zeta. unfold suggestUpkeep. cbn zeta. split; [|split].
  - intros Hprice.
    assert (E : (getInputValue (State.dom (Page.state page))
                   (Named "offerPrice") >? 0) = false)
      by (apply Qlt_bool_false; exact Hprice).
    rewrite E. reflexivity.
  - intros Hprice Hnone.
    assert (E : (getInputValue (State.dom (Page.state page))
                   (Named "offerPrice") >? 0) = true)
      by (apply Qlt_bool_iff; exact Hprice).
    rewrite E, Hnone. reflexivity.
  - intros Hprice [v Hfield].
    assert (E : (getInputValue (State.dom (Page.state page))
                   (Named "offerPrice") >? 0) = true)
      by (apply Qlt_bool_iff; exact Hprice).
    rewrite E, Hfield. cbn zeta.
    match goal with |- context [recalculate Math_pow ?p] =>
      set (page0 := p) end.
    destruct (recalculate_named Math_pow page0) as (Hnamed & _).
    destruct (recalculate_completion Math_pow page0) as (Hreturns & Hthrows).
    assert (Hupkeep : getInputValue
                        (State.dom
                           (Page.state
                              (Run.page (recalculate Math_pow page0))))
                        (Named "upkeep")
                      = Math_round
                          (getInputValue (State.dom (Page.state page))
                             (Named "offerPrice") * 0.01 / 12)).
    { unfold getInputValue at 1. rewrite Hnamed. reflexivity. }
    rewrite Hupkeep.
    destruct (Math_round_close
                (getInputValue (State.dom (Page.state page))
                   (Named "offerPrice") * 0.01 / 12)) as (H0 & H1).
    split; [eexists; reflexivity|].
    split; [exact H0|]. split; [exact H1|].
    split; [|exact Hthrows].
    intros Hnull. destruct (Hreturns Hnull) as (-> & ->).
    split; [reflexivity|]. eexists. split; [reflexivity|].
    reflexivity.
Qed.

End ModeFacts.

(** 60000 of 400000 is shown as 15 percent. *)
Lemma setDownPaymentMode_converts_within_rounding_witness :
  Run.completion
    (setDownPaymentMode (fun _ _ => 0) toFixed1_exact "percent"
       first_home_page) = Returns
  /\ getInputValue
       (State.dom
          (Page.state
             (Run.page
                (setDownPaymentMode (fun _ _ => 0) toFixed1_exact "percent"
                   first_home_page))))
       (Named "downPayment") == 15
  /\ 60000 - 400000 / 1000
     <= getDownPaymentAmount "percent"
          (State.dom
             (Page.state
                (Run.page
                   (setDownPaymentMode (fun _ _ => 0) toFixed1_exact
                      "percent" first_home_page))))
  /\ getDownPaymentAmount "percent"
       (State.dom
          (Page.state
             (Run.page
                (setDownPaymentMode (fun _ _ => 0) toFixed1_exact "percent"
                   first_home_page))))
     <= 60000 + 400000 / 1000.
Proof.
  destruct (setDownPaymentMode_converts_within_rounding (fun _ _ => 0)
              toFixed1_exact toFixed1_exact_close "percent" first_home_page)
    as (_ & H).
  destruct (H 60000 eq_refl) as (_ & Hreturns & _ & Hto & _).
  split; [apply Hreturns; intros []|].
  split; [vm_compute; reflexivity|].
  apply Hto; reflexivity.
Defined.

(** One percent of 400000 a year. *)
Lemma suggestUpkeep_is_one_percent_a_year_witness :
  Run.completion (suggestUpkeep (fun _ _ => 0) priced_home_page) = Returns
  /\ getInputValue
       (State.dom
          (Page.state (Run.page (suggestUpkeep (fun _ _ => 0) priced_home_page))))
       (Named "upkeep") == 333
  /\ 400000 * 0.01 / 12 - (1 # 2)
     <= getInputValue
          (State.dom
             (Page.state
                (Run.page (suggestUpkeep (fun _ _ => 0) priced_home_page))))
          (Named "upkeep").
Proof.
  destruct (suggestUpkeep_is_one_percent_a_year (fun _ _ => 0)
              priced_home_page) as (_ & _ & H).
  destruct H as (_ & Hlow & _ & Hreturns & _);
    [reflexivity | eexists; reflexivity |].
  split; [apply Hreturns; intros []|].
  split; [vm_compute; reflexivity | exact Hlow].
Defined.

(** ** The flags of the sources *)

Section FlagFacts.

Variable Math_pow : Q -> Q -> Q.

Lemma flags_fit_kept (l l' : list (option Source.t)) :
  Forall2 slot_kept l l' -> all_sources flags_fit l -> all_sources flags_fit l'.
Proof.
  intros Hkept Hall j s' Hj.
  destruct (Forall2_lookup_r _ _ _ _ _ Hkept Hj) as (x & Hx & Hxy).
  destruct x as [s|]; [|contradiction].
  destruct (Hall j s Hx) as (Hty & Hfill & Hauto).
  destruct Hxy as (_ & Efill & Eauto & Etype). specialize (Etype Hty).
  unfold flags_fit. rewrite Efill, Eauto, Etype. repeat split; assumption.
Qed.

(** X27. The flags of the sources fit their types on the page as it starts,
    and they keep fitting: after [addFinancingSource] with a type, and with
    the auto-fill flag for a mortgage only, after a recalculation pass, and
    after [removeFinancingSource].  In particular every auto-fill source is
    of type 'mortgage' throughout. *)
Theorem financing_flags_stay_fit :
  all_sources flags_fit default_sources.1
  /\ (forall (sd : list (option Source.t) * Dom.t)
             (defaultName sourceType : string)
             (isAutoFillMortgage isAutoCalculated : bool),
        all_sources flags_fit sd.1 ->
        sourceType <> EmptyString ->
        (isAutoFillMortgage = true -> sourceType = "mortgage"%string) ->
        all_sources flags_fit
          (addFinancingSource defaultName sourceType isAutoFillMortgage
             isAutoCalculated sd).1)
  /\ (forall (types : Types.t) (st : State.t),
        all_sources flags_fit (State.financingSources st) ->
        all_sources flags_fit
          (State.financingSources (calculate Math_pow types st).1))
  /\ (forall (index : nat) (st : State.t),
        all_sources flags_fit (State.financingSources st) ->
        all_sources flags_fit
          (State.financingSources (removeFinancingSource Math_pow index st).1))
  /\ (forall sources : list (option Source.t),
        all_sources flags_fit sources ->
        all_sources (fun s => Source.isAutoFillMortgage s = true ->
                              Source.sourceType s = "mortgage"%string)
          sources).
Proof.
  split; [|split; [|split; [|split]]].
  - intros j s Hj.
    do 6 (destruct j as [|j];
          [cbn in Hj; injection Hj as <-; unfold flags_fit; cbn;
           repeat split; intros; try discriminate; congruence|]).
    discriminate Hj.
  - intros sd defaultName sourceType isAutoFillMortgage isAutoCalculated
      Hall Hty Hfill j s Hj.
    unfold addFinancingSource in Hj. cbn [fst] in Hj.
    apply lookup_app_Some in Hj as [Hj|(_ & Hj)]; [apply (Hall j s Hj)|].
    destruct (j - length sd.1)%nat; [|discriminate].
    cbn in Hj. injection Hj as <-. unfold flags_fit.
    cbn [Source.sourceType Source.isAutoFillMortgage Source.isAutoCalculated].
    split; [exact Hty|]. split; [exact Hfill|].
    intros ->. cbn. apply orb_true_r.
  - intros types st. apply flags_fit_kept, calculate_sources_kept.
  - intros index st Hall. unfold removeFinancingSource.
    eapply flags_fit_kept; [apply calculate_sources_kept|].
    cbn [State.financingSources].
    intros j s Hj.
    destruct (decide (j = index)) as [->|Hne];
      [rewrite assign_null_at in Hj; discriminate|].
    destruct (le_lt_dec (length (State.financingSources st)) j) as [Hge|Hlt].
    + unfold assign_null in Hj.
      assert (E : (index <? length (State.financingSources st))%nat = false).
      { apply Nat.ltb_ge.
        assert (Hj' : (j < length (assign_null index
                                     (State.financingSources st)))%nat).
        { apply lookup_lt_is_Some. unfold assign_null. eauto. }
        rewrite assign_null_length in Hj'. lia. }
      rewrite E in Hj. rewrite lookup_app_r in Hj by exact Hge.
      apply lookup_app_Some in Hj as [Hj|(_ & Hj)].
      * apply lookup_replicate in Hj as (Hj & _). discriminate.
      * destruct (_ - _ - _)%nat; [discriminate Hj|discriminate Hj].
    + rewrite (assign_null_other index j _ Hne Hlt) in Hj. apply (Hall j s Hj).
  - intros sources Hall j s Hj. apply (Hall j s Hj).
Qed.

End FlagFacts.

(** The default page after a recalculation pass. *)
Lemma financing_flags_stay_fit_witness :
  all_sources flags_fit
    (State.financingSources
       (calculate (fun _ _ => 0) FINANCING_TYPES first_home).1).
Proof.
  destruct (financing_flags_stay_fit (fun _ _ => 0)) as (Hstart & _ & Hcalc & _).
  apply Hcalc. exact Hstart.
Defined.

(** Turning the TFSA of the default page into a loan of the parents. *)
Lemma changeFinancingType_sets_flags_witness :
  exists source' : Source.t,
    changeFinancingType 3 (default_sources.1,
                           Dom.set_select default_sources.2
                             (Indexed "financing-type" 3) "parents_loan")
    = ((<[ 3%nat := Some source' ]> default_sources.1,
        Dom.set_select default_sources.2
          (Indexed "financing-type" 3) "parents_loan"), Returns)
    /\ Source.isAutoCalculated source' = true.
Proof.
  destruct (changeFinancingType_sets_flags 3 default_sources.1
              (Dom.set_select default_sources.2
                 (Indexed "financing-type" 3) "parents_loan")
              {| Source.name := "TFSA"; Source.sourceType := "tfsa";
                 Source.amount := 0; Source.rate := 0; Source.termMonths := 0;
                 Source.isAutoFillMortgage := false;
                 Source.isAutoCalculated := false;
                 Source.monthlyPayment := None;
                 Source.interestPortion := None;
                 Source.principalPortion := None |}
              "parents_loan" eq_refl eq_refl)
    as (source' & Hcall & _ & _ & _ & _ & Hauto & _);
    [eexists; reflexivity|].
  exists source'. split; [exact Hcall | apply Hauto; reflexivity].
Defined.

(** Of the two members one is left. *)
Lemma removeOwner_keeps_a_member_witness :
  members (State.owners (removeOwner (fun _ _ => 0) 0 two_members).1) = 1%nat
  /\ (1 <= members (State.owners two_members))%nat.
Proof.
  destruct (removeOwner_keeps_a_member (fun _ _ => 0) 0 two_members)
    as (_ & Hkeep & Hcount & _).
  split; [rewrite Hcount; reflexivity | cbn; lia].
Defined.

(** Removing the CELIAPP of the default page leaves the RRSP in slot 2. *)
Lemma removeFinancingSource_keeps_indices_witness :
  exists source' : Source.t,
    State.financingSources (removeFinancingSource (fun _ _ => 0) 1 first_home).1
    !! 2%nat = Some (Some source')
    /\ Source.name source' = "RRSP"%string.
Proof.
  destruct (removeFinancingSource_keeps_indices (fun _ _ => 0) 1 first_home)
    as (_ & _ & Hkept & _).
  destruct (Hkept 2%nat
              {| Source.name := "RRSP"; Source.sourceType := "rrsp";
                 Source.amount := 0; Source.rate := 0; Source.termMonths := 0;
                 Source.isAutoFillMortgage := false;
                 Source.isAutoCalculated := false;
                 Source.monthlyPayment := None;
                 Source.interestPortion := None;
                 Source.principalPortion := None |})
    as (source' & Hlookup & Hname & _); [lia | reflexivity |].
  exists source'. split; [exact Hlookup | exact Hname].
Defined.

(** One renovation of 12000 on an empty page. *)
Lemma removeRenovation_ends_in_TypeError_witness :
  exists total : Q,
    totalOneTime Dom.empty (addRenovation "Roof" (Some 12000) []) = Some total
    /\ total == 12000.
Proof.
  destruct (removeRenovation_ends_in_TypeError 0 Dom.empty
              (addRenovation "Roof" (Some 12000) [])) as (_ & _ & _ & H).
  destruct H as (total & Htotal & Hsum).
  - intros [H|[]]. discriminate H.
  - exists total. split; [exact Htotal|]. rewrite Hsum. vm_compute. reflexivity.
Defined.

(** ** Adding a member *)

Lemma owners_pass_agree (d1 d2 : Dom.t) (owners : list (option Owner.t)) :
  forall (index : nat) (acc : OwnersAcc.t),
    (forall (prefix : string) (j : nat),
        (index <= j < index + length owners)%nat ->
        In prefix ["owner-income"; "owner-car"; "owner-student";
                   "owner-personal"; "owner-credit"]%string ->
        Dom.inputs d1 (Indexed prefix j) = Dom.inputs d2 (Indexed prefix j)) ->
    owners_pass d1 index owners acc = owners_pass d2 index owners acc.
Proof.
  induction owners as [|[owner|] rest IH]; intros index acc Hagree;
    cbn [owners_pass]; [reflexivity| |].
  - assert (E : owners_member d1 index owner acc
                = owners_member d2 index owner acc).
    { unfold owners_member, getInputValue.
      rewrite !(Hagree _ index) by (cbn [length In]; first [lia | tauto]).
      reflexivity. }
    rewrite E, IH; [reflexivity|].
    intros prefix j Hj. apply Hagree. cbn [length]. lia.
  - rewrite IH; [reflexivity|].
    intros prefix j Hj. apply Hagree. cbn [length]. lia.
Qed.

Lemma owners_pass_app (dom : Dom.t) (l1 l2 : list (option Owner.t)) :
  forall (index : nat) (acc : OwnersAcc.t),
    owners_pass dom index (l1 ++ l2) acc
    = let r1 := owners_pass dom index l1 acc in
      let r2 := owners_pass dom (index + length l1) l2 r1.2 in
      (r1.1 ++ r2.1, r2.2).
Proof.
  induction l1 as [|[owner|] rest IH]; intros index acc;
    cbn [app owners_pass length fst snd].
  - rewrite Nat.add_0_r. destruct (owners_pass dom index l2 acc); reflexivity.
  - rewrite IH. cbn zeta. cbn [fst snd].
    replace (S index + length rest)%nat with (index + S (length rest))%nat
      by lia.
    reflexivity.
  - rewrite IH. cbn zeta. cbn [fst snd].
    replace (S index + length rest)%nat with (index + S (length rest))%nat
      by lia.
    reflexivity.
Qed.

(** The household figures of a pass are those of the page before it: the
    pass writes to no field of a member. *)
Lemma calculate_owners (Math_pow : Q -> Q -> Q) (types : Types.t)
  (st : State.t) :
  let own := owners_pass (State.dom st) 0 (State.owners st) OwnersAcc_start in
  State.owners (calculate Math_pow types st).1 = own.1
  /\ Snapshot.totalGrossIncome (calculate Math_pow types st).2
     = OwnersAcc.totalGrossIncome own.2
  /\ Snapshot.totalOtherDebtPayments (calculate Math_pow types st).2
     = OwnersAcc.totalOtherDebtPayments own.2
  /\ Snapshot.ownerData (calculate Math_pow types st).2
     = OwnersAcc.ownerData own.2.
Proof.
  cbn zeta.
  destruct (calculate_dom_kept Math_pow types st) as (Hkept & _).
  unfold calculate in *.
  cbn [fst snd State.owners State.dom Snapshot.totalGrossIncome
         Snapshot.totalOtherDebtPayments Snapshot.ownerData] in *.
  set (downPayment := getDownPaymentAmount _ _) in *.
  set (sd0 := updateBankMortgageAmount _ _) in *.
  set (fin := financing Math_pow types downPayment sd0) in *.
  rewrite (owners_pass_agree fin.1.2 (State.dom st));
    [repeat split; reflexivity|].
  intros prefix j _ Hprefix. apply Hkept. intros i [= -> _].
  cbn in Hprefix. intuition discriminate.
Qed.

(** X28. After [addOwner] a recalculation pass lists the members it listed
    before and, after them, the new member: under the index of the new slot,
    under the given name or, without one, 'Person n' where n counts the slots
    of the list, the [null] ones included, and with the saved figures; the
    household income and the debt payments grow by exactly the saved
    figures. *)
Theorem addOwner_adds_a_member (Math_pow : Q -> Q -> Q) (types : Types.t)
  (st : State.t) (defaultName : string) (savedData : option Owner.t) :
  let od := addOwner defaultName savedData (State.owners st, State.dom st) in
  let st1 :=
    {| State.financingSources := State.financingSources st;
       State.owners := od.1;
       State.downPaymentMode := State.downPaymentMode st;
       State.dom := od.2 |} in
  let saved (field : Owner.t -> Q) : Q :=
    match savedData with Some o => field o | None => 0 end in
  let debts :=
    saved Owner.carLoanPayment + saved Owner.studentLoanPayment
    + saved Owner.personalLoanPayment + saved Owner.creditCardPayment in
  Snapshot.ownerData (calculate Math_pow types st1).2
  = Snapshot.ownerData (calculate Math_pow types st).2
    ++ [ {| OwnerData.index := length (State.owners st);
            OwnerData.name :=
              if (defaultName =? EmptyString)%string
              then ("Person "
                    +:+ pretty (length (State.owners st) + 1)%nat)%string
              else defaultName;
            OwnerData.income := saved Owner.income;
            OwnerData.totalDebts := debts;
            OwnerData.carLoan := saved Owner.carLoanPayment;
            OwnerData.studentLoan := saved Owner.studentLoanPayment;
            OwnerData.personalLoan := saved Owner.personalLoanPayment;
            OwnerData.creditCard := saved Owner.creditCardPayment |} ]
  /\ Snapshot.totalGrossIncome (calculate Math_pow types st1).2
     = Snapshot.totalGrossIncome (calculate Math_pow types st).2
       + saved Owner.income
  /\ Snapshot.totalOtherDebtPayments (calculate Math_pow types st1).2
     = Snapshot.totalOtherDebtPayments (calculate Math_pow types st).2 + debts.
Proof.
  cbn zeta.
  set (od := addOwner defaultName savedData (State.owners st, State.dom st)).
  set (st1 := {| State.financingSources := State.financingSources st;
                 State.owners := od.1;
                 State.downPaymentMode := State.downPaymentMode st;
                 State.dom := od.2 |}).
  destruct (calculate_owners Math_pow types st) as (_ & -> & -> & ->).
  destruct (calculate_owners Math_pow types st1) as (_ & -> & -> & ->).
  cbn [st1 State.owners State.dom].
  unfold od, addOwner. cbn [fst snd].
  rewrite owners_pass_app. cbn zeta. cbn [fst snd].
  match goal with |- context [owners_pass ?d 0 (State.owners st) _] =>
    set (dom1 := d) end.
  rewrite (owners_pass_agree dom1 (State.dom st) (State.owners st)).
  2:{ intros prefix j Hj Hprefix. unfold dom1, Dom.set_input.
      cbn [Dom.inputs].
      rewrite !decide_False by (intros [= _ ->]; lia). reflexivity. }
  cbn [owners_pass Nat.add snd]. unfold owners_member.
  cbn [snd OwnersAcc.ownerData OwnersAcc.totalGrossIncome
         OwnersAcc.totalOtherDebtPayments Owner.name].
  assert (Hfield : forall prefix : string,
            In prefix ["owner-income"; "owner-car"; "owner-student";
                       "owner-personal"; "owner-credit"]%string ->
            getInputValue dom1 (Indexed prefix (length (State.owners st)))
            = default 0
                (Dom.inputs dom1 (Indexed prefix (length (State.owners st)))))
    by (intros prefix _; unfold getInputValue;
        destruct (Dom.inputs dom1 _); reflexivity).
  rewrite !Hfield by (cbn; tauto). unfold dom1, Dom.set_input.
  cbn [Dom.inputs].
  repeat first [rewrite decide_True by reflexivity
               | rewrite decide_False by discriminate].
  cbn [default]. repeat split.
Qed.

(** ** Saving and loading *)



Lemma loaded_same (dom : Dom.t) (id : string) (v : Q) :
  Dom.inputs (loaded dom id v) (Named id)
  = if Qeq_bool v 0 then Dom.inputs dom (Named id) else Some v.
Proof.
  unfold loaded. destruct (Qeq_bool v 0); [reflexivity|].
  cbn. rewrite decide_True by reflexivity. reflexivity.
Qed.



Lemma loaded_value (dom : Dom.t) (id : string) (v : Q) :
  Dom.inputs dom (Named id) = Some 0 ->
  default 0 (Dom.inputs (loaded dom id v) (Named id)) == v.
Proof.
  intros H0. rewrite loaded_same, H0.
  destruct (Qeq_bool v 0) eqn:E; cbn [default]; [|reflexivity].
  apply Qeq_bool_iff in E. rewrite E. reflexivity.
Qed.










Section Loading.

Variables (data : Saved.t) (dom : Dom.t).
Hypothesis fields_empty :
  forall id : string, In id static_fields -> Dom.inputs dom (Named id) = Some 0.
Hypothesis not_checked : Dom.checked dom (Named "is30Year") = Some false.






End Loading.



(** ** Recalculating twice *)

Lemma source_eq (a b : Source.t) :
  source_core a = source_core b -> source_loan a = source_loan b -> a = b.
Proof.
  destruct a, b. unfold source_core, source_loan. cbn.
  intros [= -> -> -> -> ->] [= -> -> -> -> ->]. reflexivity.
Qed.

Lemma slots_map_ext (f g : nat -> Source.t -> Source.t)
  (l : list (option Source.t)) :
  forall index : nat,
    (forall (k : nat) (a : Source.t),
        l !! k = Some (Some a) -> f (index + k)%nat a = g (index + k)%nat a) ->
    slots_map f index l = slots_map g index l.
Proof.
  induction l as [|x l IH]; intros index H; cbn [slots_map]; [reflexivity|].
  f_equal.
  - destruct x as [a|]; [|reflexivity]. cbn.
    specialize (H 0%nat a eq_refl). rewrite Nat.add_0_r in H.
    rewrite H. reflexivity.
  - apply IH. intros k a Hk. specialize (H (S k) a Hk).
    rewrite Nat.add_succ_r in H. exact H.
Qed.

Lemma slots_map_id (l : list (option Source.t)) :
  forall index : nat, slots_map (fun _ a => a) index l = l.
Proof.
  induction l as [|x l IH]; intros index; cbn [slots_map]; [reflexivity|].
  rewrite IH. destruct x; reflexivity.
Qed.

Lemma slots_map_compose (f g : nat -> Source.t -> Source.t)
  (l : list (option Source.t)) :
  forall index : nat,
    slots_map g index (slots_map f index l)
    = slots_map (fun i a => g i (f i a)) index l.
Proof.
  induction l as [|x l IH]; intros index; cbn [slots_map]; [reflexivity|].
  rewrite IH. destruct x; reflexivity.
Qed.

Lemma lookup_slots_map (f : nat -> Source.t -> Source.t)
  (l : list (option Source.t)) :
  forall (index k : nat),
    slots_map f index l !! k = fmap (f (index + k)%nat) <$> (l !! k).
Proof.
  induction l as [|x l IH]; intros index k; cbn [slots_map]; [reflexivity|].
  destruct k as [|k]; cbn.
  - rewrite Nat.add_0_r. reflexivity.
  - rewrite IH, Nat.add_succ_r. reflexivity.
Qed.

Lemma findIndex_slots_map (p : option Source.t -> bool)
  (f g : nat -> Source.t -> Source.t) (l : list (option Source.t)) :
  forall index : nat,
    (forall (k : nat) (a : Source.t),
        l !! k = Some (Some a) ->
        p (Some (f (index + k)%nat a)) = p (Some (g (index + k)%nat a))) ->
    findIndex p (slots_map f index l) = findIndex p (slots_map g index l).
Proof.
  induction l as [|x l IH]; intros index H; cbn [slots_map findIndex];
    [reflexivity|].
  assert (E : p (f index <$> x) = p (g index <$> x)).
  { destruct x as [a|]; [|reflexivity]. cbn.
    specialize (H 0%nat a eq_refl). rewrite Nat.add_0_r in H. exact H. }
  rewrite E. destruct (p (g index <$> x)); [reflexivity|].
  rewrite (IH (S index)); [reflexivity|].
  intros k a Hk. specialize (H (S k) a Hk).
  rewrite Nat.add_succ_r in H. exact H.
Qed.

Lemma alter_slots_map (f : Source.t -> Source.t) (l : list (option Source.t)) :
  forall (index k : nat),
    alter (fmap f) k l
    = slots_map (fun i a => if decide (i = (index + k)%nat) then f a else a)
        index l.
Proof.
  induction l as [|x l IH]; intros index k; [reflexivity|].
  destruct k as [|k]; cbn [alter list_alter slots_map].
  - f_equal.
    + destruct x as [a|]; [|reflexivity]. cbn.
      rewrite decide_True by lia. reflexivity.
    + rewrite <- (slots_map_id l (S index)) at 1.
      apply slots_map_ext. intros k a _.
      rewrite decide_False by lia. reflexivity.
  - f_equal.
    + destruct x as [a|]; [|reflexivity]. cbn.
      rewrite decide_False by lia. reflexivity.
    + rewrite (IH (S index) k). apply slots_map_ext. intros j a _.
      destruct (decide ((S index + j)%nat = (S index + k)%nat));
        destruct (decide ((S index + j)%nat = (index + S k)%nat));
        first [reflexivity | lia].
Qed.

Lemma first_pass_fst (types : Types.t) (dom : Dom.t)
  (l : list (option Source.t)) :
  forall (index : nat) (acc : Pass1.t),
    (first_pass types dom index l acc).1
    = slots_map (first_source types dom) index l.
Proof.
  induction l as [|[a|] l IH]; intros index acc;
    cbn [first_pass slots_map fst snd fmap option_fmap option_map];
    [reflexivity| |].
  - rewrite IH. unfold first_source. rewrite !first_pass_source_fst.
    reflexivity.
  - rewrite IH. reflexivity.
Qed.

Lemma second_pass_source_fst (Math_pow : Q -> Q -> Q) (types : Types.t)
  (dom : Dom.t) (index : nat) (source : Source.t) (acc : Pass2.t) :
  (second_pass_source Math_pow types dom index source acc).1
  = second_source Math_pow types dom index source.
Proof.
  unfold second_source, second_pass_source.
  destruct (Types.get types (Source.sourceType source)) as [config|];
    [|reflexivity].
  repeat match goal with
         | |- context [if ?c then _ else _] => destruct c
         end; reflexivity.
Qed.

Lemma second_pass_fst (Math_pow : Q -> Q -> Q) (types : Types.t)
  (dom : Dom.t) (l : list (option Source.t)) :
  forall (index : nat) (acc : Pass2.t),
    (second_pass Math_pow types dom index l acc).1
    = slots_map (second_source Math_pow types dom) index l.
Proof.
  induction l as [|[a|] l IH]; intros index acc;
    cbn [second_pass slots_map fst snd fmap option_fmap option_map];
    [reflexivity| |].
  - rewrite IH, second_pass_source_fst. reflexivity.
  - rewrite IH. reflexivity.
Qed.

(** The accumulators of the two passes depend on the slots through what the
    step of a slot adds. *)
Lemma first_pass_snd (types : Types.t) (d d' : Dom.t)
  (f g : nat -> Source.t -> Source.t) (l : list (option Source.t)) :
  forall (index : nat) (acc : Pass1.t),
    (forall (k : nat) (a : Source.t) (acc : Pass1.t),
        l !! k = Some (Some a) ->
        (first_pass_source types d' (index + k) (g (index + k)%nat a) acc).2
        = (first_pass_source types d (index + k) (f (index + k)%nat a) acc).2) ->
    (first_pass types d' index (slots_map g index l) acc).2
    = (first_pass types d index (slots_map f index l) acc).2.
Proof.
  induction l as [|[a|] l IH]; intros index acc H;
    cbn [first_pass slots_map fst snd fmap option_fmap option_map];
    [reflexivity| |].
  - pose proof (H 0%nat a acc eq_refl) as H0. rewrite Nat.add_0_r in H0.
    rewrite H0. apply IH. intros k b acc' Hk.
    specialize (H (S k) b acc' Hk). rewrite Nat.add_succ_r in H. exact H.
  - apply IH. intros k b acc' Hk.
    specialize (H (S k) b acc' Hk). rewrite Nat.add_succ_r in H. exact H.
Qed.

Lemma second_pass_snd (Math_pow : Q -> Q -> Q) (types : Types.t)
  (d d' : Dom.t) (f g : nat -> Source.t -> Source.t)
  (l : list (option Source.t)) :
  forall (index : nat) (acc : Pass2.t),
    (forall (k : nat) (a : Source.t) (acc : Pass2.t),
        l !! k = Some (Some a) ->
        (second_pass_source Math_pow types d' (index + k)
           (g (index + k)%nat a) acc).2
        = (second_pass_source Math_pow types d (index + k)
             (f (index + k)%nat a) acc).2) ->
    (second_pass Math_pow types d' index (slots_map g index l) acc).2
    = (second_pass Math_pow types d index (slots_map f index l) acc).2.
Proof.
  induction l as [|[a|] l IH]; intros index acc H;
    cbn [second_pass slots_map fst snd fmap option_fmap option_map];
    [reflexivity| |].
  - pose proof (H 0%nat a acc eq_refl) as H0. rewrite Nat.add_0_r in H0.
    rewrite H0. apply IH. intros k b acc' Hk.
    specialize (H (S k) b acc' Hk). rewrite Nat.add_succ_r in H. exact H.
  - apply IH. intros k b acc' Hk.
    specialize (H (S k) b acc' Hk). rewrite Nat.add_succ_r in H. exact H.
Qed.

(** The two writes of a pass, by the slot they write to. *)
Lemma updateBankMortgageAmount_written (totalMortgage : Q)
  (sd : list (option Source.t) * Dom.t) :
  updateBankMortgageAmount totalMortgage sd
  = match written is_auto_fill_slot sd with
    | Some i =>
        write_amount i (positive_part totalMortgage)
          (Math_round (positive_part totalMortgage)) sd
    | None => sd
    end.
Proof.
  unfold updateBankMortgageAmount, written, positive_part.
  destruct (findIndex is_auto_fill_slot sd.1) as [i|]; [|reflexivity].
  destruct (Dom.inputs sd.2 _); [|reflexivity].
  destruct (totalMortgage >? 0); reflexivity.
Qed.

Lemma updateParentsLoanAmount_written (gapAmount : Q)
  (sd : list (option Source.t) * Dom.t) :
  updateParentsLoanAmount gapAmount sd
  = match written is_gap_slot sd with
    | Some i =>
        write_amount i (positive_part gapAmount)
          (Math_round (positive_part gapAmount)) sd
    | None => sd
    end.
Proof.
  unfold updateParentsLoanAmount, written, positive_part.
  destruct (findIndex is_gap_slot sd.1) as [i|]; [|reflexivity].
  destruct (Dom.inputs sd.2 _); [|reflexivity].
  destruct (gapAmount >? 0); reflexivity.
Qed.

Lemma written_slots (w : option nat) (v shown : Q)
  (sd : list (option Source.t) * Dom.t) :
  match w with Some i => write_amount i v shown sd | None => sd end.1
  = slots_map (write_slot w v) 0 sd.1.
Proof.
  destruct w as [i|]; cbn [fst].
  - unfold write_amount. cbn [fst]. rewrite (alter_slots_map _ _ 0 i).
    apply slots_map_ext. intros k a _. unfold write_slot. cbn [Nat.add].
    destruct (decide (k = i)); destruct (decide (Some i = Some k));
      first [reflexivity | congruence].
  - rewrite <- (slots_map_id sd.1 0) at 1. apply slots_map_ext.
    intros k a _. unfold write_slot. rewrite decide_False by discriminate.
    reflexivity.
Qed.

Lemma written_inputs (w : option nat) (v shown : Q)
  (sd : list (option Source.t) * Dom.t) (id : ElementId) :
  Dom.inputs
    match w with Some i => write_amount i v shown sd | None => sd end.2 id
  = if decide (Indexed "financing-amount" <$> w = Some id) then Some shown
    else Dom.inputs sd.2 id.
Proof.
  destruct w as [i|]; cbn [snd fmap option_fmap option_map].
  - unfold write_amount. cbn [snd Dom.set_input Dom.inputs].
    destruct (decide (id = Indexed "financing-amount" i));
      destruct (decide (Some (Indexed "financing-amount" i) = Some id));
      first [reflexivity | congruence].
  - rewrite decide_False by discriminate. reflexivity.
Qed.

Lemma written_rest (w : option nat) (v shown : Q)
  (sd : list (option Source.t) * Dom.t) :
  let sd' := match w with Some i => write_amount i v shown sd | None => sd end in
  Dom.selects sd'.2 = Dom.selects sd.2
  /\ Dom.checked sd'.2 = Dom.checked sd.2
  /\ Dom.perPersonRatios sd'.2 = Dom.perPersonRatios sd.2.
Proof. destruct w; cbn; auto. Qed.

(** The fields of a source the steps of a pass keep or set. *)
Lemma first_source_eq (types : Types.t) (dom : Dom.t) (index : nat)
  (source : Source.t) :
  first_source types dom index source
  = Source.set_sourceType (resolved_type dom index source)
      (Source.set_amount
         (resolved_amount dom index source
            (Types.get types (resolved_type dom index source))) source).
Proof. apply first_pass_source_fst. Qed.

Lemma second_source_core (Math_pow : Q -> Q -> Q) (types : Types.t)
  (dom : Dom.t) (index : nat) (source : Source.t) :
  source_core (second_source Math_pow types dom index source)
  = source_core source.
Proof.
  unfold second_source, second_pass_source.
  destruct (Types.get types (Source.sourceType source)) as [config|];
    [|reflexivity].
  repeat match goal with
         | |- context [if ?c then _ else _] => destruct c
         end; reflexivity.
Qed.

Lemma write_slot_core (w : option nat) (v : Q) (i : nat) (a b : Source.t) :
  source_core a = source_core b ->
  source_core (write_slot w v i a) = source_core (write_slot w v i b).
Proof.
  destruct a, b. unfold write_slot, source_core. cbn.
  intros [= -> -> -> -> ->]. destruct (decide (w = Some i)); reflexivity.
Qed.

Lemma write_slot_loan (w : option nat) (v : Q) (i : nat) (a : Source.t) :
  source_loan (write_slot w v i a) = source_loan a.
Proof. unfold write_slot. destruct (decide (w = Some i)); reflexivity. Qed.

Lemma resolved_type_settled (d d' : Dom.t) (i : nat) (a b : Source.t) :
  Dom.selects d' = Dom.selects d ->
  Source.sourceType b = resolved_type d i a ->
  resolved_type d' i b = resolved_type d i a.
Proof.
  intros Hsel Hb. unfold resolved_type at 1. rewrite Hb.
  destruct (String.eqb_spec (resolved_type d i a) EmptyString) as [E|E];
    [|reflexivity].
  rewrite Hsel. unfold resolved_type in *.
  destruct (String.eqb_spec (Source.sourceType a) EmptyString);
    [reflexivity | contradiction].
Qed.

(** The first pass reads of a slot, the second time, what it read the first
    time. *)
Lemma settle_first (types : Types.t) (d1 d5 : Dom.t) (wm wg : option nat)
  (vm vg : Q) (i : nat) (a0 a4 : Source.t) :
  let a1 := write_slot wm vm i a0 in
  let a2 := first_source types d1 i a1 in
  let b5 := write_slot wm vm i a4 in
  Dom.selects d5 = Dom.selects d1 ->
  source_core a4 = source_core (write_slot wg vg i a2) ->
  (wg = Some i ->
   from_option TypeConfig.isAutoCalculated false
     (Types.get types (Source.sourceType a2)) = true) ->
  (wm = Some i \/ wg <> Some i ->
   Dom.inputs d5 (Indexed "financing-amount" i)
   = Dom.inputs d1 (Indexed "financing-amount" i)) ->
  resolved_type d5 i b5 = resolved_type d1 i a1
  /\ resolved_amount d5 i b5 (Types.get types (resolved_type d1 i a1))
     = resolved_amount d1 i a1 (Types.get types (resolved_type d1 i a1)).
Proof.
  intros a1 a2 b5 Hsel Hcore Hgap Hdom.
  assert (Ha2 : a2 = Source.set_sourceType (resolved_type d1 i a1)
                       (Source.set_amount
                          (resolved_amount d1 i a1
                             (Types.get types (resolved_type d1 i a1))) a1))
    by apply first_source_eq.
  assert (Hty2 : Source.sourceType a2 = resolved_type d1 i a1)
    by (rewrite Ha2; reflexivity).
  assert (Hamt2 : Source.amount a2
                  = resolved_amount d1 i a1
                      (Types.get types (resolved_type d1 i a1)))
    by (rewrite Ha2; reflexivity).
  assert (Hfill2 : Source.isAutoFillMortgage a2 = Source.isAutoFillMortgage a1)
    by (rewrite Ha2; reflexivity).
  assert (Hfill1 : Source.isAutoFillMortgage a1 = Source.isAutoFillMortgage a0).
  { unfold a1, write_slot. destruct (decide (wm = Some i)); reflexivity. }
  assert (Hty4 : Source.sourceType a4 = resolved_type d1 i a1).
  { rewrite <- Hty2. unfold source_core in Hcore.
    injection Hcore as _ Hty _ _ _. rewrite Hty. unfold write_slot.
    destruct (decide (wg = Some i)); reflexivity. }
  assert (Hfill4 : Source.isAutoFillMortgage a4 = Source.isAutoFillMortgage a1).
  { rewrite <- Hfill2. unfold source_core in Hcore.
    injection Hcore as _ _ _ Hfill _. rewrite Hfill. unfold write_slot.
    destruct (decide (wg = Some i)); reflexivity. }
  assert (Hamt4 : wg <> Some i -> Source.amount a4 = Source.amount a2).
  { intros Hne. unfold source_core in Hcore.
    injection Hcore as _ _ Hamt _ _. rewrite Hamt. unfold write_slot.
    rewrite decide_False by exact Hne. reflexivity. }
  assert (Hty5 : Source.sourceType b5 = resolved_type d1 i a1).
  { rewrite <- Hty4. unfold b5, write_slot.
    destruct (decide (wm = Some i)); reflexivity. }
  assert (Hfill5 : Source.isAutoFillMortgage b5 = Source.isAutoFillMortgage a1).
  { rewrite <- Hfill4. unfold b5, write_slot.
    destruct (decide (wm = Some i)); reflexivity. }
  split; [apply resolved_type_settled; assumption|].
  rewrite Hty2 in Hgap. unfold resolved_amount in *.
  destruct (from_option TypeConfig.isAutoCalculated false
              (Types.get types (resolved_type d1 i a1))) eqn:Hauto;
    [reflexivity|].
  assert (Hnot : wg <> Some i) by (intros E; specialize (Hgap E); discriminate).
  rewrite Hfill5.
  destruct (Source.isAutoFillMortgage a1) eqn:Hfill.
  - unfold b5, a1, write_slot. destruct (decide (wm = Some i)); [reflexivity|].
    rewrite (Hamt4 Hnot), Hamt2.
    unfold a1, write_slot. rewrite decide_False by assumption. reflexivity.
  - unfold getInputValue. rewrite Hdom by (right; exact Hnot). reflexivity.
Qed.

Lemma first_pass_source_snd (types : Types.t) (d d' : Dom.t) (i : nat)
  (a b : Source.t) (acc : Pass1.t) :
  resolved_type d' i b = resolved_type d i a ->
  resolved_amount d' i b (Types.get types (resolved_type d i a))
  = resolved_amount d i a (Types.get types (resolved_type d i a)) ->
  (first_pass_source types d' i b acc).2
  = (first_pass_source types d i a acc).2.
Proof.
  intros Hty Hamt. unfold first_pass_source. cbn zeta. rewrite Hty, Hamt.
  destruct (Types.get types (resolved_type d i a)) as [config|];
    [|reflexivity].
  match goal with |- context [if ?c then _ else _] => destruct c end;
    reflexivity.
Qed.

(** The second pass, on a source with the same name, type, amount and flags
    and with the figures the second pass gave it, gives the same source. *)
Lemma second_source_settled (Math_pow : Q -> Q -> Q) (types : Types.t)
  (d d' : Dom.t) (i : nat) (a b : Source.t) :
  Dom.inputs d' (Indexed "financing-rate" i)
  = Dom.inputs d (Indexed "financing-rate" i) ->
  Dom.inputs d' (Indexed "financing-term" i)
  = Dom.inputs d (Indexed "financing-term" i) ->
  source_core b = source_core a ->
  source_loan b = source_loan (second_source Math_pow types d i a) ->
  second_source Math_pow types d' i b = second_source Math_pow types d i a
  /\ forall acc : Pass2.t,
       (second_pass_source Math_pow types d' i b acc).2
       = (second_pass_source Math_pow types d i a acc).2.
Proof.
  intros Hrate Hterm Hcore Hloan.
  destruct a as [n ty amt r t fill auto mp ip pp].
  destruct b as [n' ty' amt' r' t' fill' auto' mp' ip' pp'].
  unfold source_core in Hcore. cbn in Hcore.
  injection Hcore as -> -> -> -> ->.
  unfold second_source, second_pass_source, getInputValue in *.
  cbn [Source.sourceType Source.amount Source.name] in *.
  rewrite Hrate, Hterm.
  destruct (Types.get types ty) as [config|].
  - destruct (TypeConfig.isLoan config && (amt >? 0)).
    + match goal with
      | |- context [if ?c then _ else _] => destruct c
      end; cbn [fst snd]; split; reflexivity.
    + destruct ((ty =? "rrsp")%string && (amt >? 0)); cbn [fst snd] in *;
        unfold source_loan in Hloan; cbn in Hloan;
        injection Hloan as -> -> -> -> ->; split; reflexivity.
  - cbn [fst snd] in *. unfold source_loan in Hloan; cbn in Hloan.
    injection Hloan as -> -> -> -> ->. split; reflexivity.
Qed.

Lemma write_slot_fixed (w : option nat) (v : Q) (i : nat) (a : Source.t) :
  Source.name (write_slot w v i a) = Source.name a
  /\ Source.sourceType (write_slot w v i a) = Source.sourceType a
  /\ Source.isAutoFillMortgage (write_slot w v i a)
     = Source.isAutoFillMortgage a
  /\ Source.isAutoCalculated (write_slot w v i a) = Source.isAutoCalculated a.
Proof. unfold write_slot. destruct (decide (w = Some i)); auto. Qed.

Lemma first_source_core (types : Types.t) (dom : Dom.t) (i : nat)
  (a : Source.t) :
  source_core (first_source types dom i a)
  = (Source.name a, resolved_type dom i a,
     resolved_amount dom i a (Types.get types (resolved_type dom i a)),
     Source.isAutoFillMortgage a, Source.isAutoCalculated a).
Proof. rewrite first_source_eq. reflexivity. Qed.

Lemma first_source_loan (types : Types.t) (dom : Dom.t) (i : nat)
  (a : Source.t) :
  source_loan (first_source types dom i a) = source_loan a.
Proof. rewrite first_source_eq. reflexivity. Qed.

Lemma written_present (p : option Source.t -> bool)
  (sd : list (option Source.t) * Dom.t) (i : nat) :
  written p sd = Some i ->
  findIndex p sd.1 = Some i
  /\ is_Some (Dom.inputs sd.2 (Indexed "financing-amount" i)).
Proof.
  unfold written. destruct (findIndex p sd.1) as [j|]; [|discriminate].
  destruct (Dom.inputs sd.2 (Indexed "financing-amount" j)) eqn:E;
    [|discriminate].
  intros [= <-]. split; [reflexivity|]. rewrite E. eexists. reflexivity.
Qed.

Lemma written_same (p : option Source.t -> bool)
  (sd sd' : list (option Source.t) * Dom.t) :
  findIndex p sd'.1 = findIndex p sd.1 ->
  (forall i : nat,
      is_Some (Dom.inputs sd'.2 (Indexed "financing-amount" i))
      <-> is_Some (Dom.inputs sd.2 (Indexed "financing-amount" i))) ->
  written p sd' = written p sd.
Proof.
  intros Hfind Hsome. unfold written. rewrite Hfind.
  destruct (findIndex p sd.1) as [i|]; [|reflexivity].
  specialize (Hsome i).
  destruct (Dom.inputs sd'.2 _) as [x|], (Dom.inputs sd.2 _) as [y|];
    try reflexivity.
  - destruct Hsome as [H _]. destruct H as [z Hz]; [eexists; reflexivity|].
    discriminate.
  - destruct Hsome as [_ H]. destruct H as [z Hz]; [eexists; reflexivity|].
    discriminate.
Qed.

(** A write to the slot that was found changes no field from there to not
    there. *)
Lemma written_is_Some (w : option nat) (v shown : Q)
  (sd : list (option Source.t) * Dom.t) (id : ElementId) :
  (forall i : nat,
      w = Some i -> is_Some (Dom.inputs sd.2 (Indexed "financing-amount" i))) ->
  is_Some
    (Dom.inputs
       match w with Some i => write_amount i v shown sd | None => sd end.2 id)
  <-> is_Some (Dom.inputs sd.2 id).
Proof.
  intros Hw. rewrite written_inputs.
  destruct (decide (Indexed "financing-amount" <$> w = Some id)) as [E|E];
    [|reflexivity].
  destruct w as [i|]; [|discriminate]. cbn in E. injection E as <-.
  split; [intros _; apply Hw; reflexivity | intros _; eexists; reflexivity].
Qed.

Lemma written_amount_field (w : option nat) (i : nat) :
  Indexed "financing-amount" <$> w = Some (Indexed "financing-amount" i)
  <-> w = Some i.
Proof.
  destruct w as [j|]; cbn; split; intros H; try discriminate;
    injection H as ->; reflexivity.
Qed.

Lemma written_other_field (w : option nat) (prefix : string) (i : nat) :
  prefix <> "financing-amount"%string ->
  Indexed "financing-amount" <$> w <> Some (Indexed prefix i).
Proof.
  intros Hne. destruct w as [j|]; cbn; [|discriminate].
  intros [= E _]. apply Hne. symmetry. exact E.
Qed.

(** The writes and the two passes over the sources, run on what they left,
    leave it as it is. *)
Lemma financing_twice (Math_pow : Q -> Q -> Q) (types : Types.t)
  (totalMortgage downPayment : Q) (s0 : list (option Source.t))
  (d0 : Dom.t) :
  TypeConfig.isAutoCalculated (Types.parents_loan types) = true ->
  let fin :=
    financing Math_pow types downPayment
      (updateBankMortgageAmount totalMortgage (s0, d0)) in
  let fin' :=
    financing Math_pow types downPayment
      (updateBankMortgageAmount totalMortgage fin.1) in
  fin'.1.1 = fin.1.1 /\ fin'.2 = fin.2 /\ same_page fin.1.2 fin'.1.2.
Proof.
  intros Hpl. cbn zeta. unfold financing, first_pass_and_gap. cbn [fst snd].
  rewrite !updateParentsLoanAmount_written.
  rewrite !updateBankMortgageAmount_written.
  set (wm := written is_auto_fill_slot (s0, d0)).
  set (vm := positive_part totalMortgage).
  set (sd1 := match wm with
              | Some i => write_amount i vm (Math_round vm) (s0, d0)
              | None => (s0, d0)
              end).
  set (p1 := first_pass types sd1.2 0 sd1.1 Pass1_start).
  set (vg := positive_part
               (Qmax 0 (downPayment - Pass1.totalSavingsForDownPayment p1.2))).
  set (wg := written is_gap_slot (p1.1, sd1.2)).
  set (sd3 := match wg with
              | Some i => write_amount i vg (Math_round vg) (p1.1, sd1.2)
              | None => (p1.1, sd1.2)
              end).
  set (p2 := second_pass Math_pow types sd3.2 0 sd3.1 Pass2_start).
  (* the slots of the first run *)
  set (a1 := fun (i : nat) (a : Source.t) => write_slot wm vm i a).
  set (a2 := fun (i : nat) (a : Source.t) =>
               first_source types sd1.2 i (a1 i a)).
  set (a3 := fun (i : nat) (a : Source.t) => write_slot wg vg i (a2 i a)).
  set (a4 := fun (i : nat) (a : Source.t) =>
               second_source Math_pow types sd3.2 i (a3 i a)).
  assert (Hs1 : sd1.1 = slots_map a1 0 s0)
    by apply (written_slots wm vm (Math_round vm) (s0, d0)).
  assert (Hs2 : p1.1 = slots_map a2 0 s0).
  { unfold p1. rewrite first_pass_fst, Hs1, slots_map_compose. reflexivity. }
  assert (Hs3 : sd3.1 = slots_map a3 0 s0).
  { unfold sd3.
    rewrite (written_slots wg vg (Math_round vg) (p1.1, sd1.2)).
    cbn [fst]. rewrite Hs2, slots_map_compose. reflexivity. }
  assert (Hs4 : p2.1 = slots_map a4 0 s0).
  { unfold p2. rewrite second_pass_fst, Hs3, slots_map_compose.
    reflexivity. }
  (* the pages of the first run *)
  assert (Hwm : forall i : nat,
             wm = Some i ->
             is_Some (Dom.inputs d0 (Indexed "financing-amount" i))).
  { intros i E. apply (written_present _ (s0, d0) i E). }
  assert (Hwg : forall i : nat,
             wg = Some i ->
             is_Some (Dom.inputs sd1.2 (Indexed "financing-amount" i))).
  { intros i E. apply (written_present _ (p1.1, sd1.2) i E). }
  assert (Hd1 : forall id : ElementId,
             Dom.inputs sd1.2 id
             = if decide (Indexed "financing-amount" <$> wm = Some id)
               then Some (Math_round vm) else Dom.inputs d0 id)
    by (intros id; apply (written_inputs wm vm _ (s0, d0))).
  assert (Hd3 : forall id : ElementId,
             Dom.inputs sd3.2 id
             = if decide (Indexed "financing-amount" <$> wg = Some id)
               then Some (Math_round vg) else Dom.inputs sd1.2 id)
    by (intros id; apply (written_inputs wg vg _ (p1.1, sd1.2))).
  destruct (written_rest wm vm (Math_round vm) (s0, d0))
    as (Hsel1 & Hchk1 & Hcards1).
  destruct (written_rest wg vg (Math_round vg) (p1.1, sd1.2))
    as (Hsel3 & Hchk3 & Hcards3).
  cbn zeta in Hsel1, Hchk1, Hcards1, Hsel3, Hchk3, Hcards3.
  fold sd1 in Hsel1, Hchk1, Hcards1. fold sd3 in Hsel3, Hchk3, Hcards3.
  cbn [snd] in Hsel1, Hchk1, Hcards1, Hsel3, Hchk3, Hcards3.
  (* the gap slot is of an auto-calculated type *)
  assert (Hgap : forall (i : nat) (a : Source.t),
             s0 !! i = Some (Some a) -> wg = Some i ->
             from_option TypeConfig.isAutoCalculated false
               (Types.get types (Source.sourceType (a2 i a))) = true).
  { intros i a Hi E.
    destruct (written_present _ (p1.1, sd1.2) i E) as (Hfind & _).
    cbn [fst] in Hfind.
    destruct (findIndex_Some _ _ _ Hfind) as (x & Hx & Hp).
    rewrite Hs2, lookup_slots_map, Hi in Hx. cbn in Hx.
    injection Hx as <-. unfold is_gap_slot in Hp.
    apply andb_prop in Hp as (_ & Hp). apply String.eqb_eq in Hp.
    rewrite Hp. cbn. exact Hpl. }
  (* the second run writes to the same slot *)
  assert (Hfill : forall (i : nat) (a : Source.t),
             Source.isAutoFillMortgage (a4 i a) = Source.isAutoFillMortgage a).
  { intros i a. unfold a4.
    pose proof (second_source_core Math_pow types sd3.2 i (a3 i a)) as Hc.
    unfold source_core in Hc. injection Hc as _ _ _ Hc _. rewrite Hc.
    unfold a3. destruct (write_slot_fixed wg vg i (a2 i a)) as (_ & _ & -> & _).
    pose proof (first_source_core types sd1.2 i (a1 i a)) as Hc1.
    unfold source_core in Hc1. injection Hc1 as _ _ _ Hc1 _.
    unfold a2. rewrite Hc1. unfold a1.
    destruct (write_slot_fixed wm vm i a) as (_ & _ & -> & _). reflexivity. }
  assert (Hwm' : written is_auto_fill_slot (p2.1, sd3.2) = wm).
  { apply (written_same _ (s0, d0) (p2.1, sd3.2)); cbn [fst snd].
    - rewrite Hs4. rewrite <- (slots_map_id s0 0) at 2.
      apply findIndex_slots_map. intros k a _. cbn [is_auto_fill_slot].
      apply Hfill.
    - intros i. unfold sd3. rewrite (written_is_Some wg vg _ (p1.1, sd1.2))
        by exact Hwg.
      cbn [snd]. unfold sd1.
      rewrite (written_is_Some wm vm _ (s0, d0)) by exact Hwm.
      reflexivity. }
  rewrite Hwm'.
  set (sd5 := match wm with
              | Some i => write_amount i vm (Math_round vm) (p2.1, sd3.2)
              | None => (p2.1, sd3.2)
              end).
  set (p1' := first_pass types sd5.2 0 sd5.1 Pass1_start).
  set (b5 := fun (i : nat) (a : Source.t) => write_slot wm vm i (a4 i a)).
  set (b6 := fun (i : nat) (a : Source.t) =>
               first_source types sd5.2 i (b5 i a)).
  assert (Hs5 : sd5.1 = slots_map b5 0 s0).
  { unfold sd5.
    rewrite (written_slots wm vm (Math_round vm) (p2.1, sd3.2)).
    cbn [fst]. rewrite Hs4, slots_map_compose. reflexivity. }
  assert (Hs6 : p1'.1 = slots_map b6 0 s0).
  { unfold p1'. rewrite first_pass_fst, Hs5, slots_map_compose.
    reflexivity. }
  assert (Hd5 : forall id : ElementId,
             Dom.inputs sd5.2 id
             = if decide (Indexed "financing-amount" <$> wm = Some id)
               then Some (Math_round vm) else Dom.inputs sd3.2 id)
    by (intros id; apply (written_inputs wm vm _ (p2.1, sd3.2))).
  destruct (written_rest wm vm (Math_round vm) (p2.1, sd3.2))
    as (Hsel5 & Hchk5 & Hcards5).
  cbn zeta in Hsel5, Hchk5, Hcards5. fold sd5 in Hsel5, Hchk5, Hcards5.
  cbn [snd] in Hsel5, Hchk5, Hcards5.
  (* the first pass reads what it read *)
  assert (Hfirst : forall (i : nat) (a : Source.t),
             s0 !! i = Some (Some a) ->
             resolved_type sd5.2 i (b5 i a) = resolved_type sd1.2 i (a1 i a)
             /\ resolved_amount sd5.2 i (b5 i a)
                  (Types.get types (resolved_type sd1.2 i (a1 i a)))
                = resolved_amount sd1.2 i (a1 i a)
                    (Types.get types (resolved_type sd1.2 i (a1 i a)))).
  { intros i a Hi.
    apply (settle_first types sd1.2 sd5.2 wm wg vm vg i a (a4 i a)).
    - congruence.
    - apply second_source_core.
    - apply Hgap. exact Hi.
    - intros Hcase. rewrite Hd5, Hd3, Hd1.
      destruct (decide (Indexed "financing-amount" <$> wm
                        = Some (Indexed "financing-amount" i))) as [E|E];
        [reflexivity|].
      rewrite written_amount_field in E.
      destruct Hcase as [Hcase|Hcase]; [contradiction|].
      rewrite decide_False; [reflexivity|].
      rewrite written_amount_field. exact Hcase. }
  assert (Hp1 : p1'.2 = p1.2).
  { unfold p1', p1. rewrite Hs5, Hs1. apply first_pass_snd.
    intros k a acc Hk. cbn [Nat.add].
    destruct (Hfirst k a Hk) as (Hty & Hamt).
    apply first_pass_source_snd; assumption. }
  rewrite Hp1. fold vg.
  (* the second run fills the gap in the same slot *)
  assert (Hcore6 : forall (i : nat) (a : Source.t),
             s0 !! i = Some (Some a) ->
             source_core (b6 i a) = source_core (a2 i a)).
  { intros i a Hi. unfold b6, a2. rewrite !first_source_core.
    destruct (Hfirst i a Hi) as (Hty & Hamt). rewrite Hty, Hamt.
    unfold b5. destruct (write_slot_fixed wm vm i (a4 i a))
      as (-> & _ & -> & ->).
    pose proof (second_source_core Math_pow types sd3.2 i (a3 i a)) as Hc.
    fold (a4 i a) in Hc. unfold source_core in Hc.
    injection Hc as -> _ _ -> ->.
    unfold a3. destruct (write_slot_fixed wg vg i (a2 i a))
      as (-> & _ & -> & ->).
    pose proof (first_source_core types sd1.2 i (a1 i a)) as Hc1.
    fold (a2 i a) in Hc1. unfold source_core in Hc1.
    injection Hc1 as -> _ _ -> ->. reflexivity. }
  assert (Hwg' : written is_gap_slot (p1'.1, sd5.2) = wg).
  { apply (written_same _ (p1.1, sd1.2) (p1'.1, sd5.2)); cbn [fst snd].
    - rewrite Hs6, Hs2. apply findIndex_slots_map. intros k a Hk.
      cbn [Nat.add is_gap_slot].
      pose proof (Hcore6 k a Hk) as Hc. unfold source_core in Hc.
      injection Hc as _ -> _ _ ->. reflexivity.
    - intros i. unfold sd5.
      rewrite (written_is_Some wm vm _ (p2.1, sd3.2)).
      + cbn [snd]. unfold sd3.
        rewrite (written_is_Some wg vg _ (p1.1, sd1.2)) by exact Hwg.
        reflexivity.
      + intros j E. cbn [snd]. unfold sd3.
        rewrite (written_is_Some wg vg _ (p1.1, sd1.2)) by exact Hwg.
        cbn [snd]. unfold sd1.
        rewrite (written_is_Some wm vm _ (s0, d0)) by exact Hwm.
        apply Hwm. exact E. }
  rewrite Hwg'.
  set (sd7 := match wg with
              | Some i => write_amount i vg (Math_round vg) (p1'.1, sd5.2)
              | None => (p1'.1, sd5.2)
              end).
  set (p2' := second_pass Math_pow types sd7.2 0 sd7.1 Pass2_start).
  set (b7 := fun (i : nat) (a : Source.t) => write_slot wg vg i (b6 i a)).
  assert (Hs7 : sd7.1 = slots_map b7 0 s0).
  { unfold sd7.
    rewrite (written_slots wg vg (Math_round vg) (p1'.1, sd5.2)).
    cbn [fst]. rewrite Hs6, slots_map_compose. reflexivity. }
  assert (Hd7 : forall id : ElementId,
             Dom.inputs sd7.2 id
             = if decide (Indexed "financing-amount" <$> wg = Some id)
               then Some (Math_round vg) else Dom.inputs sd5.2 id)
    by (intros id; apply (written_inputs wg vg _ (p1'.1, sd5.2))).
  destruct (written_rest wg vg (Math_round vg) (p1'.1, sd5.2))
    as (Hsel7 & Hchk7 & Hcards7).
  cbn zeta in Hsel7, Hchk7, Hcards7. fold sd7 in Hsel7, Hchk7, Hcards7.
  cbn [snd] in Hsel7, Hchk7, Hcards7.
  assert (Hpage : forall id : ElementId,
             Dom.inputs sd7.2 id = Dom.inputs sd3.2 id).
  { intros id. rewrite Hd7, Hd5, Hd3.
    destruct (decide (Indexed "financing-amount" <$> wg = Some id));
      [reflexivity|].
    rewrite Hd1.
    destruct (decide (Indexed "financing-amount" <$> wm = Some id));
      reflexivity. }
  (* the second pass gives what it gave *)
  assert (Hsecond : forall (i : nat) (a : Source.t),
             s0 !! i = Some (Some a) ->
             second_source Math_pow types sd7.2 i (b7 i a) = a4 i a
             /\ forall acc : Pass2.t,
                  (second_pass_source Math_pow types sd7.2 i (b7 i a) acc).2
                  = (second_pass_source Math_pow types sd3.2 i (a3 i a) acc).2).
  { intros i a Hi.
    apply (second_source_settled Math_pow types sd3.2 sd7.2 i (a3 i a)
             (b7 i a)); try apply Hpage.
    - unfold b7, a3. apply write_slot_core, Hcore6, Hi.
    - fold (a4 i a). unfold b7. rewrite write_slot_loan. unfold b6.
      rewrite first_source_loan. unfold b5. apply write_slot_loan. }
  split; [|split].
  - unfold p2'. rewrite second_pass_fst, Hs7, slots_map_compose, Hs4.
    apply slots_map_ext. intros k a Hk. cbn [Nat.add].
    apply (Hsecond k a Hk).
  - f_equal. unfold p2', p2. rewrite Hs7, Hs3. apply second_pass_snd.
    intros k a acc Hk. cbn [Nat.add]. apply (Hsecond k a Hk).
  - unfold same_page. split; [exact Hpage|].
    split; [intros id; congruence|].
    split; [intros id; congruence | congruence].
Qed.

Lemma owners_pass_again (dom : Dom.t) (owners : list (option Owner.t)) :
  forall (index : nat) (acc acc' : OwnersAcc.t),
    owners_pass dom index (owners_pass dom index owners acc').1 acc
    = owners_pass dom index owners acc.
Proof.
  induction owners as [|[owner|] rest IH]; intros index acc acc';
    cbn [owners_pass fst snd]; [reflexivity| |].
  - rewrite IH. reflexivity.
  - rewrite IH. reflexivity.
Qed.

Lemma updateAffordabilityBars_page (d d' : Dom.t) (data : BarsData.t) :
  Dom.perPersonRatios d' = Dom.perPersonRatios d ->
  updateAffordabilityBars d' data = updateAffordabilityBars d data.
Proof.
  intros H. unfold updateAffordabilityBars, updatePerPersonRatios.
  rewrite H. reflexivity.
Qed.

(** X30. With a table of types in which the loan from the parents is
    auto-calculated, as in [FINANCING_TYPES], a recalculation pass run on the
    state a pass has left changes nothing: it leaves the same sources, the
    same members, the same mode and a page with the same fields, and it
    computes the same figures. *)
Theorem calculate_twice_changes_nothing (Math_pow : Q -> Q -> Q)
  (types : Types.t) (st : State.t) :
  TypeConfig.isAutoCalculated (Types.parents_loan types) = true ->
  let once := calculate Math_pow types st in
  let twice := calculate Math_pow types once.1 in
  twice.2 = once.2
  /\ State.financingSources twice.1 = State.financingSources once.1
  /\ State.owners twice.1 = State.owners once.1
  /\ State.downPaymentMode twice.1 = State.downPaymentMode once.1
  /\ same_page (State.dom once.1) (State.dom twice.1).
Proof.
  intros Hpl once twice.
  destruct (calculate_dom_kept Math_pow types st)
    as (Hin & _ & _ & Hchk & _).
  fold once in Hin, Hchk.
  assert (Hnamed : forall id : string,
             getInputValue (State.dom once.1) (Named id)
             = getInputValue (State.dom st) (Named id)).
  { intros id. unfold getInputValue. rewrite Hin by discriminate.
    reflexivity. }
  assert (Hdown : getDownPaymentAmount (State.downPaymentMode st)
                    (State.dom once.1)
                  = getDownPaymentAmount (State.downPaymentMode st)
                      (State.dom st)).
  { unfold getDownPaymentAmount. rewrite !Hnamed. reflexivity. }
  unfold twice. unfold calculate at 1 2 3 4 5.
  cbn [fst snd State.downPaymentMode].
  change (State.downPaymentMode once.1) with (State.downPaymentMode st).
  rewrite !Hnamed, Hdown, Hchk.
  subst once. unfold calculate.
  cbn [fst snd State.financingSources State.owners State.downPaymentMode
         State.dom].
  set (dom := State.dom st).
  set (downPayment := getDownPaymentAmount (State.downPaymentMode st) dom).
  set (totalMortgage :=
         CmhcResult.totalMortgage
           (calculateCmhc (getInputValue dom (Named "offerPrice"))
              downPayment
              (default false (Dom.checked dom (Named "is30Year"))))).
  set (fin := financing Math_pow types downPayment
                (updateBankMortgageAmount totalMortgage
                   (State.financingSources st, dom))).
  rewrite <- (surjective_pairing fin.1).
  set (fin' := financing Math_pow types downPayment
                 (updateBankMortgageAmount totalMortgage fin.1)).
  destruct (financing_twice Math_pow types totalMortgage downPayment
              (State.financingSources st) dom Hpl)
    as (Hf1 & Hf2 & Hpage).
  cbn zeta in Hf1, Hf2, Hpage. fold fin in Hf1, Hf2, Hpage.
  fold fin' in Hf1, Hf2, Hpage.
  destruct Hpage as (Hinputs & Hselects & Hchecked & Hcards).
  set (own := owners_pass fin.1.2 0 (State.owners st) OwnersAcc_start).
  assert (Hown : owners_pass fin'.1.2 0 own.1 OwnersAcc_start = own).
  { rewrite (owners_pass_agree fin'.1.2 fin.1.2)
      by (intros prefix j _ _; apply Hinputs).
    apply owners_pass_again. }
  rewrite Hown, Hf1, Hf2.
  rewrite (updateAffordabilityBars_page fin.1.2 fin'.1.2) by exact Hcards.
  split; [reflexivity|]. split; [reflexivity|]. split; [reflexivity|].
  split; [reflexivity|].
  unfold same_page. auto.
Qed.

(** The default page with a purchase at 400000. *)
Lemma calculate_twice_changes_nothing_witness :
  (calculate pow_ceiling FINANCING_TYPES
     (calculate pow_ceiling FINANCING_TYPES first_home).1).2
  = (calculate pow_ceiling FINANCING_TYPES first_home).2.
Proof.
  apply (calculate_twice_changes_nothing pow_ceiling FINANCING_TYPES
           first_home).
  reflexivity.
Defined.
